(** * autocert: certificate lifecycle orchestrator

    A shallow embedding of the Go packages [cmd] (the install command),
    [internal/cert] (single- and multi-domain managers),
    [internal/webserver] (the Nginx SSL scan and site file),
    [internal/backup] (which files go where) and [internal/scheduler]
    (cron jobs, the Windows task list), with the theorems that relate
    them to the written specification.

    Conventions.
    - Go strings are byte strings: [string] of the Standard Library, one
      [ascii] per byte; [len(s)] is [String.length s].
    - A pure Go function returning [error] returns [option error] ([None]
      is [nil]); one returning [(T, error)] returns [result T].
    - Code that touches the file system, the clock or the random source
      runs in the state-and-error monad [M] over an explicit [World];
      there a function returning [error] has type [M unit] and [Ok tt] is
      [nil].
    - Paths follow the POSIX rules of [path/filepath]; [runtime.GOOS] is
      not [windows]. Files and directories are looked up by cleaned
      path; what is on the disk is there under a path the system takes,
      in a directory that is there, and nothing lies below a regular
      file.
    - The crypto libraries are modelled by what they are asked and
      whether they answer: encodings are symbolic, and the text of a
      library error is not modelled.
    - Calls to [logger] and [fmt.Printf] only print; they are left out. *)

From Stdlib Require Import ZArith Ascii String List Bool Lia.
From stdpp Require Import gmap strings list pretty.

Open Scope string_scope.
Open Scope Z_scope.

(* ===================================================================== *)
(** * Part I. Definitions                                                 *)
(* ===================================================================== *)

(** ** Go package [strings] *)

Module GoStrings.

(** [strings.HasPrefix(s, prefix)] *)
Fixpoint HasPrefix (s prefix : string) {struct prefix} : bool :=
  match prefix, s with
  | EmptyString, _ => true
  | String p prefix', String c s' => Ascii.eqb c p && HasPrefix s' prefix'
  | String _ _, EmptyString => false
  end.
#[global] Arguments HasPrefix s prefix : simpl nomatch.

(** [strings.Contains(s, substr)]: [substr] occurs at some offset of [s]. *)
Fixpoint Contains (s substr : string) : bool :=
  if HasPrefix s substr then true
  else match s with
       | EmptyString => false
       | String _ s' => Contains s' substr
       end.

(** The slice expression [s[n:]] (for [n <= len(s)]). *)
Fixpoint slice_from (n : nat) (s : string) : string :=
  match n, s with
  | O, _ => s
  | S n', String _ s' => slice_from n' s'
  | S _, EmptyString => EmptyString
  end.

(** [strings.Join(elems, sep)] *)
Definition Join (elems : list string) (sep : string) : string :=
  String.concat sep elems.

(** [strings.Split(s, sep)] for a one-byte separator: the pieces between
    consecutive occurrences, [n+1] pieces for [n] occurrences. *)
Fixpoint splitByte (sep : ascii) (s : string) : list string :=
  match s with
  | EmptyString => [EmptyString]
  | String c s' =>
      if Ascii.eqb c sep then EmptyString :: splitByte sep s'
      else match splitByte sep s' with
           | [] => [String c EmptyString]
           | piece :: pieces => String c piece :: pieces
           end
  end.

Definition bytes (l : list nat) : string :=
  string_of_list_ascii (map ascii_of_nat l).

(** UTF-8 encodings of the code points for which [unicode.IsSpace] holds:
    TAB LF VT FF CR SPACE, U+0085, U+00A0, U+1680, U+2000..U+200A, U+2028,
    U+2029, U+202F, U+205F, U+3000. *)
Definition spaceRunes : list string :=
  map bytes
    [ [9%nat]; [10%nat]; [11%nat]; [12%nat]; [13%nat]; [32%nat];
      [194; 133]%nat; [194; 160]%nat; [225; 154; 128]%nat;
      [226; 128; 128]%nat; [226; 128; 129]%nat; [226; 128; 130]%nat;
      [226; 128; 131]%nat; [226; 128; 132]%nat; [226; 128; 133]%nat;
      [226; 128; 134]%nat; [226; 128; 135]%nat; [226; 128; 136]%nat;
      [226; 128; 137]%nat; [226; 128; 138]%nat; [226; 128; 168]%nat;
      [226; 128; 169]%nat; [226; 128; 175]%nat; [226; 129; 159]%nat;
      [227; 128; 128]%nat ].

(** Remove one leading rune of [runes], if [s] starts with one. *)
Fixpoint stripRune (runes : list string) (s : string) : option string :=
  match runes with
  | [] => None
  | r :: runes' =>
      if HasPrefix s r then Some (slice_from (String.length r) s)
      else stripRune runes' s
  end.

Fixpoint trimLeft (fuel : nat) (runes : list string) (s : string) : string :=
  match fuel with
  | O => s
  | S fuel' =>
      match stripRune runes s with
      | Some s' => trimLeft fuel' runes s'
      | None => s
      end
  end.

Definition reverse (s : string) : string :=
  string_of_list_ascii (rev (list_ascii_of_string s)).

(** [strings.TrimSpace(s)]: leading and trailing white space removed. *)
Definition TrimSpace (s : string) : string :=
  let s1 := trimLeft (String.length s) spaceRunes s in
  reverse (trimLeft (String.length s1) (map reverse spaceRunes) (reverse s1)).

(** Number of occurrences of the byte [c] in [s]. *)
Fixpoint countByte (c : ascii) (s : string) : nat :=
  match s with
  | EmptyString => O
  | String c' s' => ((if Ascii.eqb c' c then 1 else 0) + countByte c s')%nat
  end.

End GoStrings.

(** ** Go errors *)

(** Error numbers of failed system calls; [EIO] stands for any failure the
    file-system state does not explain (permissions, full disk, ...). *)
Inductive Errno := ENOENT | ENOTDIR | EISDIR | EINVAL | ENAMETOOLONG | EIO.

(** An error of the crypto libraries or of [os/exec] is [libError]:
    [origin] tells the failures of the model apart; the text such an
    error prints depends on the library and on the data it refused, and
    is not modelled. *)
Inductive error : Type :=
| errorString (msg : string)            (* fmt.Errorf without %w *)
| wrapError (msg : string) (err : error) (* fmt.Errorf("<msg>: %w", err) *)
| PathError (op path : string) (errno : Errno) (* *fs.PathError *)
| libError (origin : string).            (* crypto/rsa, crypto/x509 *)

(** [err.Error()], where the model has the text. *)
Fixpoint Error (e : error) : option string :=
  match e with
  | errorString msg => Some msg
  | wrapError msg err =>
      match Error err with
      | Some text => Some (msg ++ ": " ++ text)
      | None => None
      end
  | PathError op path errno =>
      Some (op ++ " " ++ path ++ ": " ++
            match errno with
            | ENOENT => "no such file or directory"
            | ENOTDIR => "not a directory"
            | EISDIR => "is a directory"
            | EINVAL => "invalid argument"
            | ENAMETOOLONG => "file name too long"
            | EIO => "input/output error"
            end)
  | libError origin => None
  end.

Inductive result (A : Type) : Type :=
| Ok (a : A)
| Err (e : error).
Arguments Ok {A} a.
Arguments Err {A} e.

(** [os.IsNotExist(err)] on the first component of a [(_, err)] pair. *)
Definition os_IsNotExist {A} (r : result A) : bool :=
  match r with
  | Err (PathError _ _ ENOENT) => true
  | _ => false
  end.

(** ** Go package [path/filepath] (POSIX separator) *)

Module Filepath.
Import GoStrings.

Definition Separator : ascii := "/"%char.

(** The element pass of [filepath.Clean]: empty and [.] elements vanish,
    a [..] element removes the element before it, or stays when there is
    none and the path is not rooted. [stack] is in reverse order. *)
Fixpoint cleanElems (rooted : bool) (elems stack : list string)
  : list string :=
  match elems with
  | [] => rev stack
  | e :: elems' =>
      if String.eqb e "" || String.eqb e "." then
        cleanElems rooted elems' stack
      else if String.eqb e ".." then
        match stack with
        | top :: below =>
            if String.eqb top ".." then cleanElems rooted elems' (e :: stack)
            else cleanElems rooted elems' below
        | [] =>
            if rooted then cleanElems rooted elems' []
            else cleanElems rooted elems' [e]
        end
      else cleanElems rooted elems' (e :: stack)
  end.

(** [filepath.Clean(path)] *)
Definition Clean (path : string) : string :=
  if String.eqb path "" then "."
  else
    let rooted := HasPrefix path "/" in
    let out := (if rooted then "/" else "") ++
               Join (cleanElems rooted (splitByte Separator path) []) "/" in
    if String.eqb out "" then "." else out.

(** [filepath.Join(elem...)]: leading empty elements are ignored, the rest
    is joined with the separator and cleaned. *)
Fixpoint Join (elem : list string) : string :=
  match elem with
  | [] => ""
  | e :: elem' =>
      if String.eqb e "" then Join elem'
      else Clean (GoStrings.Join elem "/")
  end.

(** [path[:i+1]] for the last separator index [i] (empty without one). *)
Fixpoint uptoLastSeparator (path : string) : string :=
  match path with
  | EmptyString => EmptyString
  | String c path' =>
      if Contains path "/" then String c (uptoLastSeparator path')
      else EmptyString
  end.

(** [filepath.Dir(path)] *)
Definition Dir (path : string) : string := Clean (uptoLastSeparator path).

(** [path] and every directory above it. *)
Fixpoint ancestors (fuel : nat) (path : string) : list string :=
  match fuel with
  | O => [path]
  | S fuel' =>
      let parent := Dir path in
      if String.eqb parent path then [path]
      else path :: ancestors fuel' parent
  end.

(** *** Shapes of names and directory texts *)

(** A file name proper: not empty, not [.] or [..], without separator. *)
Definition plainName (name : string) : bool :=
  negb (String.eqb name "") && negb (String.eqb name ".") &&
  negb (String.eqb name "..") && negb (Contains name "/").

(** The elements, each followed by the separator. *)
Fixpoint dirText (elems : list string) : string :=
  match elems with
  | [] => ""
  | e :: elems' => e ++ "/" ++ dirText elems'
  end.

(** A text that is empty or ends with the separator. *)
Fixpoint dirForm (p : string) : bool :=
  match p with
  | EmptyString => true
  | String c EmptyString => Ascii.eqb c "/"%char
  | String _ p' => dirForm p'
  end.

(** An element that stays on the stack of [cleanElems] as a name. *)
Definition realElem (e : string) : Prop := e <> "" /\ e <> "." /\ e <> "..".

Definition noSlash (e : string) : Prop := Contains e "/" = false.

(** The stacks [cleanElems] builds: names on top of a run of [..], which
    is empty for a rooted path. *)
Definition cleanStack (rooted : bool) (stack : list string) : Prop :=
  exists names k,
    stack = (names ++ repeat ".." k)%list /\ Forall realElem names /\
    (rooted = true -> k = 0%nat).

(** The directory text of [x]: what [Clean] makes of [x/]. *)
Definition cleanDir (x : string) : string :=
  let rooted := HasPrefix (x ++ "/") "/" in
  (if rooted then "/" else "") ++
  dirText (cleanElems rooted (splitByte "/"%char x) []).

End Filepath.

(** ** Go package [time] *)

Module Time.

(** A [time.Time] is a wall-clock instant, in nanoseconds since the Unix
    epoch; a [time.Duration] is an [int64] count of nanoseconds. *)
Definition Nanosecond : Z := 1.
Definition Second : Z := 1000000000 * Nanosecond.
Definition Minute : Z := 60 * Second.
Definition Hour : Z := 60 * Minute.

Definition minDuration : Z := - 2 ^ 63.
Definition maxDuration : Z := 2 ^ 63 - 1.

(** [t.Add(d)] *)
Definition Add (t d : Z) : Z := t + d.

(** [t.Sub(u)]: the difference, saturated to the range of [Duration]. *)
Definition Sub (t u : Z) : Z :=
  if t - u <? minDuration then minDuration
  else if maxDuration <? t - u then maxDuration
  else t - u.

(** [t.Before(u)] *)
Definition Before (t u : Z) : bool := t <? u.

(** ASN.1 times carry whole seconds: what is left of an instant once it
    went through a certificate. *)
Definition truncSecond (t : Z) : Z := (t / Second) * Second.

End Time.

(** ** Key material, certificates and their encodings

    DER and PEM encodings are modelled symbolically: an encoding is the
    term it encodes, everything else is opaque raw data. *)

Record pkix_Name := { CommonName : string }.

Record rsa_PrivateKey := {
  key_bits : Z;      (* modulus size asked for *)
  key_draw : nat;    (* which draw from rand.Reader produced it *)
}.

Record x509_CertificateRequest := {
  csr_Subject : pkix_Name;
  csr_DNSNames : list string;
}.

Record x509_Certificate := {
  Subject : pkix_Name;
  DNSNames : list string;
  NotBefore : Z;
  NotAfter : Z;
  KeyUsage : Z;
  ExtKeyUsage : list Z;
}.

Definition x509_KeyUsageDigitalSignature : Z := 1.
Definition x509_KeyUsageKeyEncipherment : Z := 4.
Definition x509_ExtKeyUsageServerAuth : Z := 1.

Inductive DER :=
| DerPrivateKey (key : rsa_PrivateKey)
| DerRequest (req : x509_CertificateRequest) (signer : rsa_PrivateKey)
| DerCertificate (cert : x509_Certificate) (signer : rsa_PrivateKey)
| DerOther (raw : string).

Record pem_Block := { Type_ : string; Bytes : DER }.

Inductive FileData :=
| RawData (raw : string)
| PemData (block : pem_Block).

Record File := { content : FileData; mode : Z }.

(** [pem.Decode(data)]: the first PEM block of [data], if there is one. *)
Definition pem_Decode (data : FileData) : option pem_Block :=
  match data with
  | PemData block => Some block
  | RawData _ => None
  end.

(** [isIA5String(s)] of [crypto/x509]: no rune of [s] is beyond ASCII.
    A byte from 0x80 on belongs to such a rune or decodes to U+FFFD, so
    the test is that every byte is below 0x80. *)
Definition isIA5String (s : string) : bool :=
  forallb (fun c => (nat_of_ascii c <? 128)%nat) (list_ascii_of_string s).

(** [utf8.ValidString(s)]: [pending] holds the ranges the next bytes of
    the rune under way must lie in. *)
Fixpoint utf8_valid (pending : list (nat * nat)) (s : string) : bool :=
  match s with
  | EmptyString => match pending with [] => true | _ :: _ => false end
  | String c s' =>
      let b := nat_of_ascii c in
      let tail := (128, 191)%nat in
      match pending with
      | (lo, hi) :: rest =>
          (lo <=? b)%nat && (b <=? hi)%nat && utf8_valid rest s'
      | [] =>
          if (b <? 128)%nat then utf8_valid [] s'
          else if (b <? 194)%nat then false
          else if (b <? 224)%nat then utf8_valid [tail] s'
          else if (b =? 224)%nat then utf8_valid [(160, 191)%nat; tail] s'
          else if (b =? 237)%nat then utf8_valid [(128, 159)%nat; tail] s'
          else if (b <? 240)%nat then utf8_valid [tail; tail] s'
          else if (b =? 240)%nat then
            utf8_valid [(144, 191)%nat; tail; tail] s'
          else if (b <? 244)%nat then utf8_valid [tail; tail; tail] s'
          else if (b =? 244)%nat then
            utf8_valid [(128, 143)%nat; tail; tail] s'
          else false
      end
  end.

Definition utf8_ValidString (s : string) : bool := utf8_valid [] s.

(** What [crypto/x509] refuses to encode, whatever the host: a DNS name
    that is no IA5String, and a common name that is not valid UTF-8. *)
Definition namesRefused (subject : pkix_Name) (names : list string) : bool :=
  negb (forallb isIA5String names) ||
  negb (utf8_ValidString (CommonName subject)).

(** [x509.MarshalPKCS1PrivateKey(key)] *)
Definition x509_MarshalPKCS1PrivateKey (key : rsa_PrivateKey) : DER :=
  DerPrivateKey key.

(** [x509.ParseCertificate(der)] *)
Definition x509_ParseCertificate (der : DER) : result x509_Certificate :=
  match der with
  | DerCertificate cert _ => Ok cert
  | _ => Err (libError "x509.ParseCertificate")
  end.

(** [x509.ParseCertificateRequest(der)] *)
Definition x509_ParseCertificateRequest (der : DER)
  : result x509_CertificateRequest :=
  match der with
  | DerRequest req _ => Ok req
  | _ => Err (libError "x509.ParseCertificateRequest")
  end.

(** ** The world outside the process *)

(** Calls into the operating system and the crypto library that can fail
    for reasons outside the model: permissions, a full disk, an exhausted
    random source. The [faults] of a world say which of them do. *)
Inductive call :=
| CallMkdirAll (path : string)
| CallCreate (path : string)
| CallWrite (path : string)
| CallChmod (path : string)
| CallWriteFile (path : string)
| CallStat (path : string)
| CallReadFile (path : string)
| CallGenerateKey (draw : nat)
| CallCreateCertificateRequest
| CallCreateCertificate.

Record World := {
  files : gmap string File;   (* regular files, by cleaned path *)
  dirs : gset string;         (* directories *)
  umask : Z;
  clock : nat -> Z;           (* successive readings of the wall clock,
                                 instants of the years 0 to 9999, which
                                 a certificate can carry *)
  reads : nat;                (* readings taken so far *)
  entropy : nat;              (* keys drawn from rand.Reader so far *)
  faults : call -> bool;      (* calls that fail with an outside cause *)
  serialNumbers : bool;       (* crypto/x509 draws the serial number of a
                                 template without one (Go 1.24 and later);
                                 earlier versions refuse the template *)
  nameMax : nat;              (* longest path element, in bytes (NAME_MAX) *)
  pathMax : nat;              (* paths must be shorter (PATH_MAX) *)
}.

Definition set_files (f : gmap string File) (w : World) : World :=
  {| files := f; dirs := dirs w; umask := umask w; clock := clock w;
     reads := reads w; entropy := entropy w; faults := faults w;
     serialNumbers := serialNumbers w; nameMax := nameMax w;
     pathMax := pathMax w |}.

Definition set_dirs (d : gset string) (w : World) : World :=
  {| files := files w; dirs := d; umask := umask w; clock := clock w;
     reads := reads w; entropy := entropy w; faults := faults w;
     serialNumbers := serialNumbers w; nameMax := nameMax w;
     pathMax := pathMax w |}.

Definition set_reads (n : nat) (w : World) : World :=
  {| files := files w; dirs := dirs w; umask := umask w; clock := clock w;
     reads := n; entropy := entropy w; faults := faults w;
     serialNumbers := serialNumbers w; nameMax := nameMax w;
     pathMax := pathMax w |}.

Definition set_entropy (n : nat) (w : World) : World :=
  {| files := files w; dirs := dirs w; umask := umask w; clock := clock w;
     reads := reads w; entropy := n; faults := faults w;
     serialNumbers := serialNumbers w; nameMax := nameMax w;
     pathMax := pathMax w |}.

(** State-and-error monad of the effectful code. *)
Definition M (A : Type) : Type := World -> result A * World.

Definition ret {A} (a : A) : M A := fun w => (Ok a, w).
Definition fail {A} (e : error) : M A := fun w => (Err e, w).

Definition bind {A B} (c : M A) (k : A -> M B) : M B :=
  fun w =>
    match c w with
    | (Ok a, w') => k a w'
    | (Err e, w') => (Err e, w')
    end.

(** [if err != nil { return fmt.Errorf("<msg>: %w", err) }] *)
Definition wrap {A} (msg : string) (c : M A) : M A :=
  fun w =>
    match c w with
    | (Ok a, w') => (Ok a, w')
    | (Err e, w') => (Err (wrapError msg e), w')
    end.

Declare Scope go_scope.
Delimit Scope go_scope with go.
Notation "'let*' x := c 'in' k" := (bind c (fun x => k))
  (at level 10, x name, c at level 100, k at level 200) : go_scope.
Notation "c ;;; k" := (bind c (fun _ => k))
  (at level 100, k at level 200, right associativity) : go_scope.
Open Scope go_scope.

Module OS.

Definition isFile (w : World) (path : string) : bool :=
  bool_decide (is_Some (files w !! path)).

Definition isDir (w : World) (path : string) : bool :=
  bool_decide (path ∈ dirs w).

(** A path refused before any look at the disk: one with a NUL byte,
    which the [syscall] package refuses, or one as long as the host's
    limit. *)
Definition malformed (w : World) (path : string) : option Errno :=
  if negb (GoStrings.countByte (ascii_of_nat 0) path =? 0)%nat then
    Some EINVAL
  else if (pathMax w <=? String.length path)%nat then Some ENAMETOOLONG
  else None.

(** An element longer than a directory of the host has room for. *)
Definition longName (w : World) (elem : string) : bool :=
  (nameMax w <? String.length elem)%nat.

(** A path under which nothing can be made, whatever is on the disk. *)
Definition refused (w : World) (path : string) : option Errno :=
  match malformed w path with
  | Some errno => Some errno
  | None =>
      if existsb (longName w) (GoStrings.splitByte Filepath.Separator path)
      then Some ENAMETOOLONG
      else None
  end.

Definition accepts (w : World) (path : string) : bool :=
  match refused w path with
  | None => true
  | Some _ => false
  end.

(** The first refused path of a list, with the error number. *)
Fixpoint firstRefused (w : World) (paths : list string)
  : option (string * Errno) :=
  match paths with
  | [] => None
  | p :: rest =>
      match refused w p with
      | Some errno => Some (p, errno)
      | None => firstRefused w rest
      end
  end.

(** The error number of a call that finds nothing at [path]: the system
    walks down from the root and stops at the first step it cannot take.
    Below a regular file that is "not a directory"; where an entry is
    wanting, it is "name too long" when the name is, and "no such file or
    directory" otherwise. *)
Definition missing (w : World) (path : string) : Errno :=
  match malformed w path with
  | Some errno => errno
  | None =>
      let wanting p :=
        if longName w
             (List.last (GoStrings.splitByte Filepath.Separator p) "")
        then ENAMETOOLONG else ENOENT in
      let above := tl (Filepath.ancestors (String.length path) path) in
      match find (fun p => negb (isDir w p)) (rev above) with
      | Some p => if isFile w p then ENOTDIR else wanting p
      | None => wanting path
      end
  end.

(** [os.MkdirAll(path, perm)]. The error for a regular file in the way
    names that file, the first one met from [path] upwards. When the
    system refuses [path] or directories above it, the ones it takes are
    made all the same, and the error names the highest one refused. *)
Definition MkdirAll (path : string) (perm : Z) : M unit := fun w =>
  if String.eqb path "" then (Err (PathError "mkdir" path ENOENT), w)
  else if faults w (CallMkdirAll path) then
    (Err (PathError "mkdir" path EIO), w)
  else
    let chain := Filepath.ancestors (String.length path) path in
    let taken := List.filter (accepts w) chain in
    match find (isFile w) taken with
    | Some above => (Err (PathError "mkdir" above ENOTDIR), w)
    | None =>
        match firstRefused w (rev chain) with
        | Some (high, errno) =>
            (Err (PathError "mkdir" high errno),
             set_dirs (dirs w ∪ list_to_set taken) w)
        | None => (Ok tt, set_dirs (dirs w ∪ list_to_set chain) w)
        end
    end.

(** Opening [path] with [O_CREATE|O_TRUNC] and permission [perm]. *)
Definition openTrunc (op : string) (c : call) (path : string) (perm : Z)
  : M unit := fun w =>
  if faults w c then (Err (PathError op path EIO), w)
  else if isDir w path then (Err (PathError op path EISDIR), w)
  else if negb (accepts w path) || negb (isDir w (Filepath.Dir path)) then
    (Err (PathError op path (missing w path)), w)
  else
    let m := match files w !! path with
             | Some f => mode f
             | None => Z.ldiff perm (umask w)
             end in
    (Ok tt, set_files (<[path := {| content := RawData ""; mode := m |}]>
                         (files w)) w).

(** [os.Create(path)]; the open file is named by its path. *)
Definition Create (path : string) : M unit :=
  openTrunc "open" (CallCreate path) path 438 (* 0666 *).

(** Writing [data] to the file just created at [path]. *)
Definition Write (path : string) (data : FileData) : M unit := fun w =>
  if faults w (CallWrite path) then (Err (PathError "write" path EIO), w)
  else
    match files w !! path with
    | Some f =>
        (Ok tt, set_files (<[path := {| content := data; mode := mode f |}]>
                             (files w)) w)
    | None => (Err (PathError "write" path ENOENT), w)
    end.

(** [os.Chmod(path, mode)] *)
Definition Chmod (path : string) (m : Z) : M unit := fun w =>
  if faults w (CallChmod path) then (Err (PathError "chmod" path EIO), w)
  else
    match files w !! path with
    | Some f =>
        (Ok tt, set_files (<[path := {| content := content f; mode := m |}]>
                             (files w)) w)
    | None =>
        if isDir w path then (Ok tt, w)
        else (Err (PathError "chmod" path (missing w path)), w)
    end.

(** [os.WriteFile(path, data, perm)] *)
Definition WriteFile (path : string) (data : FileData) (perm : Z) : M unit :=
  openTrunc "open" (CallWriteFile path) path perm ;;;
  Write path data.

(** [os.Stat(path)] (the [FileInfo] is never used) *)
Definition Stat (path : string) : M unit := fun w =>
  if faults w (CallStat path) then (Err (PathError "stat" path EIO), w)
  else if isFile w path || isDir w path then (Ok tt, w)
  else (Err (PathError "stat" path (missing w path)), w).

(** [os.ReadFile(path)] *)
Definition ReadFile (path : string) : M FileData := fun w =>
  if faults w (CallReadFile path) then (Err (PathError "open" path EIO), w)
  else
    match files w !! path with
    | Some f => (Ok (content f), w)
    | None =>
        if isDir w path then (Err (PathError "read" path EISDIR), w)
        else (Err (PathError "open" path (missing w path)), w)
    end.

End OS.

(** [time.Now()]: the next reading of the clock. *)
Definition time_Now : M Z := fun w =>
  (Ok (clock w (reads w)), set_reads (S (reads w)) w).

(** [rsa.GenerateKey(rand.Reader, bits)] *)
Definition rsa_GenerateKey (bits : Z) : M rsa_PrivateKey := fun w =>
  if faults w (CallGenerateKey (entropy w)) then
    (Err (libError "crypto/rsa: key generation failed"),
     set_entropy (S (entropy w)) w)
  else
    (Ok {| key_bits := bits; key_draw := entropy w |},
     set_entropy (S (entropy w)) w).

(** [x509.CreateCertificateRequest(rand.Reader, template, priv)] *)
Definition x509_CreateCertificateRequest
    (template : x509_CertificateRequest) (priv : rsa_PrivateKey) : M DER :=
  fun w =>
    if faults w CallCreateCertificateRequest then
      (Err (libError "x509: cannot create certificate request"), w)
    else if namesRefused (csr_Subject template) (csr_DNSNames template) then
      (Err (libError "x509: cannot create certificate request"), w)
    else (Ok (DerRequest template priv), w).

(** [x509.CreateCertificate(rand.Reader, template, parent, pub, priv)] for a
    self-signed certificate ([parent] is [template], [pub] is the public
    half of [priv]); validity times are encoded in whole seconds. The
    templates of this program carry no serial number: the library draws
    one or refuses the template, as [serialNumbers] says. *)
Definition x509_CreateCertificate
    (template : x509_Certificate) (priv : rsa_PrivateKey) : M DER :=
  fun w =>
    if faults w CallCreateCertificate then
      (Err (libError "x509: cannot create certificate"), w)
    else if negb (serialNumbers w) then
      (Err (libError "x509: cannot create certificate"), w)
    else if namesRefused (Subject template) (DNSNames template) then
      (Err (libError "x509: cannot create certificate"), w)
    else
      (Ok (DerCertificate
             {| Subject := Subject template;
                DNSNames := DNSNames template;
                NotBefore := Time.truncSecond (NotBefore template);
                NotAfter := Time.truncSecond (NotAfter template);
                KeyUsage := KeyUsage template;
                ExtKeyUsage := ExtKeyUsage template |} priv), w).

(** [pem.Encode(file, block)] on the file opened at [path]. *)
Definition pem_Encode (path : string) (block : pem_Block) : M unit :=
  OS.Write path (PemData block).

(** ** Go package [internal/config] *)

Record Config := { CertDir : string }.

(** [config.GetCertDir()]: the configured directory, or the default of a
    non-Windows host when no configuration was loaded. *)
Definition GetCertDir (AppConfig : option Config) : string :=
  match AppConfig with
  | Some cfg => CertDir cfg
  | None => "/etc/autocert/certs"
  end.

(** ** Go package [internal/cert] *)

(** [ChallengeType] and [WebServerType] are Go [int]s with named values. *)
Definition ChallengeWebroot : Z := 0.
Definition ChallengeStandalone : Z := 1.
Definition ChallengeDNS : Z := 2.

Definition WebServerNginx : Z := 0.
Definition WebServerApache : Z := 1.
Definition WebServerIIS : Z := 2.

Record CertInfo := {
  Domain : string;
  CertPath : string;
  KeyPath : string;
  ChainPath : string;
  ExpiryDate : Z;
  IsValid : bool;
}.

(** [90 * 24 * time.Hour] and [30 * 24 * time.Hour] *)
Definition validity : Z := 90 * 24 * Time.Hour.
Definition renewThreshold : Z := 30 * 24 * Time.Hour.

(** The directory name of the specification's store layout: the primary
    domain, with the suffix [_san] when the set has more than one domain. *)
Definition storeDirName (domainSet : list string) : string :=
  match domainSet with
  | [] => ""
  | [only] => only
  | primary :: _ => primary ++ "_san"
  end.

Module Manager.

Record t := {
  domain : string;
  email : string;
  challengeType : Z;
  webrootPath : string;
  webServerType : Z;
  certDir : string;
  keySize : Z;
}.

Definition NewManager (AppConfig : option Config) (domain email : string)
  : t :=
  {| domain := domain;
     email := email;
     challengeType := ChallengeWebroot;
     webrootPath := "";
     webServerType := 0;
     certDir := GetCertDir AppConfig;
     keySize := 2048 |}.

Definition SetChallengeType (m : t) (challengeType : Z) : t :=
  {| domain := domain m; email := email m; challengeType := challengeType;
     webrootPath := webrootPath m; webServerType := webServerType m;
     certDir := certDir m; keySize := keySize m |}.

Definition SetWebrootPath (m : t) (path : string) : t :=
  {| domain := domain m; email := email m;
     challengeType := challengeType m;
     webrootPath := path; webServerType := webServerType m;
     certDir := certDir m; keySize := keySize m |}.

Definition SetWebServer (m : t) (webServerType : Z) : t :=
  {| domain := domain m; email := email m;
     challengeType := challengeType m;
     webrootPath := webrootPath m; webServerType := webServerType;
     certDir := certDir m; keySize := keySize m |}.

Definition getCertPath (m : t) : string :=
  Filepath.Join [certDir m; domain m; "cert.pem"].

Definition getKeyPath (m : t) : string :=
  Filepath.Join [certDir m; domain m; "key.pem"].

Definition getChainPath (m : t) : string :=
  Filepath.Join [certDir m; domain m; "chain.pem"].

Definition createCertDir (m : t) : M unit :=
  let certDir := Filepath.Join [certDir m; domain m] in
  OS.MkdirAll certDir 493 (* 0755 *).

Definition generatePrivateKey (m : t) : M rsa_PrivateKey :=
  let* privateKey := rsa_GenerateKey (keySize m) in
  let keyPath := getKeyPath m in
  OS.Create keyPath ;;;
  let keyBytes := x509_MarshalPKCS1PrivateKey privateKey in
  let keyPEM := {| Type_ := "RSA PRIVATE KEY"; Bytes := keyBytes |} in
  pem_Encode keyPath keyPEM ;;;
  OS.Chmod keyPath 384 (* 0600 *) ;;;
  ret privateKey.

Definition createCSR (m : t) (privateKey : rsa_PrivateKey) : M DER :=
  let template :=
    {| csr_Subject := {| CommonName := domain m |};
       csr_DNSNames := [domain m] |} in
  let* csrBytes := x509_CreateCertificateRequest template privateKey in
  ret csrBytes.

Definition generateSelfSignedCert (m : t) (csr : DER) : M DER :=
  match x509_ParseCertificateRequest csr with
  | Err err => fail err
  | Ok csrParsed =>
      let* notBefore := time_Now in
      let* now := time_Now in
      let template :=
        {| Subject := csr_Subject csrParsed;
           DNSNames := csr_DNSNames csrParsed;
           NotBefore := notBefore;
           NotAfter := Time.Add now validity;
           KeyUsage := Z.lor x509_KeyUsageKeyEncipherment
                             x509_KeyUsageDigitalSignature;
           ExtKeyUsage := [x509_ExtKeyUsageServerAuth] |} in
      let* privateKey := rsa_GenerateKey 2048 in
      let* certBytes := x509_CreateCertificate template privateKey in
      ret certBytes
  end.

Definition obtainCertificateWebroot (m : t) (csr : DER) : M DER :=
  generateSelfSignedCert m csr.

Definition obtainCertificateStandalone (m : t) (csr : DER) : M DER :=
  generateSelfSignedCert m csr.

Definition obtainCertificateDNS (m : t) (csr : DER) : M DER :=
  generateSelfSignedCert m csr.

Definition obtainCertificate (m : t) (csr : DER) : M DER :=
  if challengeType m =? ChallengeWebroot then obtainCertificateWebroot m csr
  else if challengeType m =? ChallengeStandalone then
    obtainCertificateStandalone m csr
  else if challengeType m =? ChallengeDNS then obtainCertificateDNS m csr
  else fail (errorString ("不支持的验证模式: " ++ pretty (challengeType m))).

Definition saveCertificate (m : t) (certBytes : DER)
    (privateKey : rsa_PrivateKey) : M unit :=
  let certPath := getCertPath m in
  OS.Create certPath ;;;
  let certPEM := {| Type_ := "CERTIFICATE"; Bytes := certBytes |} in
  pem_Encode certPath certPEM ;;;
  ret tt.

Definition configureNginx (m : t) : M unit := ret tt.
Definition configureApache (m : t) : M unit := ret tt.
Definition configureIIS (m : t) : M unit := ret tt.

Definition configureWebServer (m : t) : M unit :=
  if webServerType m =? WebServerNginx then configureNginx m
  else if webServerType m =? WebServerApache then configureApache m
  else if webServerType m =? WebServerIIS then configureIIS m
  else fail (errorString "不支持的 Web 服务器类型").

Definition Install (m : t) : M unit :=
  wrap "创建证书目录失败" (createCertDir m) ;;;
  let* privateKey := wrap "生成私钥失败" (generatePrivateKey m) in
  let* csr := wrap "创建 CSR 失败" (createCSR m privateKey) in
  let* cert := wrap "获取证书失败" (obtainCertificate m csr) in
  wrap "保存证书失败" (saveCertificate m cert privateKey) ;;;
  wrap "配置 Web 服务器失败" (configureWebServer m) ;;;
  ret tt.

Definition GetCertInfo (m : t) : M CertInfo := fun w =>
  let certPath := getCertPath m in
  match OS.Stat certPath w with
  | (stat, w0) =>
      if os_IsNotExist stat then
        (Err (errorString ("证书文件不存在: " ++ certPath)), w0)
      else
        (let* certData := wrap "读取证书文件失败" (OS.ReadFile certPath) in
         match pem_Decode certData with
         | None => fail (errorString "无法解析证书文件")
         | Some block =>
             match x509_ParseCertificate (Bytes block) with
             | Err err => fail (wrapError "解析证书失败" err)
             | Ok cert =>
                 let* now := time_Now in
                 ret {| Domain := domain m;
                        CertPath := certPath;
                        KeyPath := getKeyPath m;
                        ChainPath := getChainPath m;
                        ExpiryDate := NotAfter cert;
                        IsValid := Time.Before now (NotAfter cert) |}
             end
         end) w0
  end.

(** [time.Until(t)] is [t.Sub(time.Now())]. *)
Definition Renew (m : t) : M unit :=
  let* certInfo := wrap "获取证书信息失败" (GetCertInfo m) in
  let* now := time_Now in
  if renewThreshold <? Time.Sub (ExpiryDate certInfo) now then ret tt
  else Install m.

(** The state machine of the specification, for one run from [w]:
    [Idle -> DirectoryReady -> KeyGenerated -> RequestCreated ->
    CertificateObtained -> Persisted -> WebServerConfigured -> Done],
    where a transition that fails ends the run with the error of the
    stage, wrapped under the message of the stage. *)
Inductive InstallOutcome (m : t) (w : World) : result unit * World -> Prop :=
| FailedDirectory inner w' :
    createCertDir m w = (Err inner, w') ->
    InstallOutcome m w (Err (wrapError "创建证书目录失败" inner), w')
| FailedKey w1 inner w' :
    createCertDir m w = (Ok tt, w1) ->
    generatePrivateKey m w1 = (Err inner, w') ->
    InstallOutcome m w (Err (wrapError "生成私钥失败" inner), w')
| FailedRequest w1 key w2 inner w' :
    createCertDir m w = (Ok tt, w1) ->
    generatePrivateKey m w1 = (Ok key, w2) ->
    createCSR m key w2 = (Err inner, w') ->
    InstallOutcome m w (Err (wrapError "创建 CSR 失败" inner), w')
| FailedObtain w1 key w2 csr w3 inner w' :
    createCertDir m w = (Ok tt, w1) ->
    generatePrivateKey m w1 = (Ok key, w2) ->
    createCSR m key w2 = (Ok csr, w3) ->
    obtainCertificate m csr w3 = (Err inner, w') ->
    InstallOutcome m w (Err (wrapError "获取证书失败" inner), w')
| FailedPersist w1 key w2 csr w3 der w4 inner w' :
    createCertDir m w = (Ok tt, w1) ->
    generatePrivateKey m w1 = (Ok key, w2) ->
    createCSR m key w2 = (Ok csr, w3) ->
    obtainCertificate m csr w3 = (Ok der, w4) ->
    saveCertificate m der key w4 = (Err inner, w') ->
    InstallOutcome m w (Err (wrapError "保存证书失败" inner), w')
| FailedWebServer w1 key w2 csr w3 der w4 w5 inner w' :
    createCertDir m w = (Ok tt, w1) ->
    generatePrivateKey m w1 = (Ok key, w2) ->
    createCSR m key w2 = (Ok csr, w3) ->
    obtainCertificate m csr w3 = (Ok der, w4) ->
    saveCertificate m der key w4 = (Ok tt, w5) ->
    configureWebServer m w5 = (Err inner, w') ->
    InstallOutcome m w (Err (wrapError "配置 Web 服务器失败" inner), w')
| Done w1 key w2 csr w3 der w4 w5 w' :
    createCertDir m w = (Ok tt, w1) ->
    generatePrivateKey m w1 = (Ok key, w2) ->
    createCSR m key w2 = (Ok csr, w3) ->
    obtainCertificate m csr w3 = (Ok der, w4) ->
    saveCertificate m der key w4 = (Ok tt, w5) ->
    configureWebServer m w5 = (Ok tt, w') ->
    InstallOutcome m w (Ok tt, w').

End Manager.

Definition LF : string := String (ascii_of_nat 10) EmptyString.

Module MultiDomainManager.

Record t := {
  domains : list string;
  primaryDomain : string;
  email : string;
  challengeType : Z;
  webrootPath : string;
  webServerType : Z;
  certDir : string;
  keySize : Z;
}.

(** A [nil] manager is [None]. *)
Definition NewMultiDomainManager (AppConfig : option Config)
    (domains : list string) (email : string) : option t :=
  match domains with
  | [] => None
  | first :: _ =>
      Some {| domains := domains;
              primaryDomain := first;
              email := email;
              challengeType := ChallengeWebroot;
              webrootPath := "";
              webServerType := 0;
              certDir := GetCertDir AppConfig;
              keySize := 2048 |}
  end.

Definition SetChallengeType (m : t) (challengeType : Z) : t :=
  {| domains := domains m; primaryDomain := primaryDomain m;
     email := email m; challengeType := challengeType;
     webrootPath := webrootPath m; webServerType := webServerType m;
     certDir := certDir m; keySize := keySize m |}.

Definition SetWebrootPath (m : t) (path : string) : t :=
  {| domains := domains m; primaryDomain := primaryDomain m;
     email := email m; challengeType := challengeType m;
     webrootPath := path; webServerType := webServerType m;
     certDir := certDir m; keySize := keySize m |}.

Definition SetWebServer (m : t) (webServerType : Z) : t :=
  {| domains := domains m; primaryDomain := primaryDomain m;
     email := email m; challengeType := challengeType m;
     webrootPath := webrootPath m; webServerType := webServerType;
     certDir := certDir m; keySize := keySize m |}.

(** The loop of [hasWildcardDomain], over the remaining domains. *)
Fixpoint anyWildcard (ds : list string) : bool :=
  match ds with
  | [] => false
  | domain :: ds' =>
      if GoStrings.HasPrefix domain "*." then true else anyWildcard ds'
  end.

Definition hasWildcardDomain (m : t) : bool := anyWildcard (domains m).

Definition createCertDir (m : t) : M unit :=
  let dirName :=
    if (1 <? length (domains m))%nat then primaryDomain m ++ "_san"
    else primaryDomain m in
  let certDir := Filepath.Join [certDir m; dirName] in
  OS.MkdirAll certDir 493 (* 0755 *).

Definition getCertPath (m : t) : string :=
  let dirName :=
    if (1 <? length (domains m))%nat then primaryDomain m ++ "_san"
    else primaryDomain m in
  Filepath.Join [certDir m; dirName; "cert.pem"].

Definition getKeyPath (m : t) : string :=
  let dirName :=
    if (1 <? length (domains m))%nat then primaryDomain m ++ "_san"
    else primaryDomain m in
  Filepath.Join [certDir m; dirName; "key.pem"].

Definition getChainPath (m : t) : string :=
  let dirName :=
    if (1 <? length (domains m))%nat then primaryDomain m ++ "_san"
    else primaryDomain m in
  Filepath.Join [certDir m; dirName; "chain.pem"].

Definition getDomainsListPath (m : t) : string :=
  let dirName :=
    if (1 <? length (domains m))%nat then primaryDomain m ++ "_san"
    else primaryDomain m in
  Filepath.Join [certDir m; dirName; "domains.txt"].

Definition generatePrivateKey (m : t) : M rsa_PrivateKey :=
  let* privateKey := rsa_GenerateKey (keySize m) in
  let keyPath := getKeyPath m in
  OS.Create keyPath ;;;
  let keyBytes := x509_MarshalPKCS1PrivateKey privateKey in
  let keyPEM := {| Type_ := "RSA PRIVATE KEY"; Bytes := keyBytes |} in
  pem_Encode keyPath keyPEM ;;;
  OS.Chmod keyPath 384 (* 0600 *) ;;;
  ret privateKey.

Definition createMultiDomainCSR (m : t) (privateKey : rsa_PrivateKey)
  : M DER :=
  let template :=
    {| csr_Subject := {| CommonName := primaryDomain m |};
       csr_DNSNames := domains m |} in
  let* csrBytes := x509_CreateCertificateRequest template privateKey in
  ret csrBytes.

Definition generateMultiDomainSelfSignedCert (m : t) (csr : DER) : M DER :=
  match x509_ParseCertificateRequest csr with
  | Err err => fail err
  | Ok csrParsed =>
      let* notBefore := time_Now in
      let* now := time_Now in
      let template :=
        {| Subject := csr_Subject csrParsed;
           DNSNames := csr_DNSNames csrParsed;
           NotBefore := notBefore;
           NotAfter := Time.Add now validity;
           KeyUsage := Z.lor x509_KeyUsageKeyEncipherment
                             x509_KeyUsageDigitalSignature;
           ExtKeyUsage := [x509_ExtKeyUsageServerAuth] |} in
      let* privateKey := rsa_GenerateKey 2048 in
      let* certBytes := x509_CreateCertificate template privateKey in
      ret certBytes
  end.

Definition obtainCertificateWebroot (m : t) (csr : DER) : M DER :=
  if hasWildcardDomain m then
    fail (errorString
            "泛域名证书不能使用 Webroot 验证模式，请使用 DNS 验证")
  else generateMultiDomainSelfSignedCert m csr.

Definition obtainCertificateStandalone (m : t) (csr : DER) : M DER :=
  if hasWildcardDomain m then
    fail (errorString
            "泛域名证书不能使用 Standalone 验证模式，请使用 DNS 验证")
  else generateMultiDomainSelfSignedCert m csr.

Definition obtainCertificateDNS (m : t) (csr : DER) : M DER :=
  generateMultiDomainSelfSignedCert m csr.

Definition obtainCertificate (m : t) (csr : DER) : M DER :=
  if challengeType m =? ChallengeWebroot then obtainCertificateWebroot m csr
  else if challengeType m =? ChallengeStandalone then
    obtainCertificateStandalone m csr
  else if challengeType m =? ChallengeDNS then obtainCertificateDNS m csr
  else fail (errorString ("不支持的验证模式: " ++ pretty (challengeType m))).

(** [if err := c; err != nil { logger.Warn(...) }]: the failure is
    logged and execution goes on. *)
Definition warnOnly (c : M unit) : M unit := fun w =>
  match c w with
  | (_, w') => (Ok tt, w')
  end.

Definition saveCertificate (m : t) (certBytes : DER)
    (privateKey : rsa_PrivateKey) : M unit :=
  let certPath := getCertPath m in
  OS.Create certPath ;;;
  let certPEM := {| Type_ := "CERTIFICATE"; Bytes := certBytes |} in
  pem_Encode certPath certPEM ;;;
  let domainsFile := getDomainsListPath m in
  warnOnly (OS.WriteFile domainsFile
              (RawData (GoStrings.Join (domains m) LF)) 420 (* 0644 *)) ;;;
  ret tt.

Definition configureNginx (m : t) : M unit := ret tt.
Definition configureApache (m : t) : M unit := ret tt.
Definition configureIIS (m : t) : M unit := ret tt.

Definition configureWebServers (m : t) : M unit :=
  if webServerType m =? WebServerNginx then configureNginx m
  else if webServerType m =? WebServerApache then configureApache m
  else if webServerType m =? WebServerIIS then configureIIS m
  else fail (errorString "不支持的 Web 服务器类型").

Definition Install (m : t) : M unit :=
  let hasWildcard := hasWildcardDomain m in
  if hasWildcard && negb (challengeType m =? ChallengeDNS) then
    fail (errorString "泛域名证书必须使用 DNS 验证模式")
  else
    wrap "创建证书目录失败" (createCertDir m) ;;;
    let* privateKey := wrap "生成私钥失败" (generatePrivateKey m) in
    let* csr := wrap "创建多域名 CSR 失败"
                  (createMultiDomainCSR m privateKey) in
    let* cert := wrap "获取证书失败" (obtainCertificate m csr) in
    wrap "保存证书失败" (saveCertificate m cert privateKey) ;;;
    wrap "配置 Web 服务器失败" (configureWebServers m) ;;;
    ret tt.

(** The state machine of the specification for the multi-domain run,
    with the wildcard check in front of it. *)
Inductive InstallOutcome (m : t) (w : World) : result unit * World -> Prop :=
| RejectedWildcard :
    hasWildcardDomain m = true -> challengeType m <> ChallengeDNS ->
    InstallOutcome m w
      (Err (errorString "泛域名证书必须使用 DNS 验证模式"), w)
| FailedDirectory inner w' :
    hasWildcardDomain m && negb (challengeType m =? ChallengeDNS) = false ->
    createCertDir m w = (Err inner, w') ->
    InstallOutcome m w (Err (wrapError "创建证书目录失败" inner), w')
| FailedKey w1 inner w' :
    hasWildcardDomain m && negb (challengeType m =? ChallengeDNS) = false ->
    createCertDir m w = (Ok tt, w1) ->
    generatePrivateKey m w1 = (Err inner, w') ->
    InstallOutcome m w (Err (wrapError "生成私钥失败" inner), w')
| FailedRequest w1 key w2 inner w' :
    hasWildcardDomain m && negb (challengeType m =? ChallengeDNS) = false ->
    createCertDir m w = (Ok tt, w1) ->
    generatePrivateKey m w1 = (Ok key, w2) ->
    createMultiDomainCSR m key w2 = (Err inner, w') ->
    InstallOutcome m w (Err (wrapError "创建多域名 CSR 失败" inner), w')
| FailedObtain w1 key w2 csr w3 inner w' :
    hasWildcardDomain m && negb (challengeType m =? ChallengeDNS) = false ->
    createCertDir m w = (Ok tt, w1) ->
    generatePrivateKey m w1 = (Ok key, w2) ->
    createMultiDomainCSR m key w2 = (Ok csr, w3) ->
    obtainCertificate m csr w3 = (Err inner, w') ->
    InstallOutcome m w (Err (wrapError "获取证书失败" inner), w')
| FailedPersist w1 key w2 csr w3 der w4 inner w' :
    hasWildcardDomain m && negb (challengeType m =? ChallengeDNS) = false ->
    createCertDir m w = (Ok tt, w1) ->
    generatePrivateKey m w1 = (Ok key, w2) ->
    createMultiDomainCSR m key w2 = (Ok csr, w3) ->
    obtainCertificate m csr w3 = (Ok der, w4) ->
    saveCertificate m der key w4 = (Err inner, w') ->
    InstallOutcome m w (Err (wrapError "保存证书失败" inner), w')
| FailedWebServer w1 key w2 csr w3 der w4 w5 inner w' :
    hasWildcardDomain m && negb (challengeType m =? ChallengeDNS) = false ->
    createCertDir m w = (Ok tt, w1) ->
    generatePrivateKey m w1 = (Ok key, w2) ->
    createMultiDomainCSR m key w2 = (Ok csr, w3) ->
    obtainCertificate m csr w3 = (Ok der, w4) ->
    saveCertificate m der key w4 = (Ok tt, w5) ->
    configureWebServers m w5 = (Err inner, w') ->
    InstallOutcome m w (Err (wrapError "配置 Web 服务器失败" inner), w')
| Done w1 key w2 csr w3 der w4 w5 w' :
    hasWildcardDomain m && negb (challengeType m =? ChallengeDNS) = false ->
    createCertDir m w = (Ok tt, w1) ->
    generatePrivateKey m w1 = (Ok key, w2) ->
    createMultiDomainCSR m key w2 = (Ok csr, w3) ->
    obtainCertificate m csr w3 = (Ok der, w4) ->
    saveCertificate m der key w4 = (Ok tt, w5) ->
    configureWebServers m w5 = (Ok tt, w') ->
    InstallOutcome m w (Ok tt, w').

End MultiDomainManager.

(** ** Go package [cmd]: the install command *)

Module Cmd.
Import GoStrings.

(** The package-level flag variables of the install command. *)
Record Flags := {
  domain : string;
  domains : string;
  email : string;
  webroot : string;
  standalone : bool;
  dnsChallenge : bool;
  nginx : bool;
  apache : bool;
  iis : bool;
}.

Definition validateDomainName (domain : string) : option error :=
  if (String.length domain =? 0)%nat then
    Some (errorString "域名不能为空")
  else
    let wildcardCheck :=
      if HasPrefix domain "*." then
        if (String.length domain <? 4)%nat then
          Some (errorString "泛域名格式无效")
        else
          let baseDomain := slice_from 2 domain in
          if Contains baseDomain "*" then
            Some (errorString "泛域名只能有一个通配符在开头")
          else None
      else None in
    match wildcardCheck with
    | Some err => Some err
    | None =>
        if Contains domain " " then
          Some (errorString "域名不能包含空格")
        else None
    end.

(** The validation loop of [parseDomains], over the remaining entries. *)
Fixpoint validateEach (ds : list string) : option error :=
  match ds with
  | [] => None
  | d :: ds' =>
      if String.eqb d "" then Some (errorString "域名不能为空")
      else
        match validateDomainName d with
        | Some err => Some (wrapError ("域名 " ++ d ++ " 格式无效") err)
        | None => validateEach ds'
        end
  end.

Definition parseDomains (fl : Flags) : result (list string) :=
  let parsed :=
    if negb (String.eqb (domains fl) "") then
      Ok (map TrimSpace (splitByte ","%char (domains fl)))
    else if negb (String.eqb (domain fl) "") then
      Ok [TrimSpace (domain fl)]
    else Err (errorString "必须指定 --domain 或 --domains 参数") in
  match parsed with
  | Err err => Err err
  | Ok domainList =>
      match validateEach domainList with
      | Some err => Err err
      | None => Ok domainList
      end
  end.

(** The wildcard search loop shared by [validateInstallFlags] and
    [installMultiDomain]. *)
Fixpoint hasWildcard (domainList : list string) : bool :=
  match domainList with
  | [] => false
  | d :: rest => if HasPrefix d "*." then true else hasWildcard rest
  end.

Definition validateInstallFlags (fl : Flags) (domainList : list string)
  : option error :=
  if negb (nginx fl) && negb (apache fl) && negb (iis fl) then
    Some (errorString
      "必须指定至少一种 Web 服务器类型: --nginx, --apache, 或 --iis")
  else
    let count := 0 in
    let count := if nginx fl then count + 1 else count in
    let count := if apache fl then count + 1 else count in
    let count := if iis fl then count + 1 else count in
    if 1 <? count then Some (errorString "只能指定一种 Web 服务器类型")
    else
      let hasWildcard := hasWildcard domainList in
      if hasWildcard && negb (dnsChallenge fl) then
        Some (errorString
          "泛域名证书必须使用 DNS 验证模式，请添加 --dns 参数")
      else
        let challengeCount := 0 in
        let challengeCount :=
          if standalone fl then challengeCount + 1 else challengeCount in
        let challengeCount :=
          if negb (String.eqb (webroot fl) "") then challengeCount + 1
          else challengeCount in
        let challengeCount :=
          if dnsChallenge fl then challengeCount + 1 else challengeCount in
        if 1 <? challengeCount then
          Some (errorString
            "只能指定一种验证模式: --standalone, --webroot, 或 --dns")
        else None.

(** The two selection errors, under the names the specification gives
    them. *)
Definition WildcardRequiresDNS : error :=
  errorString "泛域名证书必须使用 DNS 验证模式，请添加 --dns 参数".

Definition InvalidChallengeConfiguration : error :=
  errorString "只能指定一种验证模式: --standalone, --webroot, 或 --dns".

(** How many of the challenge flags ([--standalone], [--webroot <path>],
    [--dns]) and of the server flags the command line sets. *)
Definition modeCount (fl : Flags) : Z :=
  (if standalone fl then 1 else 0) +
  (if String.eqb (webroot fl) "" then 0 else 1) +
  (if dnsChallenge fl then 1 else 0).

Definition serverCount (fl : Flags) : Z :=
  (if nginx fl then 1 else 0) + (if apache fl then 1 else 0) +
  (if iis fl then 1 else 0).

(** The manager [installSingleDomain] builds before it calls [Install]. *)
Definition singleDomainManager (AppConfig : option Config) (fl : Flags)
    (domain : string) : Manager.t :=
  let certManager := Manager.NewManager AppConfig domain (email fl) in
  let certManager :=
    if dnsChallenge fl || HasPrefix domain "*." then
      Manager.SetChallengeType certManager ChallengeDNS
    else if standalone fl then
      Manager.SetChallengeType certManager ChallengeStandalone
    else if negb (String.eqb (webroot fl) "") then
      Manager.SetWebrootPath
        (Manager.SetChallengeType certManager ChallengeWebroot) (webroot fl)
    else Manager.SetChallengeType certManager ChallengeWebroot in
  if nginx fl then Manager.SetWebServer certManager WebServerNginx
  else if apache fl then Manager.SetWebServer certManager WebServerApache
  else if iis fl then Manager.SetWebServer certManager WebServerIIS
  else certManager.

Definition installSingleDomain (AppConfig : option Config) (fl : Flags)
    (domain : string) : M unit :=
  let certManager := singleDomainManager AppConfig fl domain in
  wrap ("域名 " ++ domain ++ " 证书安装失败") (Manager.Install certManager).

(** What [installMultiDomain] does to a freshly made manager before it
    calls [Install]. *)
Definition multiDomainManager (fl : Flags) (domains : list string)
    (multiManager : MultiDomainManager.t) : MultiDomainManager.t :=
  let hasWildcard := hasWildcard domains in
  let multiManager :=
    if dnsChallenge fl || hasWildcard then
      MultiDomainManager.SetChallengeType multiManager ChallengeDNS
    else if standalone fl then
      MultiDomainManager.SetChallengeType multiManager ChallengeStandalone
    else if negb (String.eqb (webroot fl) "") then
      MultiDomainManager.SetWebrootPath
        (MultiDomainManager.SetChallengeType multiManager ChallengeWebroot)
        (webroot fl)
    else MultiDomainManager.SetChallengeType multiManager ChallengeWebroot in
  if nginx fl then MultiDomainManager.SetWebServer multiManager WebServerNginx
  else if apache fl then
    MultiDomainManager.SetWebServer multiManager WebServerApache
  else if iis fl then
    MultiDomainManager.SetWebServer multiManager WebServerIIS
  else multiManager.

Definition installMultiDomain (AppConfig : option Config) (fl : Flags)
    (domains : list string) : M unit :=
  match MultiDomainManager.NewMultiDomainManager AppConfig domains
          (email fl) with
  | None => fail (errorString "创建多域名管理器失败")
  | Some multiManager =>
      wrap "多域名证书安装失败"
        (MultiDomainManager.Install
           (multiDomainManager fl domains multiManager))
  end.

Definition runInstall (AppConfig : option Config) (fl : Flags) : M unit :=
  match parseDomains fl with
  | Err err => fail (wrapError "域名参数解析失败" err)
  | Ok domainList =>
      match validateInstallFlags fl domainList with
      | Some err => fail (wrapError "参数验证失败" err)
      | None =>
          match domainList with
          | [only] => installSingleDomain AppConfig fl only
          | _ => installMultiDomain AppConfig fl domainList
          end
      end
  end.

End Cmd.

(** ** Go package [internal/webserver]: the Nginx SSL scan *)

Module Nginx.
Import GoStrings.

(** What the configurator sees of the host: the matches of a glob
    pattern, and the lines a [bufio.Scanner] yields from a file that
    [os.Open] could open. *)
Record Host := {
  glob : string -> option (list string);
  openLines : string -> option (list string);
}.

Record tracker := {
  inServerBlock : bool;
  hasSSL : bool;
  hasDomain : bool;
}.

(** The scanning loop of [checkSSLInConfig], over the remaining lines. *)
Fixpoint scanLines (domain : string) (lines : list string) (st : tracker)
  : bool :=
  match lines with
  | [] => false
  | text :: rest =>
      let line := TrimSpace text in
      if Contains line "server {" then
        scanLines domain rest
          {| inServerBlock := true; hasSSL := false; hasDomain := false |}
      else if Contains line "}" && inServerBlock st then
        if hasSSL st && hasDomain st then true
        else scanLines domain rest
               {| inServerBlock := false; hasSSL := hasSSL st;
                  hasDomain := hasDomain st |}
      else if inServerBlock st then
        let hasSSL' :=
          if Contains line "ssl_certificate" then true else hasSSL st in
        let hasDomain' :=
          if Contains line "server_name" && Contains line domain then true
          else hasDomain st in
        scanLines domain rest
          {| inServerBlock := inServerBlock st; hasSSL := hasSSL';
             hasDomain := hasDomain' |}
      else scanLines domain rest st
  end.

Definition checkSSLInConfig (h : Host) (configFile domain : string) : bool :=
  match openLines h configFile with
  | None => false
  | Some lines =>
      scanLines domain lines
        {| inServerBlock := false; hasSSL := false; hasDomain := false |}
  end.

(** [findSiteConfigs] on a non-Windows host. *)
Definition findSiteConfigs (h : Host) : list string :=
  let searchDirs := ["/etc/nginx/sites-enabled"; "/etc/nginx/conf.d"] in
  fold_left
    (fun configs dir =>
       match glob h (Filepath.Join [dir; "*"]) with
       | Some files => (configs ++ files)%list
       | None => configs
       end)
    searchDirs [].

(** The loop of [IsSSLEnabled], over the remaining files. *)
Fixpoint anySSL (h : Host) (configFiles : list string) (domain : string)
  : bool :=
  match configFiles with
  | [] => false
  | configFile :: rest =>
      if checkSSLInConfig h configFile domain then true
      else anySSL h rest domain
  end.

Definition IsSSLEnabled (h : Host) (domain : string) : bool :=
  anySSL h (findSiteConfigs h) domain.

(** *** The blocks of the specification

    In the words of the specification the tracker enters a block on a
    line containing [server {] and leaves it on a closing-brace line;
    the lines in between are the block it tracks. *)

Definition opensBlock (text : string) : bool :=
  Contains (TrimSpace text) "server {".

Definition closesBlock (text : string) : bool :=
  negb (opensBlock text) && Contains (TrimSpace text) "}".

Definition sslDirective (text : string) : bool :=
  Contains (TrimSpace text) "ssl_certificate".

Definition namesDomain (domain text : string) : bool :=
  Contains (TrimSpace text) "server_name" &&
  Contains (TrimSpace text) domain.

(** Lines inside a block: they neither open nor close one. *)
Definition inner (text : string) : Prop :=
  opensBlock text = false /\ closesBlock text = false.

(** [body] is a tracked block of [lines]: it sits between an opening line
    and the first closing line after it. *)
Definition TrackedBlock (lines body : list string) : Prop :=
  exists before opening closing after,
    lines = (before ++ opening :: body ++ closing :: after)%list /\
    opensBlock opening = true /\ closesBlock closing = true /\
    Forall inner body.

(** The block holds both an SSL-certificate directive and a [server_name]
    line matching [domain]. *)
Definition sslBlockFor (domain : string) (body : list string) : Prop :=
  Exists (fun text => sslDirective text = true) body /\
  Exists (fun text => namesDomain domain text = true) body.

(** The scan is inside a block whose flags, together with the lines up
    to the next closing line, make an SSL block for [domain]. *)
Definition closesWith (domain : string) (rest : list string) (st : tracker)
  : Prop :=
  inServerBlock st = true /\
  exists body closing after,
    rest = (body ++ closing :: after)%list /\
    closesBlock closing = true /\ Forall inner body /\
    (hasSSL st = true \/
     Exists (fun text => sslDirective text = true) body) /\
    (hasDomain st = true \/
     Exists (fun text => namesDomain domain text = true) body).

End Nginx.

(** ** Concrete hosts, managers and command lines used in examples *)

Module Sample.

Definition TAB : string := String (ascii_of_nat 9) EmptyString.

(** An empty disk, umask 022, a clock that advances one millisecond per
    reading, and no outside failure. *)
Definition freshWorld : World :=
  {| files := ∅; dirs := ∅; umask := 18;
     clock := fun n => 1700000000123456789 + Z.of_nat n * 1000000;
     reads := 0; entropy := 0; faults := fun _ => false;
     serialNumbers := true; nameMax := 255; pathMax := 4096 |}.

Definition single : Manager.t :=
  Manager.NewManager None "example.com" "admin@example.com".

Definition pair : MultiDomainManager.t :=
  {| MultiDomainManager.domains := ["example.com"; "www.example.com"];
     MultiDomainManager.primaryDomain := "example.com";
     MultiDomainManager.email := "admin@example.com";
     MultiDomainManager.challengeType := ChallengeWebroot;
     MultiDomainManager.webrootPath := "";
     MultiDomainManager.webServerType := WebServerNginx;
     MultiDomainManager.certDir := "/etc/autocert/certs";
     MultiDomainManager.keySize := 2048 |}.

(** A manager whose server type is none of the three known ones. *)
Definition unknownServer : Manager.t := Manager.SetWebServer single 7.

Definition wildcard : MultiDomainManager.t :=
  {| MultiDomainManager.domains := ["*.example.com"];
     MultiDomainManager.primaryDomain := "*.example.com";
     MultiDomainManager.email := "admin@example.com";
     MultiDomainManager.challengeType := ChallengeWebroot;
     MultiDomainManager.webrootPath := "";
     MultiDomainManager.webServerType := WebServerNginx;
     MultiDomainManager.certDir := "/etc/autocert/certs";
     MultiDomainManager.keySize := 2048 |}.

(** A host on which writing the domain list of [pair] fails. *)
Definition readOnlyList : World :=
  {| files := ∅; dirs := ∅; umask := 18;
     clock := clock freshWorld; reads := 0; entropy := 0;
     faults := fun c =>
       match c with
       | CallWriteFile path =>
           String.eqb path (MultiDomainManager.getDomainsListPath pair)
       | _ => false
       end;
     serialNumbers := true; nameMax := 255; pathMax := 4096 |}.

(** The host of [freshWorld] with a clock that jumps 61 days ahead after
    its second reading. *)
Definition agingWorld : World :=
  {| files := ∅; dirs := ∅; umask := 18;
     clock := fun n =>
       1700000000123456789 + Z.of_nat n * 1000000 +
       (if (2 <=? n)%nat then 61 * 24 * Time.Hour else 0);
     reads := 0; entropy := 0; faults := fun _ => false;
     serialNumbers := true; nameMax := 255; pathMax := 4096 |}.

(** A host on which a regular file stands where the store directory of
    [single] should be. *)
Definition storeIsFile : World :=
  {| files :=
       {[ "/etc/autocert/certs/example.com" :=
            {| content := RawData "kept for later"; mode := 420 |} ]};
     dirs := {[ "/"; "/etc"; "/etc/autocert"; "/etc/autocert/certs" ]};
     umask := 18;
     clock := clock freshWorld; reads := 0; entropy := 0;
     faults := fun _ => false; serialNumbers := true;
     nameMax := 255; pathMax := 4096 |}.

(** A host whose directories keep names of at most eight bytes, with the
    store root in place: the store directory of [single] cannot be named
    there. *)
Definition shortNames : World :=
  {| files := ∅;
     dirs := {[ "/"; "/etc"; "/etc/autocert"; "/etc/autocert/certs" ]};
     umask := 18;
     clock := clock freshWorld; reads := 0; entropy := 0;
     faults := fun _ => false; serialNumbers := true;
     nameMax := 8; pathMax := 4096 |}.

(** [install --domain <d> --email admin@example.com --nginx] plus the
    challenge flags given. *)
Definition commandLine (d webroot : string) (standalone dns : bool)
  : Cmd.Flags :=
  {| Cmd.domain := d; Cmd.domains := ""; Cmd.email := "admin@example.com";
     Cmd.webroot := webroot; Cmd.standalone := standalone;
     Cmd.dnsChallenge := dns;
     Cmd.nginx := true; Cmd.apache := false; Cmd.iis := false |}.

(** Two server blocks: the name in the first, the certificate in the
    second. *)
Definition splitSite : list string :=
  [ "server {";
    "    listen 80;";
    "    server_name example.com;";
    "}";
    "server {";
    "    listen 443 ssl;";
    "    ssl_certificate /etc/autocert/certs/example.com/cert.pem;";
    "}" ].

(** One server block with both, closed after a nested location block. *)
Definition sslSite : list string :=
  [ "server {";
    "    listen 443 ssl http2;";
    "    server_name example.com;";
    "    ssl_certificate /etc/autocert/certs/example.com/cert.pem;";
    "    location / {";
    "        try_files $uri $uri/ =404;";
    "    }";
    "}" ].

Definition hostWith (site : list string) : Nginx.Host :=
  {| Nginx.glob := fun pattern =>
       if String.eqb pattern "/etc/nginx/sites-enabled/*"
       then Some ["/etc/nginx/sites-enabled/example.com"]
       else Some [];
     Nginx.openLines := fun path =>
       if String.eqb path "/etc/nginx/sites-enabled/example.com"
       then Some site else None |}.

End Sample.

(** ** The certificate of the self-signed path *)

(** The certificate the self-signed path issues when asked at [w]. *)
Definition issuedAt (subject : pkix_Name) (names : list string) (w : World)
  : x509_Certificate :=
  {| Subject := subject;
     DNSNames := names;
     NotBefore := Time.truncSecond (clock w (reads w));
     NotAfter := Time.truncSecond (clock w (S (reads w)) + validity);
     KeyUsage := 5;
     ExtKeyUsage := [1] |}.

(** ** What a computation leaves alone *)

(** [w'] has the clock, the clock position, the fault oracle, the umask
    and the library of [w]: what every call except [time.Now()]
    preserves. *)
Definition frame (w w' : World) : Prop :=
  clock w' = clock w /\ reads w' = reads w /\ faults w' = faults w /\
  umask w' = umask w /\ serialNumbers w' = serialNumbers w /\
  nameMax w' = nameMax w /\ pathMax w' = pathMax w.

Definition Framed {A} (c : M A) : Prop := forall w, frame w (snd (c w)).

(** ** What a computation keeps, one observation at a time *)

(** [c] never changes the observation [f] of the world, whether it
    succeeds or fails. *)
Definition Keeps {A B} (f : World -> B) (c : M A) : Prop :=
  forall w, f (snd (c w)) = f w.

(** The certificate a reader finds at [path]: the file is there, is
    PEM-encoded and its block parses as a certificate. *)
Definition storedCertificate (path : string) (w : World)
  : option x509_Certificate :=
  match files w !! path with
  | None => None
  | Some f =>
      match pem_Decode (content f) with
      | None => None
      | Some block =>
          match x509_ParseCertificate (Bytes block) with
          | Ok cert => Some cert
          | Err _ => None
          end
      end
  end.

(** The three challenge types [obtainCertificate] has a case for. *)
Definition supportedChallenge (c : Z) : bool :=
  (c =? ChallengeWebroot) || (c =? ChallengeStandalone) ||
  (c =? ChallengeDNS).


(** ** When [Install] goes through *)

(** The mode a file has after [O_CREATE|O_TRUNC]: the one it had, or what
    the umask leaves of [perm]. *)
Definition modeAfterCreate (w : World) (path : string) (perm : Z) : Z :=
  match files w !! path with
  | Some f => mode f
  | None => Z.ldiff perm (umask w)
  end.

(** The three server types [configureWebServer] has a case for. *)
Definition knownServer (s : Z) : bool :=
  (s =? WebServerNginx) || (s =? WebServerApache) || (s =? WebServerIIS).

(** The store directory of a single-domain manager and the directories
    [createCertDir] makes sure of: the store directory and every
    directory above it. *)
Definition storeDir (m : Manager.t) : string :=
  Filepath.Join [Manager.certDir m; Manager.domain m].

Definition storeChain (m : Manager.t) : list string :=
  Filepath.ancestors (String.length (storeDir m)) (storeDir m).

(** Nothing stands in the way of [Install] on [w]: the store directory
    has a name, the system takes its path, those above it and the two
    PEM paths, no call fails for an outside cause, no file sits where a
    directory is needed, neither PEM path is a directory and both have
    their directory, once the store directory is made, the domain is
    one the library encodes (an IA5String), the library draws serial
    numbers, and the challenge and the server type are among those the
    manager knows. *)
Definition InstallReady (m : Manager.t) (w : World) : Prop :=
  let made : gset string := dirs w ∪ list_to_set (storeChain m) in
  let keyPath := Manager.getKeyPath m in
  let certPath := Manager.getCertPath m in
  storeDir m <> "" /\
  forallb (OS.accepts w) (storeChain m) = true /\
  OS.accepts w keyPath = true /\
  OS.accepts w certPath = true /\
  isIA5String (Manager.domain m) = true /\
  serialNumbers w = true /\
  faults w (CallMkdirAll (storeDir m)) = false /\
  existsb (OS.isFile w) (storeChain m) = false /\
  faults w (CallGenerateKey (entropy w)) = false /\
  faults w (CallCreate keyPath) = false /\
  faults w (CallWrite keyPath) = false /\
  faults w (CallChmod keyPath) = false /\
  (keyPath ∉ made) /\ (Filepath.Dir keyPath ∈ made) /\
  faults w CallCreateCertificateRequest = false /\
  supportedChallenge (Manager.challengeType m) = true /\
  faults w (CallGenerateKey (S (entropy w))) = false /\
  faults w CallCreateCertificate = false /\
  faults w (CallCreate certPath) = false /\
  faults w (CallWrite certPath) = false /\
  (certPath ∉ made) /\ (Filepath.Dir certPath ∈ made) /\
  knownServer (Manager.webServerType m) = true.

(** The world a successful [Install] leaves. *)
Definition installed (m : Manager.t) (w : World) : World :=
  let key := {| key_bits := Manager.keySize m; key_draw := entropy w |} in
  let keyFile :=
    {| content := PemData {| Type_ := "RSA PRIVATE KEY";
                             Bytes := DerPrivateKey key |};
       mode := 384 |} in
  let cert :=
    DerCertificate
      (issuedAt {| CommonName := Manager.domain m |} [Manager.domain m] w)
      {| key_bits := 2048; key_draw := S (entropy w) |} in
  let withKey := <[Manager.getKeyPath m := keyFile]> (files w) in
  let certFile :=
    {| content := PemData {| Type_ := "CERTIFICATE"; Bytes := cert |};
       mode := match withKey !! Manager.getCertPath m with
               | Some f => mode f
               | None => Z.ldiff 438 (umask w)
               end |} in
  {| files := <[Manager.getCertPath m := certFile]> withKey;
     dirs := dirs w ∪ list_to_set (storeChain m);
     umask := umask w;
     clock := clock w;
     reads := S (S (reads w));
     entropy := S (S (entropy w));
     faults := faults w;
     serialNumbers := serialNumbers w; nameMax := nameMax w;
     pathMax := pathMax w |}.

(** ** Go package [internal/backup]: which files go where *)

Module Backup.
Import GoStrings.

(** [strings.TrimPrefix(s, prefix)] *)
Definition TrimPrefix (s prefix : string) : string :=
  if HasPrefix s prefix then slice_from (String.length prefix) s else s.

(** [strings.HasSuffix(s, suffix)] *)
Definition HasSuffix (s suffix : string) : bool :=
  HasPrefix (reverse s) (reverse suffix).

(** One [os.DirEntry], as far as the manager looks at it. *)
Record DirEntry := { Name : string; IsDir : bool }.

(** What the manager reads of the host: the home directory of the user,
    the entries [os.ReadDir] lists and the error of [os.Stat] ([None] is
    [nil]). *)
Record Host := {
  UserHomeDir : result string;
  ReadDir : string -> result (list DirEntry);
  Stat : string -> option error;
}.

Record Manager := { certDir : string; configDir : string }.

(** The map [files] of the Go code, from archive path to local path, is
    a [gmap string string]; it is passed in and handed back together
    with the error. *)

(** The loop of [addDomainFiles], over the remaining entries. *)
Fixpoint addEntries (files : gmap string string)
    (domain domainDir : string) (entries : list DirEntry)
  : gmap string string :=
  match entries with
  | [] => files
  | entry :: rest =>
      if negb (IsDir entry) then
        let localPath := Filepath.Join [domainDir; Name entry] in
        let archivePath := Filepath.Join ["certs"; domain; Name entry] in
        addEntries (<[archivePath := localPath]> files) domain domainDir rest
      else addEntries files domain domainDir rest
  end.

Definition addDomainFiles (h : Host) (files : gmap string string)
    (domain domainDir : string) : (gmap string string) * option error :=
  match ReadDir h domainDir with
  | Err err => (files, Some err)
  | Ok entries => (addEntries files domain domainDir entries, None)
  end.

(** The first loop of [addConfigFiles], over the remaining entries of the
    configuration directory. *)
Fixpoint addYaml (m : Manager) (files : gmap string string)
    (entries : list DirEntry) : gmap string string :=
  match entries with
  | [] => files
  | entry :: rest =>
      if negb (IsDir entry) && HasSuffix (Name entry) ".yaml" then
        let localPath := Filepath.Join [configDir m; Name entry] in
        let archivePath := Filepath.Join ["config"; Name entry] in
        addYaml m (<[archivePath := localPath]> files) rest
      else addYaml m files rest
  end.

(** Its second loop, over the remaining names of [configFiles]. *)
Fixpoint addHome (h : Host) (homeDir : string) (files : gmap string string)
    (configFiles : list string) : gmap string string :=
  match configFiles with
  | [] => files
  | configFile :: rest =>
      let configPath := Filepath.Join [homeDir; configFile] in
      match Stat h configPath with
      | None =>
          let archivePath := Filepath.Join ["config"; configFile] in
          addHome h homeDir (<[archivePath := configPath]> files) rest
      | Some _ => addHome h homeDir files rest
      end
  end.

Definition addConfigFiles (m : Manager) (h : Host)
    (files : gmap string string)
  : (gmap string string) * option error :=
  let configFiles := [".autocert.yaml"; "autocert.yaml"; "config.yaml"] in
  let files :=
    match Stat h (configDir m) with
    | None =>
        match ReadDir h (configDir m) with
        | Ok entries => addYaml m files entries
        | Err _ => files
        end
    | Some _ => files
    end in
  let files :=
    match UserHomeDir h with
    | Ok homeDir => addHome h homeDir files configFiles
    | Err _ => files
    end in
  (files, None).

(** The loop of [collectFiles] over the entries of the certificate
    directory; it stops at the first directory that cannot be read. *)
Fixpoint addAllDomains (m : Manager) (h : Host)
    (files : gmap string string) (entries : list DirEntry)
  : (gmap string string) * option error :=
  match entries with
  | [] => (files, None)
  | entry :: rest =>
      if IsDir entry then
        let domainDir := Filepath.Join [certDir m; Name entry] in
        match addDomainFiles h files (Name entry) domainDir with
        | (files', Some err) => (files', Some err)
        | (files', None) => addAllDomains m h files' rest
        end
      else addAllDomains m h files rest
  end.

Definition collectFiles (m : Manager) (h : Host) (domain : string)
  : result (gmap string string) :=
  let files : gmap string string := ∅ in
  let certs : (gmap string string) * option error :=
    if negb (String.eqb domain "") then
      let domainDir := Filepath.Join [certDir m; domain] in
      match Stat h domainDir with
      | None => addDomainFiles h files domain domainDir
      | Some _ => (files, None)
      end
    else
      match ReadDir h (certDir m) with
      | Err err =>
          if negb (os_IsNotExist (@Err unit err)) then
            (files, Some (wrapError "读取证书目录失败" err))
          else (files, None)
      | Ok entries => addAllDomains m h files entries
      end in
  match certs with
  | (_, Some err) => Err err
  | (files, None) =>
      match addConfigFiles m h files with
      | (_, Some err) => Err err
      | (files, None) => Ok files
      end
  end.

(** [getTargetPath]: where [Import] puts the archive member
    [archivePath]. *)
Definition getTargetPath (m : Manager) (h : Host) (archivePath : string)
  : result string :=
  if HasPrefix archivePath "certs/" then
    let relativePath := TrimPrefix archivePath "certs/" in
    Ok (Filepath.Join [certDir m; relativePath])
  else if HasPrefix archivePath "config/" then
    let fileName := TrimPrefix archivePath "config/" in
    if HasPrefix fileName "." then
      match UserHomeDir h with
      | Err err => Err err
      | Ok homeDir => Ok (Filepath.Join [homeDir; fileName])
      end
    else Ok (Filepath.Join [configDir m; fileName])
  else Err (errorString ("未知的归档路径: " ++ archivePath)).

(** [k] times [../], the way an archive member name climbs out of a
    directory. *)
Fixpoint climb (k : nat) : string :=
  match k with
  | O => ""
  | S k' => "../" ++ climb k'
  end.

End Backup.

(** ** Go package [internal/scheduler]: the cron jobs of [LinuxScheduler] *)

Module Cron.
Import GoStrings.

(** The crontab of the user, as the [crontab] command shows and takes
    it. [table] is the text [crontab -l] prints; with [None] the user
    has no crontab, and [crontab -l] fails and prints nothing on its
    standard output. [listFault] makes [crontab -l] fail for another
    reason; [refuses] says which texts [crontab -] rejects. *)
Record Host := {
  table : option string;
  listFault : bool;
  refuses : string -> bool;
}.

Definition setTable (text : string) (h : Host) : Host :=
  {| table := Some text; listFault := listFault h; refuses := refuses h |}.

(** [exec.Command("crontab", "-l").Output()] *)
Definition crontab_l (h : Host) : string * option error :=
  if listFault h then ("", Some (libError "exec: crontab -l"))
  else
    match table h with
    | Some text => (text, None)
    | None => ("", Some (libError "exit status 1"))
    end.

(** [exec.Command("crontab", "-").Run()] with [text] on standard input. *)
Definition crontab_stdin (text : string) (h : Host) : option error * Host :=
  if refuses h text then (Some (libError "exit status 1"), h)
  else (None, setTable text h).

Definition installCronJob (taskName command schedule : string) (h : Host)
  : option error * Host :=
  let (currentCrontab, _) := crontab_l h in
  let cronEntry :=
    schedule ++ " " ++ command ++ " renew --all # " ++ taskName ++ LF in
  let newCrontab := currentCrontab ++ cronEntry in
  match crontab_stdin newCrontab h with
  | (Some err, h') => (Some (wrapError "安装 cron 任务失败" err), h')
  | (None, h') => (None, h')
  end.

(** The filter loop of [removeCronJob], over the remaining lines. *)
Fixpoint keepLines (marker : string) (lines : list string) : list string :=
  match lines with
  | [] => []
  | line :: rest =>
      if negb (Contains line marker) then line :: keepLines marker rest
      else keepLines marker rest
  end.

Definition removeCronJob (taskName : string) (h : Host)
  : option error * Host :=
  match crontab_l h with
  | (_, Some err) => (Some (wrapError "获取 crontab 失败" err), h)
  | (currentCrontab, None) =>
      let lines := splitByte (ascii_of_nat 10) currentCrontab in
      let newLines := keepLines ("# " ++ taskName) lines in
      let newCrontab := Join newLines LF in
      match crontab_stdin newCrontab h with
      | (Some err, h') => (Some (wrapError "删除 cron 任务失败" err), h')
      | (None, h') => (None, h')
      end
  end.

Definition isCronJobInstalled (taskName : string) (h : Host) : bool :=
  match crontab_l h with
  | (_, Some _) => false
  | (output, None) => Contains output ("# " ++ taskName)
  end.

End Cron.

(** ** Go package [internal/scheduler]: listing the Windows tasks

    [WindowsScheduler.List] runs [schtasks] and parses what it printed;
    the parsing uses no path and no file, so the conventions on paths
    above play no part here. *)

Module WindowsTasks.
Import GoStrings.

Record Task := {
  Name : string;
  Command : string;
  Schedule : string;
  Status : string;
  LastRun : string;
  NextRun : string;
}.

Fixpoint trimLeftByte (c : ascii) (s : string) : string :=
  match s with
  | String c' s' => if Ascii.eqb c' c then trimLeftByte c s' else s
  | EmptyString => EmptyString
  end.

(** [strings.Trim(s, cutset)] for a cutset of one byte. *)
Definition Trim (s : string) (c : ascii) : string :=
  reverse (trimLeftByte c (reverse (trimLeftByte c s))).

(** The loop of [List] over the remaining lines. An index expression
    beyond the length of [fields] panics: the result is [None]. *)
Fixpoint parseRows (lines : list string) (tasks : list Task)
  : option (list Task) :=
  match lines with
  | [] => Some tasks
  | line :: rest =>
      if String.eqb (TrimSpace line) "" then parseRows rest tasks
      else
        let fields := splitByte ","%char line in
        if (4 <=? length fields)%nat then
          match nth_error fields 0, nth_error fields 3,
                nth_error fields 4, nth_error fields 5 with
          | Some f0, Some f3, Some f4, Some f5 =>
              let task :=
                {| Name := Trim f0 (ascii_of_nat 34);
                   Command := "";
                   Schedule := "";
                   Status := Trim f3 (ascii_of_nat 34);
                   LastRun := Trim f4 (ascii_of_nat 34);
                   NextRun := Trim f5 (ascii_of_nat 34) |} in
              parseRows rest (tasks ++ [task])
          | _, _, _, _ => None
          end
        else parseRows rest tasks
  end.

(** [List], given what [schtasks /query /fo csv /v] printed or how it
    failed; [None] is a run-time panic. The first line is the header. *)
Definition List (query : result string) : option (result (list Task)) :=
  match query with
  | Err err => Some (Err (wrapError "查询 Windows 任务失败" err))
  | Ok output =>
      let lines := splitByte (ascii_of_nat 10) output in
      match parseRows (tl lines) [] with
      | Some tasks => Some (Ok tasks)
      | None => None
      end
  end.

End WindowsTasks.

(** ** Go package [bufio]: a [Scanner] over lines *)

Module Bufio.
Import GoStrings.

(** [bufio.MaxScanTokenSize], the size the buffer of a [Scanner] grows
    to. *)
Definition MaxScanTokenSize : Z := 64 * 1024.

(** [dropCR]: one trailing carriage return is dropped. *)
Fixpoint dropCR (data : string) : string :=
  match data with
  | EmptyString => EmptyString
  | String c EmptyString =>
      if Ascii.eqb c (ascii_of_nat 13) then EmptyString else data
  | String c rest => String c (dropCR rest)
  end.

(** The text after the last newline makes a token only when it is not
    empty. *)
Fixpoint dropFinalEmpty (pieces : list string) : list string :=
  match pieces with
  | [] => []
  | [final] => if String.eqb final "" then [] else [final]
  | piece :: rest => piece :: dropFinalEmpty rest
  end.

(** The tokens [Scan] yields, one per line, up to the first line that
    does not fit the buffer: there [Scan] returns false. *)
Fixpoint tokens (pieces : list string) : list string :=
  match pieces with
  | [] => []
  | piece :: rest =>
      if MaxScanTokenSize <=? Z.of_nat (String.length piece) then []
      else dropCR piece :: tokens rest
  end.

(** The successive values of [scanner.Text()] in
    [for scanner.Scan() { ... }] over a reader of [text], with the
    default split function [ScanLines]. *)
Definition Lines (text : string) : list string :=
  tokens (dropFinalEmpty (splitByte (ascii_of_nat 10) text)).

End Bufio.

(** ** Go package [internal/webserver]: the Nginx site file *)

Module Webserver.
Import GoStrings.

Record Config := {
  Type_ : string;
  Domain : string;
  CertPath : string;
  KeyPath : string;
  ConfigPath : string;
  WebRoot : string;
}.

Definition QUOTE : string := String (ascii_of_nat 34) EmptyString.

(** The template of [generateConfig] with the fields filled in, cut at
    its newlines. [text/template] writes a string field as it is. *)
Definition siteLines (config : Config) : list string :=
  [ "# AutoCert 自动生成的配置";
    "server {";
    "    listen 80;";
    "    server_name " ++ Domain config ++ ";";
    "    ";
    "    # 重定向 HTTP 到 HTTPS";
    "    return 301 https://$server_name$request_uri;";
    "}";
    "";
    "server {";
    "    listen 443 ssl http2;";
    "    server_name " ++ Domain config ++ ";";
    "    ";
    "    # SSL 证书配置";
    "    ssl_certificate " ++ CertPath config ++ ";";
    "    ssl_certificate_key " ++ KeyPath config ++ ";";
    "    ";
    "    # SSL 安全配置";
    "    ssl_protocols TLSv1.2 TLSv1.3;";
    "    ssl_prefer_server_ciphers on;";
    "    ssl_ciphers ECDHE-RSA-AES256-GCM-SHA384:ECDHE-RSA-AES128-GCM-SHA256:ECDHE-RSA-AES256-SHA384:ECDHE-RSA-AES128-SHA256;";
    "    ssl_session_cache shared:SSL:10m;";
    "    ssl_session_timeout 10m;";
    "    ";
    "    # 网站根目录";
    "    root " ++ WebRoot config ++ ";";
    "    index index.html index.htm index.php;";
    "    ";
    "    # 通用配置";
    "    location / {";
    "        try_files $uri $uri/ =404;";
    "    }";
    "    ";
    "    # ACME 挑战目录";
    "    location ^~ /.well-known/acme-challenge/ {";
    "        default_type " ++ QUOTE ++ "text/plain" ++ QUOTE ++ ";";
    "        root " ++ WebRoot config ++ ";";
    "    }";
    "}" ].

(** Every line of the template, the last one too, ends with a newline.
    Parsing the constant template and executing it into a
    [strings.Builder] do not fail. *)
Definition generateConfig (config : Config) : result string :=
  Ok (String.concat "" (map (fun line => line ++ LF) (siteLines config))).

(** [createSiteConfig] on a non-Windows host. *)
Definition createSiteConfig (config : Config) : M string :=
  let configDir := "/etc/nginx/sites-available" in
  let configFile := Filepath.Join [configDir; Domain config] in
  OS.MkdirAll (Filepath.Dir configFile) 493 (* 0755 *) ;;;
  match generateConfig config with
  | Err err => fail err
  | Ok configContent =>
      OS.WriteFile configFile (RawData configContent) 420 (* 0644 *) ;;;
      ret configFile
  end.

(** A field that keeps to its line and opens or closes no block: no
    newline, no brace, and short enough for its line to fit the buffer
    of a [Scanner]. *)
Definition tame (field : string) : Prop :=
  countByte (ascii_of_nat 10) field = 0%nat /\
  countByte "{"%char field = 0%nat /\
  countByte "}"%char field = 0%nat /\
  Z.of_nat (String.length field) < 65000.

End Webserver.

(** ** More hosts and command lines used in examples *)

Module Scenario.

(** A host on which the library refuses to build certificate requests. *)
Definition noRequests : World :=
  {| files := ∅; dirs := ∅; umask := 18;
     clock := clock Sample.freshWorld; reads := 0; entropy := 0;
     faults := fun c =>
       match c with
       | CallCreateCertificateRequest => true
       | _ => false
       end;
     serialNumbers := true; nameMax := 255; pathMax := 4096 |}.

(** A host whose certificate path holds a private key instead. *)
Definition keyInPlace : World :=
  {| files :=
       {[ Manager.getCertPath Sample.single :=
            {| content :=
                 PemData {| Type_ := "RSA PRIVATE KEY";
                            Bytes := DerPrivateKey
                                       {| key_bits := 2048;
                                          key_draw := 0 |} |};
               mode := 384 |} ]};
     dirs := ∅; umask := 18;
     clock := clock Sample.freshWorld; reads := 0; entropy := 1;
     faults := fun _ => false; serialNumbers := true;
     nameMax := 255; pathMax := 4096 |}.

(** A host on which the library refuses to sign certificates. *)
Definition noCertificates : World :=
  {| files := ∅; dirs := ∅; umask := 18;
     clock := clock Sample.freshWorld; reads := 0; entropy := 0;
     faults := fun c =>
       match c with
       | CallCreateCertificate => true
       | _ => false
       end;
     serialNumbers := true; nameMax := 255; pathMax := 4096 |}.

(** A manager for a domain written in Japanese, in UTF-8. *)
Definition japanese : Manager.t :=
  Manager.NewManager None
    (GoStrings.bytes [228; 190; 139; 227; 129; 136; 46; 99; 111; 109]%nat)
    "admin@example.com".

(** [install --domains <list> --email admin@example.com --nginx --dns] *)
Definition listLine (list : string) : Cmd.Flags :=
  {| Cmd.domain := "ignored.example.org"; Cmd.domains := list;
     Cmd.email := "admin@example.com";
     Cmd.webroot := ""; Cmd.standalone := false;
     Cmd.dnsChallenge := true;
     Cmd.nginx := true; Cmd.apache := false; Cmd.iis := false |}.

(** A certificate store with one domain, and the host around it: a home
    directory with a [config.yaml], no configuration directory. *)
Definition store : Backup.Manager :=
  {| Backup.certDir := "/etc/autocert/certs";
     Backup.configDir := "/etc/autocert" |}.

Definition storeHost : Backup.Host :=
  {| Backup.UserHomeDir := Ok "/root";
     Backup.ReadDir := fun dir =>
       if String.eqb dir "/etc/autocert/certs" then
         Ok [ {| Backup.Name := "example.com"; Backup.IsDir := true |} ]
       else if String.eqb dir "/etc/autocert/certs/example.com" then
         Ok [ {| Backup.Name := "cert.pem"; Backup.IsDir := false |};
              {| Backup.Name := "key.pem"; Backup.IsDir := false |} ]
       else Err (PathError "open" dir ENOENT);
     Backup.Stat := fun path =>
       if String.eqb path "/root/config.yaml" then None
       else Some (PathError "stat" path ENOENT) |}.

(** A user crontab with one job of its own. *)
Definition cronHost : Cron.Host :=
  {| Cron.table := Some ("0 4 * * * /usr/bin/backup" ++ LF);
     Cron.listFault := false;
     Cron.refuses := fun _ => false |}.

(** A user crontab with a job of its own and two renewal jobs, the
    name of the second starting with the name of the first. *)
Definition busyCron : Cron.Host :=
  {| Cron.table :=
       Some ("0 4 * * * /usr/bin/backup" ++ LF ++
             "0 2 * * * /usr/bin/autocert renew --all # autocert-renew"
             ++ LF ++
             "0 3 * * * /usr/bin/autocert renew --all # autocert-renew-dev"
             ++ LF);
     Cron.listFault := false;
     Cron.refuses := fun _ => false |}.

(** The site of [example.com] with the files of [Sample.single]. *)
Definition site : Webserver.Config :=
  {| Webserver.Type_ := "nginx";
     Webserver.Domain := "example.com";
     Webserver.CertPath := "/etc/autocert/certs/example.com/cert.pem";
     Webserver.KeyPath := "/etc/autocert/certs/example.com/key.pem";
     Webserver.ConfigPath := "";
     Webserver.WebRoot := "/var/www/html" |}.

(** What [collectFiles] gathers on [storeHost], or nothing if it
    fails. *)
Definition collected : gmap string string :=
  match Backup.collectFiles store storeHost "" with
  | Ok fs => fs
  | Err _ => ∅
  end.

End Scenario.

(* ===================================================================== *)
(** * Part II. Theorems                                                   *)
(* ===================================================================== *)

(** ** The library models on known inputs *)

Example TrimSpace_examples :
  GoStrings.TrimSpace ("  example.com" ++ Sample.TAB ++ LF) = "example.com" /\
  GoStrings.TrimSpace (" a b ") = "a b" /\
  GoStrings.TrimSpace (GoStrings.bytes [194; 160; 97; 226; 128; 168]%nat)
    = "a" /\
  GoStrings.TrimSpace "" = "".
Proof. vm_compute. repeat split. Qed.

Example Split_examples :
  GoStrings.splitByte ","%char "a.com,b.com" = ["a.com"; "b.com"] /\
  GoStrings.splitByte ","%char "a.com, ,b.com," = ["a.com"; " "; "b.com"; ""] /\
  GoStrings.splitByte ","%char "" = [""].
Proof. vm_compute. repeat split. Qed.

Example Contains_examples :
  GoStrings.Contains "listen 443 ssl;" "ssl" = true /\
  GoStrings.Contains "server_name a.com;" "b.com" = false /\
  GoStrings.Contains "" "" = true /\
  GoStrings.HasPrefix "*.example.com" "*." = true /\
  GoStrings.HasPrefix "*" "*." = false.
Proof. vm_compute. repeat split. Qed.

Example Clean_examples :
  Filepath.Clean "a//b/./c/.." = "a/b" /\
  Filepath.Clean "/../a" = "/a" /\
  Filepath.Clean "../../a/.." = "../.." /\
  Filepath.Clean "" = "." /\
  Filepath.Clean "/" = "/" /\
  Filepath.Join ["/etc/autocert/certs"; "example.com"; "cert.pem"]
    = "/etc/autocert/certs/example.com/cert.pem" /\
  Filepath.Join [""; "a"; ""; "b"] = "a/b" /\
  Filepath.Join [""; ""] = "" /\
  Filepath.Dir "/etc/nginx/nginx.conf" = "/etc/nginx" /\
  Filepath.Dir "nginx.conf" = ".".
Proof. vm_compute. repeat split. Qed.

Example Sub_examples :
  Time.Sub (90 * 24 * Time.Hour) 0 = 7776000000000000 /\
  Time.Sub (2 ^ 64) 0 = Time.maxDuration /\
  Time.Sub 0 (2 ^ 64) = Time.minDuration.
Proof. vm_compute. repeat split. Qed.

(** ** The monad *)

Lemma bind_Ok {A B} (c : M A) (k : A -> M B) w b w2 :
  bind c k w = (Ok b, w2) ->
  exists a w1, c w = (Ok a, w1) /\ k a w1 = (Ok b, w2).
Proof.
  unfold bind. destruct (c w) as [[a|e] w1]; [eauto | discriminate].
Qed.

Lemma bind_Err {A B} (c : M A) (k : A -> M B) w e w2 :
  bind c k w = (Err e, w2) ->
  c w = (Err e, w2) \/ exists a w1, c w = (Ok a, w1) /\ k a w1 = (Err e, w2).
Proof.
  unfold bind. destruct (c w) as [[a|e'] w1]; [eauto | intros [= -> ->]; auto].
Qed.

Lemma bind_step {A B} (c : M A) (k : A -> M B) w a w1 :
  c w = (Ok a, w1) -> bind c k w = k a w1.
Proof. unfold bind. now intros ->. Qed.

Lemma bind_abort {A B} (c : M A) (k : A -> M B) w e w1 :
  c w = (Err e, w1) -> bind c k w = (Err e, w1).
Proof. unfold bind. now intros ->. Qed.

Lemma run_result {A} (c : M A) w r : fst (c w) = r -> c w = (r, snd (c w)).
Proof. intros <-. now destruct (c w). Qed.

Lemma wrap_Ok {A} msg (c : M A) w a w1 :
  wrap msg c w = (Ok a, w1) <-> c w = (Ok a, w1).
Proof.
  unfold wrap. destruct (c w) as [[a'|e] w']; split; congruence.
Qed.

Lemma wrap_Err {A} msg (c : M A) w e w1 :
  wrap msg c w = (Err e, w1) <->
  exists inner, e = wrapError msg inner /\ c w = (Err inner, w1).
Proof.
  unfold wrap. destruct (c w) as [[a'|e'] w']; split.
  - discriminate.
  - intros (inner & _ & [=]).
  - intros [= <- <-]. eauto.
  - intros (inner & -> & [= -> ->]). reflexivity.
Qed.

Lemma bind_Ok_iff {A B} (c : M A) (k : A -> M B) w b w2 :
  bind c k w = (Ok b, w2) <->
  exists a w1, c w = (Ok a, w1) /\ k a w1 = (Ok b, w2).
Proof.
  split; [apply bind_Ok|]. intros (a & w1 & Hc & Hk).
  now rewrite (bind_step _ _ _ _ _ Hc).
Qed.

Lemma wrap_Ok_iff {A} msg (c : M A) w a w' :
  wrap msg c w = (Ok a, w') <-> c w = (Ok a, w').
Proof.
  unfold wrap. destruct (c w) as [[x|e] w1]; split; congruence.
Qed.

(** ** Wildcard detection *)

Lemma anyWildcard_true ds :
  MultiDomainManager.anyWildcard ds = true <->
  exists d, In d ds /\ GoStrings.HasPrefix d "*." = true.
Proof.
  induction ds as [|d ds IH]; simpl.
  - split; [discriminate | intros (d & [] & _)].
  - destruct (GoStrings.HasPrefix d "*.") eqn:Hd.
    + split; [eauto | reflexivity].
    + rewrite IH. split.
      * intros (d' & Hin & Hp). eauto.
      * intros (d' & [<- | Hin] & Hp); [congruence | eauto].
Qed.

Lemma hasWildcard_anyWildcard ds :
  Cmd.hasWildcard ds = MultiDomainManager.anyWildcard ds.
Proof. induction ds as [|d ds IH]; simpl; [|rewrite IH]; reflexivity. Qed.

(** ** C10: the constructor of the multi-domain manager *)

(** C10. [NewMultiDomainManager] returns no manager exactly for the empty
    domain list; for a non-empty list it returns a manager over that list
    whose primary domain is the first entry, whose challenge type is
    Webroot and whose key size is 2048; and [installMultiDomain] turns the
    missing manager into an error without touching the world. *)
Theorem NewMultiDomainManager_spec :
  forall (cfg : option Config) (email : string),
    (forall ds,
        MultiDomainManager.NewMultiDomainManager cfg ds email = None <->
        ds = []) /\
    (forall d rest,
        exists m,
          MultiDomainManager.NewMultiDomainManager cfg (d :: rest) email
            = Some m /\
          MultiDomainManager.domains m = d :: rest /\
          MultiDomainManager.primaryDomain m = d /\
          head (MultiDomainManager.domains m)
            = Some (MultiDomainManager.primaryDomain m) /\
          MultiDomainManager.challengeType m = ChallengeWebroot /\
          MultiDomainManager.keySize m = 2048) /\
    (forall fl w,
        Cmd.installMultiDomain cfg fl [] w
          = (Err (errorString "创建多域名管理器失败"), w)).
Proof.
  intros cfg email. split; [|split].
  - intros [|d rest]; simpl; split; congruence.
  - intros d rest. eexists. split; [reflexivity|]. simpl. tauto.
  - reflexivity.
Qed.

(** ** C1: wildcard domains need the DNS challenge *)

(** C1. When some domain of the manager starts with [*.] and the challenge
    type is not DNS, [MultiDomainManager.Install] returns the wildcard
    error and the world it was given, unchanged: no directory is created,
    no key is drawn, nothing is written. *)
Theorem Install_wildcard_requires_DNS :
  forall (m : MultiDomainManager.t) (w : World),
    (exists d, In d (MultiDomainManager.domains m) /\
               GoStrings.HasPrefix d "*." = true) ->
    MultiDomainManager.challengeType m <> ChallengeDNS ->
    MultiDomainManager.Install m w
      = (Err (errorString "泛域名证书必须使用 DNS 验证模式"), w).
Proof.
  intros m w Hwild Hdns.
  unfold MultiDomainManager.Install, MultiDomainManager.hasWildcardDomain.
  apply anyWildcard_true in Hwild. rewrite Hwild.
  destruct (Z.eqb_spec (MultiDomainManager.challengeType m) ChallengeDNS);
    [contradiction | reflexivity].
Qed.

Lemma Install_wildcard_requires_DNS_witness :
  MultiDomainManager.Install Sample.wildcard Sample.freshWorld
    = (Err (errorString "泛域名证书必须使用 DNS 验证模式"), Sample.freshWorld).
Proof.
  apply Install_wildcard_requires_DNS.
  - exists "*.example.com". split; [left; reflexivity | reflexivity].
  - discriminate.
Defined.

(** ** C4: domain validation *)

Lemma HasPrefix_byte c s :
  GoStrings.HasPrefix s (String c EmptyString) =
  match s with
  | EmptyString => false
  | String c' _ => Ascii.eqb c' c
  end.
Proof.
  destruct s as [|c' s']; simpl; [reflexivity | apply andb_true_r].
Qed.

Lemma Contains_byte c s :
  GoStrings.Contains s (String c EmptyString) = true <->
  (0 < GoStrings.countByte c s)%nat.
Proof.
  induction s as [|c' s IH].
  - simpl. split; [discriminate | lia].
  - cbn [GoStrings.Contains GoStrings.countByte]. rewrite HasPrefix_byte.
    destruct (Ascii.eqb c' c); [split; [lia | reflexivity]|].
    rewrite IH. simpl. reflexivity.
Qed.

Lemma countByte_wildcard d :
  GoStrings.HasPrefix d "*." = true ->
  GoStrings.countByte "*"%char d
  = S (GoStrings.countByte "*"%char (GoStrings.slice_from 2 d)).
Proof.
  destruct d as [|a [|b d]]; cbn [GoStrings.HasPrefix]; try discriminate.
  - rewrite andb_false_r. discriminate.
  - rewrite andb_true_r. intros [Ha Hb]%andb_true_iff.
    cbn [GoStrings.countByte GoStrings.slice_from]. rewrite Ha.
    apply Ascii.eqb_eq in Hb. subst b. reflexivity.
Qed.

Lemma validateEach_None ds :
  Cmd.validateEach ds = None ->
  Forall (fun d => d <> "" /\ Cmd.validateDomainName d = None) ds.
Proof.
  induction ds as [|d ds IH]; simpl; [constructor|].
  destruct (String.eqb_spec d ""); [discriminate|].
  destruct (Cmd.validateDomainName d) eqn:Hd; [discriminate|].
  intros H. constructor; auto.
Qed.

Lemma parseDomains_Ok fl ds :
  Cmd.parseDomains fl = Ok ds ->
  Forall (fun d => d <> "" /\ Cmd.validateDomainName d = None) ds.
Proof.
  unfold Cmd.parseDomains.
  set (parsed := if negb _ then _ else _). destruct parsed as [l|e];
    [|discriminate].
  destruct (Cmd.validateEach l) eqn:Hl; [discriminate|].
  intros [= <-]. now apply validateEach_None.
Qed.

(** The claim as written fails: a name with two stars that does not start
    with [*.], and a name with a TAB inside, both pass [validateDomainName]
    and are accepted by [parseDomains]. *)
Lemma validateDomainName_counterexample :
  (1 < GoStrings.countByte "*"%char "**.example.com")%nat /\
  Cmd.validateDomainName "**.example.com" = None /\
  Cmd.parseDomains (Sample.commandLine "**.example.com" "" false true)
    = Ok ["**.example.com"] /\
  (0 < GoStrings.countByte (ascii_of_nat 9)
         ("a" ++ Sample.TAB ++ "b.example.com"))%nat /\
  Cmd.validateDomainName ("a" ++ Sample.TAB ++ "b.example.com") = None /\
  Cmd.parseDomains
    (Sample.commandLine ("a" ++ Sample.TAB ++ "b.example.com") "" false false)
    = Ok ["a" ++ Sample.TAB ++ "b.example.com"].
Proof. vm_compute. repeat split; lia. Qed.

(** C4 (amended). [validateDomainName] rejects every name that starts with
    [*.] and holds more than one star, and every name that holds a space
    (U+0020); [parseDomains] returns only entries that pass
    [validateDomainName], so no such name is among them. *)
Theorem validateDomainName_rejects :
  forall d : string,
    (GoStrings.HasPrefix d "*." = true ->
     (1 < GoStrings.countByte "*"%char d)%nat ->
     Cmd.validateDomainName d <> None) /\
    ((0 < GoStrings.countByte " "%char d)%nat ->
     Cmd.validateDomainName d <> None) /\
    (forall fl ds,
        Cmd.parseDomains fl = Ok ds -> In d ds ->
        Cmd.validateDomainName d = None /\
        ~ (GoStrings.HasPrefix d "*." = true /\
           (1 < GoStrings.countByte "*"%char d)%nat) /\
        GoStrings.countByte " "%char d = 0%nat).
Proof.
  intros d.
  assert (Hstar : GoStrings.HasPrefix d "*." = true ->
                  (1 < GoStrings.countByte "*"%char d)%nat ->
                  Cmd.validateDomainName d <> None).
  { intros Hp Hc. unfold Cmd.validateDomainName.
    destruct (String.length d =? 0)%nat; [discriminate|].
    rewrite Hp. destruct (String.length d <? 4)%nat; [discriminate|].
    rewrite (countByte_wildcard d Hp) in Hc.
    assert (Hb : GoStrings.Contains (GoStrings.slice_from 2 d) "*" = true)
      by (apply Contains_byte; lia).
    rewrite Hb. discriminate. }
  assert (Hspace : (0 < GoStrings.countByte " "%char d)%nat ->
                   Cmd.validateDomainName d <> None).
  { intros Hc. apply Contains_byte in Hc. unfold Cmd.validateDomainName.
    destruct (String.length d =? 0)%nat; [discriminate|].
    match goal with |- context [match ?x with Some _ => _ | None => _ end] =>
      destruct x end; [discriminate|].
    rewrite Hc. discriminate. }
  split; [exact Hstar | split; [exact Hspace|]].
  intros fl ds Hparse Hin.
  apply parseDomains_Ok in Hparse. rewrite List.Forall_forall in Hparse.
  destruct (Hparse d Hin) as [_ Hvalid].
  split; [exact Hvalid | split].
  - intros [Hp Hc]. now apply Hstar.
  - destruct (GoStrings.countByte " "%char d) eqn:Hc; [reflexivity|].
    exfalso. apply Hspace; [lia | exact Hvalid].
Qed.

Lemma validateDomainName_rejects_witness :
  Cmd.validateDomainName "*.a*.example.com" <> None /\
  Cmd.validateDomainName "my site.example.com" <> None.
Proof.
  split.
  - apply (proj1 (validateDomainName_rejects "*.a*.example.com"));
      [reflexivity | simpl; lia].
  - apply (proj1 (proj2 (validateDomainName_rejects "my site.example.com"))).
    simpl; lia.
Defined.

(** ** C5: choosing the challenge type *)

(** The claim as written fails: with [--standalone] and [--webroot] both
    given for a wildcard name and no [--dns], two mode flags are set, yet
    the command fails with the wildcard error, which is checked first, and
    not with the error for conflicting modes. *)
Lemma validateInstallFlags_counterexample :
  let fl := Sample.commandLine "*.example.com" "/var/www/html" true false in
  Cmd.parseDomains fl = Ok ["*.example.com"] /\
  1 < Cmd.modeCount fl /\
  Cmd.validateInstallFlags fl ["*.example.com"]
    = Some Cmd.WildcardRequiresDNS /\
  Cmd.validateInstallFlags fl ["*.example.com"]
    <> Some Cmd.InvalidChallengeConfiguration.
Proof. vm_compute. repeat split; try lia; discriminate. Qed.

Lemma validateInstallFlags_server_ok fl ds :
  Cmd.serverCount fl = 1 ->
  Cmd.validateInstallFlags fl ds =
  if Cmd.hasWildcard ds && negb (Cmd.dnsChallenge fl) then
    Some Cmd.WildcardRequiresDNS
  else if 1 <? Cmd.modeCount fl then Some Cmd.InvalidChallengeConfiguration
  else None.
Proof.
  unfold Cmd.serverCount, Cmd.validateInstallFlags, Cmd.modeCount.
  destruct (Cmd.nginx fl), (Cmd.apache fl), (Cmd.iis fl); simpl;
    try discriminate; intros _;
    destruct (Cmd.hasWildcard ds), (Cmd.dnsChallenge fl),
      (Cmd.standalone fl), (String.eqb (Cmd.webroot fl) ""); reflexivity.
Qed.

(** C5 (amended). On a command line with exactly one server flag:
    the manager that is built carries one of the three challenge types;
    validation fails with [WildcardRequiresDNS] whenever a domain has the
    wildcard prefix and [--dns] is absent; otherwise it fails with
    [InvalidChallengeConfiguration] whenever more than one mode flag is
    set; so it fails whenever more than one mode flag is set; and once
    validation passes the type is the one the single flag names, Webroot
    when there is no flag. *)
Theorem challenge_selection :
  forall (cfg : option Config) (fl : Cmd.Flags) (ds : list string),
    Cmd.serverCount fl = 1 ->
    (forall d,
        In (Manager.challengeType (Cmd.singleDomainManager cfg fl d))
           [ChallengeWebroot; ChallengeStandalone; ChallengeDNS]) /\
    (forall m,
        In (MultiDomainManager.challengeType (Cmd.multiDomainManager fl ds m))
           [ChallengeWebroot; ChallengeStandalone; ChallengeDNS]) /\
    (Cmd.hasWildcard ds = true -> Cmd.dnsChallenge fl = false ->
     Cmd.validateInstallFlags fl ds = Some Cmd.WildcardRequiresDNS) /\
    (1 < Cmd.modeCount fl ->
     (Cmd.hasWildcard ds = false \/ Cmd.dnsChallenge fl = true) ->
     Cmd.validateInstallFlags fl ds = Some Cmd.InvalidChallengeConfiguration) /\
    (1 < Cmd.modeCount fl -> Cmd.validateInstallFlags fl ds <> None) /\
    (Cmd.validateInstallFlags fl ds = None ->
     let chosen :=
       if Cmd.dnsChallenge fl then ChallengeDNS
       else if Cmd.standalone fl then ChallengeStandalone
       else ChallengeWebroot in
     (forall d, In d ds ->
        Manager.challengeType (Cmd.singleDomainManager cfg fl d) = chosen) /\
     (forall m,
        MultiDomainManager.challengeType (Cmd.multiDomainManager fl ds m)
          = chosen) /\
     (Cmd.modeCount fl = 0 -> chosen = ChallengeWebroot)).
Proof.
  intros cfg fl ds Hserver.
  rewrite (validateInstallFlags_server_ok fl ds Hserver).
  split; [|split; [|split; [|split; [|split]]]].
  - intros d. unfold Cmd.singleDomainManager.
    destruct (Cmd.dnsChallenge fl || GoStrings.HasPrefix d "*.");
      [|destruct (Cmd.standalone fl);
        [|destruct (negb (String.eqb (Cmd.webroot fl) ""))]];
      destruct (Cmd.nginx fl), (Cmd.apache fl), (Cmd.iis fl); simpl; tauto.
  - intros m. unfold Cmd.multiDomainManager.
    destruct (Cmd.dnsChallenge fl || Cmd.hasWildcard ds);
      [|destruct (Cmd.standalone fl);
        [|destruct (negb (String.eqb (Cmd.webroot fl) ""))]];
      destruct (Cmd.nginx fl), (Cmd.apache fl), (Cmd.iis fl); simpl; tauto.
  - intros -> ->. reflexivity.
  - intros Hmode Hok. apply Z.ltb_lt in Hmode. rewrite Hmode.
    destruct Hok as [-> | ->]; [reflexivity | now rewrite andb_false_r].
  - intros Hmode. apply Z.ltb_lt in Hmode. rewrite Hmode.
    destruct (_ && _); discriminate.
  - destruct (Cmd.hasWildcard ds && negb (Cmd.dnsChallenge fl)) eqn:Hwild;
      [discriminate|].
    destruct (1 <? Cmd.modeCount fl) eqn:Hmode; [discriminate|]. intros _.
    apply Z.ltb_ge in Hmode. unfold Cmd.modeCount in *.
    split; [|split].
    + intros d Hin. unfold Cmd.singleDomainManager.
      assert (Hd : GoStrings.HasPrefix d "*." = true ->
                   Cmd.dnsChallenge fl = true).
      { intros Hp. destruct (Cmd.dnsChallenge fl); [reflexivity|].
        assert (Cmd.hasWildcard ds = true) as Hw.
        { rewrite hasWildcard_anyWildcard. apply anyWildcard_true. eauto. }
        rewrite Hw in Hwild. discriminate. }
      destruct (GoStrings.HasPrefix d "*."); [rewrite Hd by reflexivity|];
        destruct (Cmd.dnsChallenge fl), (Cmd.standalone fl),
          (String.eqb (Cmd.webroot fl) "");
        destruct (Cmd.nginx fl), (Cmd.apache fl), (Cmd.iis fl);
        simpl in *; try reflexivity; lia.
    + intros m. unfold Cmd.multiDomainManager.
      destruct (Cmd.hasWildcard ds), (Cmd.dnsChallenge fl),
        (Cmd.standalone fl), (String.eqb (Cmd.webroot fl) "");
        destruct (Cmd.nginx fl), (Cmd.apache fl), (Cmd.iis fl);
        simpl in *; try reflexivity; try discriminate; lia.
    + destruct (Cmd.dnsChallenge fl), (Cmd.standalone fl),
        (String.eqb (Cmd.webroot fl) ""); simpl; intros; try reflexivity; lia.
Qed.

Lemma challenge_selection_witness :
  Cmd.validateInstallFlags
    (Sample.commandLine "example.com" "/var/www/html" true false)
    ["example.com"]
  = Some Cmd.InvalidChallengeConfiguration.
Proof.
  apply (challenge_selection None
           (Sample.commandLine "example.com" "/var/www/html" true false)
           ["example.com"]).
  - reflexivity.
  - reflexivity.
  - left. reflexivity.
Defined.

(** ** Reading the stored certificate *)

Lemma append_cons c (a b : string) : String c a ++ b = String c (a ++ b).
Proof. reflexivity. Qed.

Lemma append_nil_l (a : string) : "" ++ a = a.
Proof. reflexivity. Qed.

Lemma Stat_world path w : snd (OS.Stat path w) = w.
Proof.
  unfold OS.Stat. destruct (faults w (CallStat path)); [reflexivity|].
  destruct (OS.isFile w path || OS.isDir w path); reflexivity.
Qed.

Lemma isFile_true w path :
  OS.isFile w path = true <-> exists f, files w !! path = Some f.
Proof. unfold OS.isFile. rewrite bool_decide_eq_true. reflexivity. Qed.

Lemma isFile_false w path :
  OS.isFile w path = false <-> files w !! path = None.
Proof.
  unfold OS.isFile. rewrite bool_decide_eq_false, <- eq_None_not_Some.
  reflexivity.
Qed.

Lemma isDir_false w path : OS.isDir w path = false <-> path ∉ dirs w.
Proof. unfold OS.isDir. apply bool_decide_eq_false. Qed.

(** A path refused before any look at the disk is reported with the
    error number of that refusal, which is never "no such file or
    directory". *)
Lemma missing_malformed w path errno :
  OS.malformed w path = Some errno ->
  OS.missing w path = errno /\ errno <> ENOENT.
Proof.
  unfold OS.missing. intros H. rewrite H. split; [reflexivity|].
  unfold OS.malformed in H. destruct (negb _); [now injection H as <-|].
  destruct (_ <=? _)%nat; [now injection H as <-|discriminate].
Qed.

(** [os.IsNotExist] accepts the error of [os.Stat] exactly when nothing
    is at the path and the walk to it stops at an entry that is wanting. *)
Lemma Stat_NotExist path w :
  os_IsNotExist (fst (OS.Stat path w)) = true <->
  faults w (CallStat path) = false /\ files w !! path = None /\
  (path ∉ dirs w) /\ OS.missing w path = ENOENT.
Proof.
  unfold OS.Stat. rewrite <- isFile_false, <- isDir_false.
  destruct (faults w (CallStat path)); simpl.
  - split; [discriminate | intros [? _]; discriminate].
  - destruct (OS.isFile w path), (OS.isDir w path), (OS.missing w path);
      simpl; intuition discriminate.
Qed.

Lemma Stat_found path w f :
  files w !! path = Some f -> os_IsNotExist (fst (OS.Stat path w)) = false.
Proof.
  intros Hf. destruct (os_IsNotExist _) eqn:E; [|reflexivity].
  apply Stat_NotExist in E. destruct E as (_ & E & _). congruence.
Qed.

Lemma ReadFile_found path w f :
  files w !! path = Some f -> faults w (CallReadFile path) = false ->
  OS.ReadFile path w = (Ok (content f), w).
Proof. unfold OS.ReadFile. now intros -> ->. Qed.

Lemma ReadFile_Ok path w data w' :
  OS.ReadFile path w = (Ok data, w') ->
  w' = w /\ faults w (CallReadFile path) = false /\
  exists f, files w !! path = Some f /\ data = content f.
Proof.
  unfold OS.ReadFile. destruct (faults w (CallReadFile path)); [discriminate|].
  destruct (files w !! path) as [f|].
  - intros [= <- <-]. eauto.
  - destruct (OS.isDir w path); discriminate.
Qed.

(** What [GetCertInfo] returns once the file at the certificate path holds
    a PEM block with a well-formed certificate and can be read. *)
Lemma GetCertInfo_stored m w f blk cert :
  files w !! Manager.getCertPath m = Some f ->
  faults w (CallReadFile (Manager.getCertPath m)) = false ->
  pem_Decode (content f) = Some blk ->
  x509_ParseCertificate (Bytes blk) = Ok cert ->
  Manager.GetCertInfo m w
  = (Ok {| Domain := Manager.domain m;
           CertPath := Manager.getCertPath m;
           KeyPath := Manager.getKeyPath m;
           ChainPath := Manager.getChainPath m;
           ExpiryDate := NotAfter cert;
           IsValid := Time.Before (clock w (reads w)) (NotAfter cert) |},
     set_reads (S (reads w)) w).
Proof.
  intros Hf Hr Hpem Hder. unfold Manager.GetCertInfo.
  pose proof (Stat_world (Manager.getCertPath m) w) as Hw.
  pose proof (Stat_found _ _ _ Hf) as Hs.
  destruct (OS.Stat (Manager.getCertPath m) w) as [stat w0].
  simpl in Hw, Hs. subst w0. rewrite Hs.
  unfold bind, wrap. rewrite (ReadFile_found _ _ _ Hf Hr), Hpem, Hder.
  reflexivity.
Qed.

Lemma GetCertInfo_Ok m w info w' :
  Manager.GetCertInfo m w = (Ok info, w') ->
  exists f blk cert,
    files w !! Manager.getCertPath m = Some f /\
    faults w (CallReadFile (Manager.getCertPath m)) = false /\
    pem_Decode (content f) = Some blk /\
    x509_ParseCertificate (Bytes blk) = Ok cert.
Proof.
  unfold Manager.GetCertInfo.
  pose proof (Stat_world (Manager.getCertPath m) w) as Hw.
  destruct (OS.Stat (Manager.getCertPath m) w) as [stat w0].
  simpl in Hw. subst w0. destruct (os_IsNotExist stat); [discriminate|].
  intros (data & w1 & Hread & Hrest)%bind_Ok.
  apply wrap_Ok, ReadFile_Ok in Hread.
  destruct Hread as (-> & Hfault & f & Hf & ->).
  destruct (pem_Decode (content f)) as [blk|] eqn:Hpem; [|discriminate].
  destruct (x509_ParseCertificate (Bytes blk)) as [cert|e] eqn:Hder;
    [|discriminate].
  eauto 10.
Qed.

(** ** C7: outcomes of [GetCertInfo] *)

(** When [os.Stat] does not answer that the path is missing,
    [GetCertInfo] goes on to read the file. *)
Lemma GetCertInfo_reads m w :
  os_IsNotExist (fst (OS.Stat (Manager.getCertPath m) w)) = false ->
  Manager.GetCertInfo m w
  = (let* certData := wrap "读取证书文件失败"
                        (OS.ReadFile (Manager.getCertPath m)) in
     match pem_Decode certData with
     | None => fail (errorString "无法解析证书文件")
     | Some block =>
         match x509_ParseCertificate (Bytes block) with
         | Err err => fail (wrapError "解析证书失败" err)
         | Ok cert =>
             let* now := time_Now in
             ret {| Domain := Manager.domain m;
                    CertPath := Manager.getCertPath m;
                    KeyPath := Manager.getKeyPath m;
                    ChainPath := Manager.getChainPath m;
                    ExpiryDate := NotAfter cert;
                    IsValid := Time.Before now (NotAfter cert) |}
         end
     end) w.
Proof.
  intros Hs. unfold Manager.GetCertInfo.
  pose proof (Stat_world (Manager.getCertPath m) w) as Hw.
  destruct (OS.Stat (Manager.getCertPath m) w) as [stat w0].
  simpl in Hs, Hw. subst w0. now rewrite Hs.
Qed.

(** The claim as written fails: on a host where a regular file stands at
    the store directory, the certificate file is absent, yet [GetCertInfo]
    does not fail with the not-found error: [os.Stat] answers "not a
    directory", which [os.IsNotExist] does not accept, and the failure is
    that of reading the file. *)
Lemma GetCertInfo_absent_below_file :
  let p := Manager.getCertPath Sample.single in
  files Sample.storeIsFile !! p = None /\
  Manager.GetCertInfo Sample.single Sample.storeIsFile
  = (Err (wrapError "读取证书文件失败" (PathError "open" p ENOTDIR)),
     Sample.storeIsFile) /\
  fst (Manager.GetCertInfo Sample.single Sample.storeIsFile)
  <> Err (errorString ("证书文件不存在: " ++ p)).
Proof.
  cbv zeta.
  assert (Hrun : Manager.GetCertInfo Sample.single Sample.storeIsFile
                 = (Err (wrapError "读取证书文件失败"
                           (PathError "open"
                              (Manager.getCertPath Sample.single) ENOTDIR)),
                    Sample.storeIsFile)).
  { rewrite GetCertInfo_reads by (vm_compute; reflexivity).
    unfold bind, wrap, OS.ReadFile.
    replace (faults Sample.storeIsFile _) with false by reflexivity.
    replace (files Sample.storeIsFile !! _) with (@None File)
      by (vm_compute; reflexivity).
    replace (OS.isDir Sample.storeIsFile _) with false
      by (vm_compute; reflexivity).
    replace (OS.missing Sample.storeIsFile _) with ENOTDIR
      by (vm_compute; reflexivity).
    reflexivity. }
  split; [vm_compute; reflexivity|]. split; [exact Hrun|].
  rewrite Hrun. discriminate.
Qed.

(** C7 (amended). With [p] the certificate path of the manager:
    [GetCertInfo] fails with the not-found error naming [p] when [os.Stat]
    answers that [p] does not exist: nothing is at [p], and the system,
    walking down to [p], stops at an entry that is wanting ("no such file
    or directory"); that error is returned in no other case. When nothing
    is at [p] and the system answers otherwise (a regular file stands
    where a directory above [p] should be, a name is too long, the path
    holds a NUL byte), or when [p] is a directory, it fails with the
    error of reading the file. When the file holds no PEM block, it fails
    with the cannot-decode error; when the block does not hold a
    certificate, it fails with the parse error wrapping the library's;
    otherwise it succeeds, reports the certificate's [NotAfter] as expiry
    and sets [IsValid] to [now < NotAfter], where [now] is the clock
    reading it takes: the certificate's [NotBefore] and its signer play
    no part. Every successful call satisfies
    [IsValid = (now < ExpiryDate)]. *)
Theorem GetCertInfo_outcomes :
  forall (m : Manager.t) (w : World),
    let p := Manager.getCertPath m in
    (files w !! p = None -> p ∉ dirs w -> OS.missing w p = ENOENT ->
     faults w (CallStat p) = false ->
     Manager.GetCertInfo m w
       = (Err (errorString ("证书文件不存在: " ++ p)), w)) /\
    (fst (Manager.GetCertInfo m w)
       = Err (errorString ("证书文件不存在: " ++ p)) ->
     files w !! p = None /\ (p ∉ dirs w) /\ OS.missing w p = ENOENT /\
     faults w (CallStat p) = false) /\
    (files w !! p = None -> p ∉ dirs w -> OS.missing w p <> ENOENT ->
     faults w (CallReadFile p) = false ->
     Manager.GetCertInfo m w
       = (Err (wrapError "读取证书文件失败"
                 (PathError "open" p (OS.missing w p))), w)) /\
    (files w !! p = None -> p ∈ dirs w ->
     faults w (CallReadFile p) = false ->
     Manager.GetCertInfo m w
       = (Err (wrapError "读取证书文件失败" (PathError "read" p EISDIR)),
          w)) /\
    (forall f,
        files w !! p = Some f -> faults w (CallReadFile p) = false ->
        pem_Decode (content f) = None ->
        Manager.GetCertInfo m w = (Err (errorString "无法解析证书文件"), w)) /\
    (forall f blk e,
        files w !! p = Some f -> faults w (CallReadFile p) = false ->
        pem_Decode (content f) = Some blk ->
        x509_ParseCertificate (Bytes blk) = Err e ->
        Manager.GetCertInfo m w = (Err (wrapError "解析证书失败" e), w)) /\
    (forall f ty subject names notBefore notAfter usage ext signer,
        files w !! p = Some f -> faults w (CallReadFile p) = false ->
        content f
          = PemData {| Type_ := ty;
                       Bytes := DerCertificate
                                  {| Subject := subject; DNSNames := names;
                                     NotBefore := notBefore;
                                     NotAfter := notAfter;
                                     KeyUsage := usage; ExtKeyUsage := ext |}
                                  signer |} ->
        exists info,
          Manager.GetCertInfo m w = (Ok info, set_reads (S (reads w)) w) /\
          ExpiryDate info = notAfter /\
          IsValid info = (clock w (reads w) <? notAfter)) /\
    (forall info w',
        Manager.GetCertInfo m w = (Ok info, w') ->
        IsValid info = (clock w (reads w) <? ExpiryDate info)).
Proof.
  intros m w p.
  split; [|split; [|split; [|split; [|split; [|split; [|split]]]]]].
  - intros Hnone Hdir Hmiss Hstat. unfold Manager.GetCertInfo. fold p.
    assert (Hs : os_IsNotExist (fst (OS.Stat p w)) = true)
      by (apply Stat_NotExist; auto).
    pose proof (Stat_world p w) as Hw.
    destruct (OS.Stat p w) as [stat w0]. simpl in Hs, Hw. subst w0.
    now rewrite Hs.
  - intros Hrun.
    destruct (os_IsNotExist (fst (OS.Stat p w))) eqn:Hs.
    { apply Stat_NotExist in Hs. tauto. }
    exfalso. revert Hrun. rewrite (GetCertInfo_reads m w Hs). fold p.
    unfold bind, wrap.
    destruct (OS.ReadFile p w) as [[data|e] w1]; [|discriminate].
    destruct (pem_Decode data) as [blk|].
    + destruct (x509_ParseCertificate (Bytes blk)); discriminate.
    + cbn [fail fst]. rewrite !append_cons. discriminate.
  - intros Hnone Hdir Hmiss Hread.
    assert (Hs : os_IsNotExist (fst (OS.Stat p w)) = false).
    { destruct (os_IsNotExist _) eqn:E; [|reflexivity].
      apply Stat_NotExist in E. destruct E as (_ & _ & _ & E).
      contradiction. }
    rewrite (GetCertInfo_reads m w Hs). fold p.
    apply isDir_false in Hdir.
    unfold bind, wrap, OS.ReadFile.
    now rewrite Hread, Hnone, Hdir.
  - intros Hnone Hdir Hread.
    assert (Hs : os_IsNotExist (fst (OS.Stat p w)) = false).
    { destruct (os_IsNotExist _) eqn:E; [|reflexivity].
      apply Stat_NotExist in E. destruct E as (_ & _ & E & _).
      contradiction. }
    rewrite (GetCertInfo_reads m w Hs). fold p.
    assert (Hd : OS.isDir w p = true)
      by (unfold OS.isDir; now apply bool_decide_eq_true).
    unfold bind, wrap, OS.ReadFile. now rewrite Hread, Hnone, Hd.
  - intros f Hf Hr Hpem.
    rewrite (GetCertInfo_reads m w (Stat_found _ _ _ Hf)). fold p.
    unfold bind, wrap. now rewrite (ReadFile_found _ _ _ Hf Hr), Hpem.
  - intros f blk e Hf Hr Hpem Hder.
    rewrite (GetCertInfo_reads m w (Stat_found _ _ _ Hf)). fold p.
    unfold bind, wrap. now rewrite (ReadFile_found _ _ _ Hf Hr), Hpem, Hder.
  - intros f ty subject names notBefore notAfter usage ext signer Hf Hr Hc.
    eexists. split.
    + eapply (GetCertInfo_stored m w f _ _ Hf Hr);
        [rewrite Hc; reflexivity | reflexivity].
    + split; reflexivity.
  - intros info w' Hok.
    destruct (GetCertInfo_Ok _ _ _ _ Hok)
      as (f & blk & cert & Hf & Hr & Hp & Hd).
    rewrite (GetCertInfo_stored _ _ _ _ _ Hf Hr Hp Hd) in Hok.
    injection Hok as <- _. reflexivity.
Qed.

(** The outcomes of [GetCertInfo] on four hosts: a disk without files,
    a regular file at the store directory, a store root that keeps names
    of at most eight bytes, and a private key where the certificate
    should be. *)
Lemma GetCertInfo_outcomes_witness :
  Manager.GetCertInfo Sample.single Sample.freshWorld
  = (Err (errorString
            ("证书文件不存在: " ++ Manager.getCertPath Sample.single)),
     Sample.freshWorld) /\
  Manager.GetCertInfo Sample.single Sample.storeIsFile
  = (Err (wrapError "读取证书文件失败"
            (PathError "open" (Manager.getCertPath Sample.single) ENOTDIR)),
     Sample.storeIsFile) /\
  Manager.GetCertInfo Sample.single Sample.shortNames
  = (Err (wrapError "读取证书文件失败"
            (PathError "open" (Manager.getCertPath Sample.single)
               ENAMETOOLONG)),
     Sample.shortNames) /\
  Manager.GetCertInfo Sample.single Scenario.keyInPlace
  = (Err (wrapError "解析证书失败" (libError "x509.ParseCertificate")),
     Scenario.keyInPlace).
Proof.
  split; [|split; [|split]].
  - apply (proj1 (GetCertInfo_outcomes Sample.single Sample.freshWorld)).
    + reflexivity.
    + apply not_elem_of_empty.
    + vm_compute. reflexivity.
    + reflexivity.
  - replace ENOTDIR
      with (OS.missing Sample.storeIsFile (Manager.getCertPath Sample.single))
      by (vm_compute; reflexivity).
    apply (proj1 (proj2 (proj2
             (GetCertInfo_outcomes Sample.single Sample.storeIsFile)))).
    + vm_compute. reflexivity.
    + apply (bool_decide_eq_false_1 _). vm_compute. reflexivity.
    + vm_compute. discriminate.
    + reflexivity.
  - replace ENAMETOOLONG
      with (OS.missing Sample.shortNames (Manager.getCertPath Sample.single))
      by (vm_compute; reflexivity).
    apply (proj1 (proj2 (proj2
             (GetCertInfo_outcomes Sample.single Sample.shortNames)))).
    + vm_compute. reflexivity.
    + apply (bool_decide_eq_false_1 _). vm_compute. reflexivity.
    + vm_compute. discriminate.
    + reflexivity.
  - apply (proj1 (proj2 (proj2 (proj2 (proj2 (proj2
             (GetCertInfo_outcomes Sample.single Scenario.keyInPlace)))))))
      with (f := {| content :=
                      PemData {| Type_ := "RSA PRIVATE KEY";
                                 Bytes := DerPrivateKey
                                            {| key_bits := 2048;
                                               key_draw := 0 |} |};
                    mode := 384 |})
           (blk := {| Type_ := "RSA PRIVATE KEY";
                      Bytes := DerPrivateKey
                                 {| key_bits := 2048; key_draw := 0 |} |}).
    + vm_compute. reflexivity.
    + reflexivity.
    + reflexivity.
    + reflexivity.
Defined.

(** ** Frame lemmas *)

Lemma frame_refl w : frame w w.
Proof. unfold frame. repeat split. Qed.

Lemma frame_trans w1 w2 w3 : frame w1 w2 -> frame w2 w3 -> frame w1 w3.
Proof. unfold frame. intuition congruence. Qed.

Create HintDb framed.

(** Which paths the system takes does not change along a frame. *)
Lemma accepts_frame w w' path :
  frame w w' -> OS.accepts w' path = OS.accepts w path.
Proof.
  intros (_ & _ & _ & _ & _ & Hn & Hp).
  unfold OS.accepts, OS.refused, OS.malformed, OS.longName.
  now rewrite Hn, Hp.
Qed.

Lemma Framed_ret {A} (a : A) : Framed (ret a).
Proof. intros w. apply frame_refl. Qed.

Lemma Framed_fail {A} e : Framed (@fail A e).
Proof. intros w. apply frame_refl. Qed.

Lemma Framed_bind {A B} (c : M A) (k : A -> M B) :
  Framed c -> (forall a, Framed (k a)) -> Framed (bind c k).
Proof.
  intros Hc Hk w. unfold bind. specialize (Hc w).
  destruct (c w) as [[a|e] w1]; simpl in *; [|exact Hc].
  eapply frame_trans; [exact Hc | apply Hk].
Qed.

Lemma Framed_wrap {A} msg (c : M A) : Framed c -> Framed (wrap msg c).
Proof.
  intros Hc w. unfold wrap. specialize (Hc w).
  destruct (c w) as [[a|e] w1]; exact Hc.
Qed.

Lemma Framed_MkdirAll path perm : Framed (OS.MkdirAll path perm).
Proof.
  intros w. unfold OS.MkdirAll.
  destruct (String.eqb path ""); [apply frame_refl|].
  destruct (faults w _); [apply frame_refl|].
  destruct (find _ _); [apply frame_refl|].
  destruct (OS.firstRefused _ _) as [[high errno]|]; simpl; unfold frame;
    auto 10.
Qed.

Lemma Framed_openTrunc op c path perm : Framed (OS.openTrunc op c path perm).
Proof.
  intros w. unfold OS.openTrunc.
  destruct (faults w c); [apply frame_refl|].
  destruct (OS.isDir w path); [apply frame_refl|].
  destruct (_ || _); simpl; unfold frame; auto 10.
Qed.

Lemma Framed_Write path data : Framed (OS.Write path data).
Proof.
  intros w. unfold OS.Write.
  destruct (faults w _); [apply frame_refl|].
  destruct (files w !! path); simpl; unfold frame; auto 10.
Qed.

Lemma Framed_Chmod path md : Framed (OS.Chmod path md).
Proof.
  intros w. unfold OS.Chmod.
  destruct (faults w _); [apply frame_refl|].
  destruct (files w !! path); [simpl; unfold frame; auto 10|].
  destruct (OS.isDir w path); apply frame_refl.
Qed.

Lemma Framed_GenerateKey bits : Framed (rsa_GenerateKey bits).
Proof.
  intros w. unfold rsa_GenerateKey.
  destruct (faults w _); simpl; unfold frame; auto 10.
Qed.

Lemma Framed_CreateCertificateRequest template priv :
  Framed (x509_CreateCertificateRequest template priv).
Proof.
  intros w. unfold x509_CreateCertificateRequest.
  destruct (faults w _); [apply frame_refl|].
  destruct (namesRefused _ _); apply frame_refl.
Qed.

#[local] Hint Resolve Framed_ret Framed_fail Framed_wrap Framed_MkdirAll
  Framed_openTrunc Framed_Write Framed_Chmod Framed_GenerateKey
  Framed_CreateCertificateRequest : framed.
#[local] Hint Extern 2 (Framed (bind _ _)) =>
  apply Framed_bind; [|intro] : framed.

Lemma Framed_Create path : Framed (OS.Create path).
Proof. unfold OS.Create. auto with framed. Qed.

Lemma Framed_pem_Encode path blk : Framed (pem_Encode path blk).
Proof. unfold pem_Encode. auto with framed. Qed.

#[local] Hint Resolve Framed_Create Framed_pem_Encode : framed.

Lemma Framed_createCertDir m : Framed (Manager.createCertDir m).
Proof. unfold Manager.createCertDir. auto with framed. Qed.

Lemma Framed_generatePrivateKey m : Framed (Manager.generatePrivateKey m).
Proof. unfold Manager.generatePrivateKey. auto 10 with framed. Qed.

Lemma Framed_createCSR m key : Framed (Manager.createCSR m key).
Proof. unfold Manager.createCSR. auto with framed. Qed.

Lemma Framed_saveCertificate m der key :
  Framed (Manager.saveCertificate m der key).
Proof. unfold Manager.saveCertificate. auto 10 with framed. Qed.

Lemma Framed_configureWebServer m : Framed (Manager.configureWebServer m).
Proof.
  unfold Manager.configureWebServer, Manager.configureNginx,
    Manager.configureApache, Manager.configureIIS.
  repeat destruct (_ =? _); auto with framed.
Qed.

(** ** The stages of [Manager.Install] *)

Lemma Write_Ok path data w w' :
  OS.Write path data w = (Ok tt, w') ->
  exists md,
    files w' !! path = Some {| content := data; mode := md |} /\
    dirs w' = dirs w /\ entropy w' = entropy w.
Proof.
  unfold OS.Write. destruct (faults w _); [discriminate|].
  destruct (files w !! path) as [f|]; [|discriminate].
  intros [= <-]. exists (mode f). simpl. rewrite lookup_insert_eq. auto.
Qed.

Lemma saveCertificate_Ok m der key w w' :
  Manager.saveCertificate m der key w = (Ok tt, w') ->
  exists md,
    files w' !! Manager.getCertPath m
    = Some {| content := PemData {| Type_ := "CERTIFICATE"; Bytes := der |};
              mode := md |}.
Proof.
  unfold Manager.saveCertificate.
  intros ([] & w1 & _ & ([] & w2 & Hw & Hret)%bind_Ok)%bind_Ok.
  injection Hret as <-.
  apply Write_Ok in Hw. destruct Hw as (md & Hmd & _). eauto.
Qed.

Lemma GenerateKey_iff bits w key w' :
  rsa_GenerateKey bits w = (Ok key, w') <->
  faults w (CallGenerateKey (entropy w)) = false /\
  key = {| key_bits := bits; key_draw := entropy w |} /\
  w' = set_entropy (S (entropy w)) w.
Proof.
  unfold rsa_GenerateKey. destruct (faults w _);
    [split; [discriminate | now intros [? _]]|].
  split; [intros [= <- <-]; auto | intros (_ & -> & ->); reflexivity].
Qed.

(** The request is made when no outside cause stops the library and it
    can encode the names. *)
Lemma CreateCertificateRequest_iff template priv w der w' :
  x509_CreateCertificateRequest template priv w = (Ok der, w') <->
  faults w CallCreateCertificateRequest = false /\
  namesRefused (csr_Subject template) (csr_DNSNames template) = false /\
  der = DerRequest template priv /\ w' = w.
Proof.
  unfold x509_CreateCertificateRequest.
  destruct (faults w _); [split; [discriminate | now intros [? _]]|].
  destruct (namesRefused _ _);
    [split; [discriminate | now intros (_ & ? & _)]|].
  split; [intros [= <- <-]; auto | intros (_ & _ & -> & ->); reflexivity].
Qed.

(** The certificate is made when no outside cause stops the library, it
    draws serial numbers, and it can encode the names. *)
Lemma CreateCertificate_iff template priv w der w' :
  x509_CreateCertificate template priv w = (Ok der, w') <->
  faults w CallCreateCertificate = false /\
  serialNumbers w = true /\
  namesRefused (Subject template) (DNSNames template) = false /\
  der = DerCertificate
          {| Subject := Subject template;
             DNSNames := DNSNames template;
             NotBefore := Time.truncSecond (NotBefore template);
             NotAfter := Time.truncSecond (NotAfter template);
             KeyUsage := KeyUsage template;
             ExtKeyUsage := ExtKeyUsage template |} priv /\
  w' = w.
Proof.
  unfold x509_CreateCertificate.
  destruct (faults w _); [split; [discriminate | now intros [? _]]|].
  destruct (serialNumbers w); cbn [negb];
    [|split; [discriminate | now intros (_ & ? & _)]].
  destruct (namesRefused _ _);
    [split; [discriminate | now intros (_ & _ & ? & _)]|].
  split; [intros [= <- <-]; auto 10
         | intros (_ & _ & _ & -> & ->); reflexivity].
Qed.

Lemma createCSR_Ok m key w csr w' :
  Manager.createCSR m key w = (Ok csr, w') ->
  csr = DerRequest {| csr_Subject := {| CommonName := Manager.domain m |};
                      csr_DNSNames := [Manager.domain m] |} key.
Proof.
  unfold Manager.createCSR.
  intros (der & w1 & (_ & _ & -> & ->)%CreateCertificateRequest_iff
          & [= <- _])%bind_Ok.
  reflexivity.
Qed.

(** The self-signed path, step by step. *)
Lemma generateSelfSignedCert_iff m req signer w der w' :
  Manager.generateSelfSignedCert m (DerRequest req signer) w = (Ok der, w')
  <->
  faults w (CallGenerateKey (entropy w)) = false /\
  faults w CallCreateCertificate = false /\
  serialNumbers w = true /\
  namesRefused (csr_Subject req) (csr_DNSNames req) = false /\
  der = DerCertificate (issuedAt (csr_Subject req) (csr_DNSNames req) w)
          {| key_bits := 2048; key_draw := entropy w |} /\
  w' = set_entropy (S (entropy w)) (set_reads (S (S (reads w))) w).
Proof.
  unfold Manager.generateSelfSignedCert. cbn [x509_ParseCertificateRequest].
  split.
  - intros (nb & w1 & [= <- <-] & H)%bind_Ok.
    apply bind_Ok in H as (now & w2 & [= <- <-] & H).
    apply bind_Ok in H as (k & w3 & (Hg & -> & ->)%GenerateKey_iff & H).
    apply bind_Ok in H
      as (c & w4 & (Hc & Hs & Hn & -> & ->)%CreateCertificate_iff
          & [= <- <-]).
    cbn in Hg, Hc, Hs, Hn. auto 10.
  - intros (Hg & Hc & Hs & Hn & -> & ->).
    apply bind_Ok_iff. eexists _, _. split; [reflexivity|].
    apply bind_Ok_iff. eexists _, _. split; [reflexivity|].
    apply bind_Ok_iff. eexists _, _. split.
    { apply GenerateKey_iff. cbn. repeat split. exact Hg. }
    apply bind_Ok_iff. eexists _, _. split.
    { apply CreateCertificate_iff. cbn. repeat split; assumption. }
    reflexivity.
Qed.

Lemma generateSelfSignedCert_Ok m req signer w der w' :
  Manager.generateSelfSignedCert m (DerRequest req signer) w = (Ok der, w') ->
  der = DerCertificate (issuedAt (csr_Subject req) (csr_DNSNames req) w)
          {| key_bits := 2048; key_draw := entropy w |} /\
  w' = set_entropy (S (entropy w)) (set_reads (S (S (reads w))) w).
Proof.
  intros (_ & _ & _ & _ & -> & ->)%generateSelfSignedCert_iff.
  split; reflexivity.
Qed.

Lemma obtainCertificate_Ok m req signer w der w' :
  Manager.obtainCertificate m (DerRequest req signer) w = (Ok der, w') ->
  der = DerCertificate (issuedAt (csr_Subject req) (csr_DNSNames req) w)
          {| key_bits := 2048; key_draw := entropy w |} /\
  w' = set_entropy (S (entropy w)) (set_reads (S (S (reads w))) w).
Proof.
  unfold Manager.obtainCertificate, Manager.obtainCertificateWebroot,
    Manager.obtainCertificateStandalone, Manager.obtainCertificateDNS.
  repeat destruct (_ =? _); try apply generateSelfSignedCert_Ok.
  discriminate.
Qed.

(** A successful [Install] went through its six stages in order. *)
Lemma Install_stages m w w' :
  Manager.Install m w = (Ok tt, w') ->
  exists w1 key w2 csr w3 der w4 w5,
    Manager.createCertDir m w = (Ok tt, w1) /\
    Manager.generatePrivateKey m w1 = (Ok key, w2) /\
    Manager.createCSR m key w2 = (Ok csr, w3) /\
    Manager.obtainCertificate m csr w3 = (Ok der, w4) /\
    Manager.saveCertificate m der key w4 = (Ok tt, w5) /\
    Manager.configureWebServer m w5 = (Ok tt, w').
Proof.
  unfold Manager.Install.
  intros ([] & w1 & H1%wrap_Ok & H)%bind_Ok.
  apply bind_Ok in H as (key & w2 & H2%wrap_Ok & H).
  apply bind_Ok in H as (csr & w3 & H3%wrap_Ok & H).
  apply bind_Ok in H as (der & w4 & H4%wrap_Ok & H).
  apply bind_Ok in H as ([] & w5 & H5%wrap_Ok & H).
  apply bind_Ok in H as ([] & w6 & H6%wrap_Ok & [= <-]).
  eauto 15.
Qed.

Lemma frame_of {A} (c : M A) w r w' : Framed c -> c w = (r, w') -> frame w w'.
Proof. intros Hc Hw. specialize (Hc w). now rewrite Hw in Hc. Qed.

(** After a successful [Install] the certificate file holds the
    certificate issued from the second clock reading of the run. *)
Lemma Install_Ok m w w' :
  Manager.Install m w = (Ok tt, w') ->
  (exists md signer,
     files w' !! Manager.getCertPath m
     = Some {| content :=
                 PemData
                   {| Type_ := "CERTIFICATE";
                      Bytes :=
                        DerCertificate
                          (issuedAt {| CommonName := Manager.domain m |}
                                    [Manager.domain m] w) signer |};
               mode := md |}) /\
  clock w' = clock w /\ reads w' = S (S (reads w)) /\ faults w' = faults w.
Proof.
  intros (w1 & key & w2 & csr & w3 & der & w4 & w5 &
          H1 & H2 & H3 & H4 & H5 & H6)%Install_stages.
  pose proof (frame_of _ _ _ _ (Framed_createCertDir m) H1) as F1.
  pose proof (frame_of _ _ _ _ (Framed_generatePrivateKey m) H2) as F2.
  pose proof (frame_of _ _ _ _ (Framed_createCSR m key) H3) as F3.
  pose proof (frame_of _ _ _ _ (Framed_saveCertificate m der key) H5) as F5.
  pose proof (frame_of _ _ _ _ (Framed_configureWebServer m) H6) as F6.
  pose proof (createCSR_Ok _ _ _ _ _ H3) as ->.
  apply obtainCertificate_Ok in H4 as [-> ->].
  apply saveCertificate_Ok in H5 as [md Hmd].
  assert (files w' = files w5) as Hfiles.
  { revert H6. unfold Manager.configureWebServer, Manager.configureNginx,
      Manager.configureApache, Manager.configureIIS, ret, fail.
    repeat destruct (_ =? _); congruence. }
  pose proof (frame_trans _ _ _ F1 (frame_trans _ _ _ F2 F3)) as F13.
  pose proof (frame_trans _ _ _ F5 F6) as F56.
  destruct F13 as (Hc & Hr & Hf & _). destruct F56 as (Hc' & Hr' & Hf' & _).
  simpl in Hc', Hr', Hf'.
  split; [|intuition congruence].
  exists md. eexists. rewrite Hfiles, Hmd. unfold issuedAt. simpl.
  rewrite Hc, Hr. reflexivity.
Qed.

(** ** Arithmetic of instants and durations *)

Lemma truncSecond_bounds t :
  t - Time.Second < Time.truncSecond t <= t.
Proof.
  unfold Time.truncSecond.
  assert (0 < Time.Second) as Hs by reflexivity.
  pose proof (Z.mod_pos_bound t Time.Second Hs).
  pose proof (Z.div_mod t Time.Second). lia.
Qed.

Lemma Sub_over_threshold t u :
  (renewThreshold <? Time.Sub t u) = (renewThreshold <? t - u).
Proof.
  unfold Time.Sub.
  assert (Time.minDuration = -9223372036854775808) as -> by reflexivity.
  assert (Time.maxDuration = 9223372036854775807) as -> by reflexivity.
  assert (renewThreshold = 2592000000000000) as -> by reflexivity.
  destruct (Z.ltb_spec (t - u) (-9223372036854775808)).
  - symmetry. apply Z.ltb_ge. lia.
  - destruct (Z.ltb_spec 9223372036854775807 (t - u)); [|reflexivity].
    symmetry. apply Z.ltb_lt. lia.
Qed.

(** ** C3: reading back an installed certificate *)

(** C3. After a successful [Install], with [issued] the clock reading the
    certificate's [NotAfter] was computed from: provided the file can be
    read and the query comes no later than 90 days minus one second after
    [issued], [GetCertInfo] succeeds with [IsValid = true] and an expiry
    that is [issued + 90 days] cut to whole seconds, hence less than one
    second before [issued + 90 days]. *)
Theorem Install_then_GetCertInfo :
  forall (m : Manager.t) (w w1 : World),
    Manager.Install m w = (Ok tt, w1) ->
    faults w (CallReadFile (Manager.getCertPath m)) = false ->
    let issued := clock w (S (reads w)) in
    let now := clock w (S (S (reads w))) in
    now <= issued + validity - Time.Second ->
    exists info w2,
      Manager.GetCertInfo m w1 = (Ok info, w2) /\
      IsValid info = true /\
      ExpiryDate info = Time.truncSecond (issued + validity) /\
      issued + validity - Time.Second < ExpiryDate info <= issued + validity.
Proof.
  intros m w w1 Hinstall Hread issued now Hsoon.
  apply Install_Ok in Hinstall
    as ((md & signer & Hfile) & Hclock & Hreads & Hfaults).
  rewrite <- Hfaults in Hread.
  eexists. eexists. split.
  - eapply (GetCertInfo_stored m w1 _ _ _ Hfile Hread); reflexivity.
  - cbn [IsValid ExpiryDate NotAfter issuedAt]. fold issued.
    pose proof (truncSecond_bounds (issued + validity)) as Hb.
    rewrite Hclock, Hreads. fold now.
    split; [|split; [reflexivity | exact Hb]].
    apply Z.ltb_lt. lia.
Qed.

Lemma Install_then_GetCertInfo_witness :
  exists info w2,
    Manager.GetCertInfo Sample.single
      (snd (Manager.Install Sample.single Sample.freshWorld)) = (Ok info, w2) /\
    IsValid info = true /\
    ExpiryDate info = 1707776000000000000 /\
    1700000000124456789 + validity - Time.Second < ExpiryDate info
      <= 1700000000124456789 + validity.
Proof.
  apply (Install_then_GetCertInfo Sample.single Sample.freshWorld
           (snd (Manager.Install Sample.single Sample.freshWorld))).
  - apply run_result. vm_compute. reflexivity.
  - reflexivity.
  - vm_compute. discriminate.
Defined.

(** ** C9: the Nginx block tracker *)

Lemma TrackedBlock_cons_opening text rest body :
  Nginx.opensBlock text = true ->
  Nginx.TrackedBlock (text :: rest) body <->
  Nginx.TrackedBlock rest body \/
  exists closing after,
    rest = (body ++ closing :: after)%list /\
    Nginx.closesBlock closing = true /\
    Forall Nginx.inner body.
Proof.
  intros Hopen. split.
  - intros (before & opening & closing & after & Heq & Ho & Hc & Hin).
    destruct before as [|b before]; simpl in Heq; injection Heq as <- ->.
    + right. eauto.
    + left. exists before, opening, closing, after. auto.
  - intros [(before & opening & closing & after & -> & Ho & Hc & Hin)
           | (closing & after & -> & Hc & Hin)].
    + exists (text :: before), opening, closing, after. auto.
    + exists [], text, closing, after. auto.
Qed.

Lemma TrackedBlock_cons_other text rest body :
  Nginx.opensBlock text = false ->
  Nginx.TrackedBlock (text :: rest) body <-> Nginx.TrackedBlock rest body.
Proof.
  intros Hopen. split.
  - intros (before & opening & closing & after & Heq & Ho & Hc & Hin).
    destruct before as [|b before]; simpl in Heq; injection Heq as <- ->.
    + congruence.
    + exists before, opening, closing, after. auto.
  - intros (before & opening & closing & after & -> & Ho & Hc & Hin).
    exists (text :: before), opening, closing, after. auto.
Qed.

Lemma TrackedBlock_nil body : ~ Nginx.TrackedBlock [] body.
Proof.
  intros (before & opening & closing & after & Heq & _).
  destruct before; discriminate.
Qed.

(** What the scan answers from any state: it is inside a block that will
    close as an SSL block, or an SSL block lies wholly ahead. *)
Lemma scanLines_true domain rest st :
  Nginx.scanLines domain rest st = true <->
  Nginx.closesWith domain rest st \/
  exists body, Nginx.TrackedBlock rest body /\ Nginx.sslBlockFor domain body.
Proof.
  revert st. induction rest as [|text rest IH]; intros st.
  - simpl. split; [discriminate|].
    intros [(_ & body & closing & after & Heq & _) | (body & Hb & _)].
    + destruct body; discriminate.
    + now apply TrackedBlock_nil in Hb.
  - cbn [Nginx.scanLines].
    fold (Nginx.opensBlock text).
    destruct (Nginx.opensBlock text) eqn:Hopen.
    + rewrite IH. unfold Nginx.closesWith at 1. cbn.
      split.
      * intros [(_ & body & closing & after & -> & Hc & Hin & [?|Hs] & [?|Hn])
               | (body & Hb & Hssl)]; try discriminate.
        -- right. exists body. split; [|split; assumption].
           apply TrackedBlock_cons_opening; eauto 6.
        -- right. exists body. split; [|assumption].
           apply TrackedBlock_cons_opening; auto.
      * intros [(_ & body & closing & after & Heq & Hc & Hin & _)
               | (body & Hb & Hssl)].
        -- exfalso. destruct body as [|b body]; simpl in Heq;
             injection Heq as <- ->.
           ++ unfold Nginx.closesBlock in Hc. rewrite Hopen in Hc.
              discriminate.
           ++ inversion Hin as [|? ? [Hb _] _]. congruence.
        -- apply (TrackedBlock_cons_opening _ _ _ Hopen) in Hb
               as [Hb | (c & a & -> & Hc & Hin)];
             [right; eauto | left].
           destruct Hssl as [Hs Hn]. split; [reflexivity|].
           exists body, c, a. auto 10.
    + assert (Hclose : Nginx.closesBlock text
                       = GoStrings.Contains (GoStrings.TrimSpace text) "}")
        by (unfold Nginx.closesBlock; now rewrite Hopen).
      rewrite <- Hclose.
      assert (Hahead : forall body,
                 Nginx.TrackedBlock (text :: rest) body <->
                 Nginx.TrackedBlock rest body)
        by (intros; now apply TrackedBlock_cons_other).
      destruct (Nginx.closesBlock text) eqn:Hc;
        destruct (Nginx.inServerBlock st) eqn:Hin; cbn [andb].
      * (* closing line of the current block *)
        destruct (Nginx.hasSSL st && Nginx.hasDomain st) eqn:Hboth.
        -- apply andb_true_iff in Hboth as [Hs Hn]. split; [intros _|auto].
           left. split; [assumption|]. exists [], text, rest. auto 10.
        -- rewrite IH. split.
           ++ intros [(Hf & _) | (body & Hb & Hssl)]; [discriminate|].
              right. exists body. now rewrite Hahead.
           ++ intros [(_ & body & closing & after & Heq & _ & Hbody & Hs & Hn)
                     | (body & Hb & Hssl)].
              ** exfalso. destruct body as [|b body]; simpl in Heq;
                   injection Heq as <- ->.
                 --- destruct Hs as [Hs|Hs]; [|inversion Hs].
                     destruct Hn as [Hn|Hn]; [|inversion Hn].
                     rewrite Hs, Hn in Hboth. discriminate.
                 --- inversion Hbody as [|? ? [_ Hb] _]. congruence.
              ** right. exists body. now rewrite <- Hahead.
      * (* closing brace outside any block *)
        rewrite IH. unfold Nginx.closesWith. rewrite Hin. split.
        -- intros [(Hf & _) | (body & Hb & Hssl)]; [discriminate|].
           right. exists body. now rewrite Hahead.
        -- intros [(Hf & _) | (body & Hb & Hssl)]; [discriminate|].
           right. exists body. now rewrite <- Hahead.
      * (* a line inside the current block *)
        rewrite IH. unfold Nginx.closesWith. cbn. rewrite Hin.
        fold (Nginx.sslDirective text). 
        change (GoStrings.Contains (GoStrings.TrimSpace text) "server_name" &&
                GoStrings.Contains (GoStrings.TrimSpace text) domain)
          with (Nginx.namesDomain domain text).
        split.
        -- intros [(_ & body & closing & after & -> & Hcl & Hbody & Hs & Hn)
                  | (body & Hb & Hssl)].
           ++ left. split; [reflexivity|].
              exists (text :: body), closing, after.
              split; [reflexivity|]. split; [assumption|].
              split; [constructor; [split|]; assumption|].
              split.
              ** destruct (Nginx.sslDirective text) eqn:E;
                   [right; now constructor|].
                 destruct Hs as [Hs|Hs]; [now left | right; now constructor 2].
              ** destruct (Nginx.namesDomain domain text) eqn:E;
                   [right; now constructor|].
                 destruct Hn as [Hn|Hn]; [now left | right; now constructor 2].
           ++ right. exists body. now rewrite Hahead.
        -- intros [(_ & body & closing & after & Heq & Hcl & Hbody & Hs & Hn)
                  | (body & Hb & Hssl)].
           ++ left. split; [reflexivity|].
              destruct body as [|b body]; simpl in Heq; injection Heq as <- ->;
                [congruence|].
              exists body, closing, after.
              inversion Hbody as [|? ? _ Hbody']. subst.
              split; [reflexivity|]. split; [assumption|].
              split; [assumption|]. split.
              ** destruct Hs as [Hs|Hs].
                 --- rewrite Hs. destruct (Nginx.sslDirective text); now left.
                 --- inversion Hs as [? ? E|]; subst;
                       [rewrite E; now left | now right].
              ** destruct Hn as [Hn|Hn].
                 --- rewrite Hn.
                     destruct (Nginx.namesDomain domain text); now left.
                 --- inversion Hn as [? ? E|]; subst;
                       [rewrite E; now left | now right].
           ++ right. exists body. now rewrite <- Hahead.
      * (* a line outside any block *)
        rewrite IH. unfold Nginx.closesWith. rewrite Hin. split.
        -- intros [(Hf & _) | (body & Hb & Hssl)]; [discriminate|].
           right. exists body. now rewrite Hahead.
        -- intros [(Hf & _) | (body & Hb & Hssl)]; [discriminate|].
           right. exists body. now rewrite <- Hahead.
Qed.

Lemma anySSL_true h configFiles domain :
  Nginx.anySSL h configFiles domain = true <->
  exists configFile,
    In configFile configFiles /\
    Nginx.checkSSLInConfig h configFile domain = true.
Proof.
  induction configFiles as [|file files IH]; cbn [Nginx.anySSL In].
  - split; [discriminate | intros (? & [] & _)].
  - destruct (Nginx.checkSSLInConfig h file domain) eqn:Hfile.
    + split; [eauto | reflexivity].
    + rewrite IH. split.
      * intros (f & Hin & Hf). eauto.
      * intros (f & [<- | Hin] & Hf); [congruence | eauto].
Qed.

(** C9. [checkSSLInConfig] answers true exactly when the file opens and
    some tracked block of it (the lines between a line containing
    [server {] and the first closing-brace line after it) holds both an
    [ssl_certificate] line and a [server_name] line containing the domain;
    [IsSSLEnabled] answers true exactly when it does so for one of the site
    files. Hence when no tracked block of any site file holds both, as
    when the certificate and the name sit in different blocks,
    [IsSSLEnabled] answers false. *)
Theorem checkSSLInConfig_tracks_blocks :
  forall (h : Nginx.Host) (domain : string),
    (forall configFile,
        Nginx.checkSSLInConfig h configFile domain = true <->
        exists lines body,
          Nginx.openLines h configFile = Some lines /\
          Nginx.TrackedBlock lines body /\ Nginx.sslBlockFor domain body) /\
    (Nginx.IsSSLEnabled h domain = true <->
     exists configFile,
       In configFile (Nginx.findSiteConfigs h) /\
       Nginx.checkSSLInConfig h configFile domain = true) /\
    ((forall configFile lines body,
         In configFile (Nginx.findSiteConfigs h) ->
         Nginx.openLines h configFile = Some lines ->
         Nginx.TrackedBlock lines body -> ~ Nginx.sslBlockFor domain body) ->
     Nginx.IsSSLEnabled h domain = false).
Proof.
  intros h domain.
  assert (Hfile : forall configFile,
             Nginx.checkSSLInConfig h configFile domain = true <->
             exists lines body,
               Nginx.openLines h configFile = Some lines /\
               Nginx.TrackedBlock lines body /\
               Nginx.sslBlockFor domain body).
  { intros configFile. unfold Nginx.checkSSLInConfig.
    destruct (Nginx.openLines h configFile) as [lines|].
    - rewrite scanLines_true. split.
      + intros [(Hin & _) | (body & Hb & Hssl)]; [discriminate | eauto].
      + intros (lines' & body & [= <-] & Hb & Hssl). eauto.
    - split; [discriminate | intros (? & ? & [=] & _)]. }
  split; [exact Hfile | split].
  - apply anySSL_true.
  - intros Hnone. apply not_true_is_false. intros Hssl.
    apply anySSL_true in Hssl as (configFile & Hin & Hcheck).
    apply Hfile in Hcheck as (lines & body & Hopen & Hb & Hboth).
    exact (Hnone configFile lines body Hin Hopen Hb Hboth).
Qed.

Lemma checkSSLInConfig_tracks_blocks_witness :
  Nginx.checkSSLInConfig (Sample.hostWith Sample.sslSite)
    "/etc/nginx/sites-enabled/example.com" "example.com" = true.
Proof.
  apply (proj1 (checkSSLInConfig_tracks_blocks
                  (Sample.hostWith Sample.sslSite) "example.com")).
  exists Sample.sslSite.
  exists [ "    listen 443 ssl http2;";
           "    server_name example.com;";
           "    ssl_certificate /etc/autocert/certs/example.com/cert.pem;";
           "    location / {";
           "        try_files $uri $uri/ =404;" ].
  split; [reflexivity | split].
  - exists [], "server {", "    }", ["}"].
    repeat split; try reflexivity.
    repeat constructor.
  - split.
    + do 2 right. left. reflexivity.
    + right. left. reflexivity.
Defined.

(** The two sample sites: certificate and name in different blocks, and
    both in one block. *)
Example IsSSLEnabled_splitSite :
  Nginx.IsSSLEnabled (Sample.hostWith Sample.splitSite) "example.com" = false.
Proof. reflexivity. Qed.

Example IsSSLEnabled_sslSite :
  Nginx.IsSSLEnabled (Sample.hostWith Sample.sslSite) "example.com" = true.
Proof. reflexivity. Qed.

(** ** Paths of files inside a directory *)

Lemma append_assoc (a b c : string) : (a ++ b) ++ c = a ++ (b ++ c).
Proof.
  induction a as [|x a IH]; [reflexivity|].
  now rewrite !append_cons, IH.
Qed.

Lemma append_nil_r (a : string) : a ++ "" = a.
Proof.
  induction a as [|x a IH]; [reflexivity | now rewrite append_cons, IH].
Qed.

Lemma Contains_slash_cons c s :
  GoStrings.Contains (String c s) "/"
  = Ascii.eqb c "/"%char || GoStrings.Contains s "/".
Proof.
  cbn [GoStrings.Contains]. rewrite HasPrefix_byte.
  destruct (Ascii.eqb c "/"%char); reflexivity.
Qed.

Lemma splitByte_none sep s :
  GoStrings.countByte sep s = 0%nat -> GoStrings.splitByte sep s = [s].
Proof.
  induction s as [|c s IH]; [reflexivity|].
  cbn [GoStrings.countByte GoStrings.splitByte].
  destruct (Ascii.eqb c sep); [discriminate|]. intros H.
  now rewrite (IH H).
Qed.

Lemma splitByte_first sep s rest :
  GoStrings.countByte sep s = 0%nat ->
  GoStrings.splitByte sep (s ++ String sep rest)
  = s :: GoStrings.splitByte sep rest.
Proof.
  induction s as [|c s IH].
  - intros _. rewrite append_nil_l. cbn [GoStrings.splitByte].
    now rewrite Ascii.eqb_refl.
  - rewrite append_cons. cbn [GoStrings.countByte GoStrings.splitByte].
    destruct (Ascii.eqb c sep); [discriminate|]. intros H.
    now rewrite (IH H).
Qed.

Lemma splitByte_plain n :
  GoStrings.Contains n "/" = false -> GoStrings.splitByte "/"%char n = [n].
Proof.
  induction n as [|c n IH]; [reflexivity|].
  rewrite Contains_slash_cons. intros [Hc Hn]%orb_false_iff.
  cbn [GoStrings.splitByte]. rewrite Hc, (IH Hn). reflexivity.
Qed.

Lemma splitByte_nonempty sep s : GoStrings.splitByte sep s <> [].
Proof.
  destruct s as [|c s]; cbn [GoStrings.splitByte]; [discriminate|].
  destruct (Ascii.eqb c sep); [discriminate|].
  destruct (GoStrings.splitByte sep s); discriminate.
Qed.

Lemma splitByte_snoc y n :
  GoStrings.Contains n "/" = false ->
  GoStrings.splitByte "/"%char (y ++ "/" ++ n)
  = (GoStrings.splitByte "/"%char y ++ [n])%list.
Proof.
  intros Hn. induction y as [|c y IH].
  - rewrite append_nil_l, append_cons, append_nil_l.
    cbn [GoStrings.splitByte]. change (Ascii.eqb "/" "/") with true.
    cbn iota. now rewrite (splitByte_plain n Hn).
  - rewrite append_cons. cbn [GoStrings.splitByte]. rewrite IH.
    destruct (Ascii.eqb c "/"%char); [reflexivity|].
    destruct (GoStrings.splitByte "/"%char y) eqn:E; [|reflexivity].
    now apply splitByte_nonempty in E.
Qed.

Lemma cleanElems_snoc rooted elems stack n :
  Filepath.plainName n = true ->
  Filepath.cleanElems rooted (elems ++ [n]) stack
  = (Filepath.cleanElems rooted elems stack ++ [n])%list.
Proof.
  intros Hn. unfold Filepath.plainName in Hn.
  apply andb_true_iff in Hn as [[[H1 H2]%andb_true_iff H3]%andb_true_iff _].
  apply negb_true_iff in H1, H2, H3.
  revert stack. induction elems as [|e elems IH]; intros stack.
  - cbn [app Filepath.cleanElems]. rewrite H1, H2, H3. reflexivity.
  - cbn [app Filepath.cleanElems].
    destruct (String.eqb e "" || String.eqb e "."); [apply IH|].
    destruct (String.eqb e ".."); [|apply IH].
    destruct stack as [|top below]; [destruct rooted; apply IH|].
    destruct (String.eqb top ".."); apply IH.
Qed.

Lemma Join_snoc elems n :
  GoStrings.Join (elems ++ [n]) "/" = Filepath.dirText elems ++ n.
Proof.
  unfold GoStrings.Join. induction elems as [|e elems IH]; [reflexivity|].
  cbn [app String.concat Filepath.dirText].
  destruct (elems ++ [n])%list eqn:E; [now destruct elems|].
  rewrite IH, !append_assoc. reflexivity.
Qed.

Lemma dirForm_app a b :
  Filepath.dirForm b = true -> b <> "" -> Filepath.dirForm (a ++ b) = true.
Proof.
  intros Hb Hne. induction a as [|c a IH]; [exact Hb|].
  rewrite append_cons. cbn [Filepath.dirForm].
  destruct (a ++ b) eqn:E; [|exact IH].
  destruct a; [contradiction | discriminate].
Qed.

Lemma dirForm_dirText elems : Filepath.dirForm (Filepath.dirText elems) = true.
Proof.
  induction elems as [|e elems IH]; [reflexivity|].
  cbn [Filepath.dirText]. apply dirForm_app; [|discriminate].
  destruct (Filepath.dirText elems) eqn:E; [reflexivity | exact IH].
Qed.

Lemma uptoLastSeparator_plain n :
  GoStrings.Contains n "/" = false -> Filepath.uptoLastSeparator n = "".
Proof.
  destruct n as [|c n]; [reflexivity|]. cbn [Filepath.uptoLastSeparator].
  now intros ->.
Qed.

Lemma Contains_slash_app a b :
  GoStrings.Contains (a ++ b) "/"
  = GoStrings.Contains a "/" || GoStrings.Contains b "/".
Proof.
  induction a as [|c a IH]; [reflexivity|].
  rewrite append_cons, !Contains_slash_cons, IH. apply orb_assoc.
Qed.

Lemma dirForm_Contains p : Filepath.dirForm p = true -> p <> "" ->
  GoStrings.Contains p "/" = true.
Proof.
  induction p as [|c p IH]; [contradiction|]. intros Hd _.
  rewrite Contains_slash_cons. destruct p as [|c' p].
  - cbn in Hd. now rewrite Hd.
  - rewrite IH; [apply orb_true_r | exact Hd | discriminate].
Qed.

Lemma uptoLastSeparator_dir p n :
  Filepath.dirForm p = true -> GoStrings.Contains n "/" = false ->
  Filepath.uptoLastSeparator (p ++ n) = p.
Proof.
  intros Hp Hn. induction p as [|c p IH].
  - now apply uptoLastSeparator_plain.
  - rewrite append_cons. cbn [Filepath.uptoLastSeparator].
    assert (GoStrings.Contains (String c (p ++ n)) "/" = true) as ->.
    { rewrite <- append_cons.
      rewrite Contains_slash_app, (dirForm_Contains _ Hp); [reflexivity|].
      discriminate. }
    f_equal. apply IH. destruct p; [reflexivity | exact Hp].
Qed.

Lemma HasPrefix_slash_app a b :
  a <> "" -> GoStrings.HasPrefix (a ++ b) "/" = GoStrings.HasPrefix a "/".
Proof.
  destruct a; [contradiction|]. intros _.
  now rewrite append_cons, !HasPrefix_byte.
Qed.

(** Cleaning [x/n] for a plain name [n] gives the directory text of [x]
    followed by [n]. *)
Lemma Clean_file x n :
  Filepath.plainName n = true ->
  Filepath.Clean (x ++ "/" ++ n) = Filepath.cleanDir x ++ n.
Proof.
  intros Hn. unfold Filepath.cleanDir.
  set (rooted := GoStrings.HasPrefix (x ++ "/") "/").
  set (elems := Filepath.cleanElems rooted
                  (GoStrings.splitByte "/"%char x) []).
  assert (Hslash : GoStrings.Contains n "/" = false).
  { unfold Filepath.plainName in Hn. apply andb_true_iff in Hn as [_ Hn].
    now apply negb_true_iff in Hn. }
  assert (Hne : n <> "").
  { intros ->. discriminate. }
  unfold Filepath.Clean.
  assert (String.eqb (x ++ "/" ++ n) "" = false) as ->.
  { apply String.eqb_neq. destruct x; discriminate. }
  assert (GoStrings.HasPrefix (x ++ "/" ++ n) "/" = rooted) as ->.
  { unfold rooted. rewrite <- append_assoc.
    apply HasPrefix_slash_app. destruct x; discriminate. }
  unfold Filepath.Separator.
  rewrite (splitByte_snoc x n Hslash), (cleanElems_snoc _ _ _ _ Hn).
  fold elems. rewrite Join_snoc, <- append_assoc.
  assert (String.eqb
            (((if rooted then "/" else "") ++ Filepath.dirText elems) ++ n)
            "" = false) as ->; [|reflexivity].
  apply String.eqb_neq.
  destruct ((if rooted then "/" else "") ++ Filepath.dirText elems);
    [exact Hne | discriminate].
Qed.

Lemma dirForm_cleanDir x : Filepath.dirForm (Filepath.cleanDir x) = true.
Proof.
  unfold Filepath.cleanDir.
  set (rooted := GoStrings.HasPrefix (x ++ "/") "/").
  set (elems := Filepath.cleanElems rooted
                  (GoStrings.splitByte "/"%char x) []).
  destruct (Filepath.dirText elems) eqn:E.
  - rewrite append_nil_r. now destruct rooted.
  - apply dirForm_app; [|discriminate]. rewrite <- E.
    apply dirForm_dirText.
Qed.

Lemma Clean_plain n : Filepath.plainName n = true -> Filepath.Clean n = n.
Proof.
  intros Hn. pose proof Hn as Hn'. unfold Filepath.plainName in Hn'.
  apply andb_true_iff in Hn' as [[[H1 _]%andb_true_iff _]%andb_true_iff H4].
  apply negb_true_iff in H1, H4.
  unfold Filepath.Clean, Filepath.Separator. rewrite H1.
  assert (GoStrings.HasPrefix n "/" = false) as ->.
  { destruct n as [|c n]; [reflexivity|]. rewrite HasPrefix_byte.
    rewrite Contains_slash_cons in H4. now apply orb_false_iff in H4. }
  rewrite (splitByte_plain n H4).
  change [n] with ([] ++ [n])%list. rewrite (cleanElems_snoc _ _ _ _ Hn).
  cbn. rewrite !append_nil_l. now rewrite H1.
Qed.

(** *** Cleaning twice

    [Clean] leaves a cleaned path as it is; hence the directory of a
    joined file path is the joined directory. *)

Lemma splitByte_noSlash x : Forall Filepath.noSlash (GoStrings.splitByte "/"%char x).
Proof.
  induction x as [|c x IH]; cbn [GoStrings.splitByte].
  - repeat constructor.
  - destruct (Ascii.eqb c "/"%char) eqn:Hc; [constructor; [reflexivity|exact IH]|].
    destruct (GoStrings.splitByte "/"%char x) as [|piece pieces];
      [repeat constructor; unfold Filepath.noSlash; now rewrite Contains_slash_cons, Hc|].
    inversion IH as [|? ? Hp Hps]; subst. constructor; [|exact Hps].
    unfold Filepath.noSlash in *. now rewrite Contains_slash_cons, Hc, Hp.
Qed.

Lemma eqb_false_of_ne (a b : string) : a <> b -> String.eqb a b = false.
Proof. apply String.eqb_neq. Qed.

Lemma cleanElems_stack rooted elems stack :
  Filepath.cleanStack rooted stack -> Forall Filepath.noSlash elems -> Forall Filepath.noSlash stack ->
  exists stack',
    Filepath.cleanElems rooted elems stack = rev stack' /\
    Filepath.cleanStack rooted stack' /\ Forall Filepath.noSlash stack'.
Proof.
  revert stack. induction elems as [|e elems IH]; intros stack Hst He Hns.
  - exists stack. auto.
  - inversion He as [|? ? He1 He2]; subst. cbn [Filepath.cleanElems].
    destruct (String.eqb e "" || String.eqb e ".") eqn:Hskip; [now apply IH|].
    apply orb_false_iff in Hskip as [H1 H2].
    apply String.eqb_neq in H1, H2.
    destruct (String.eqb_spec e "..") as [->|H3].
    + destruct Hst as (names & k & -> & Hnames & Hk).
      destruct names as [|top names]; cbn [app].
      * destruct k as [|k]; cbn [repeat].
        -- destruct rooted.
           ++ apply IH; [exists [], 0%nat; auto | exact He2 | constructor].
           ++ apply IH; [|exact He2|repeat constructor; exact He1].
              exists [], 1%nat. repeat split; [constructor | discriminate].
        -- change (String.eqb ".." "..") with true. cbn iota.
           apply IH; [|exact He2|constructor; [exact He1|exact Hns]].
           exists [], (S (S k)). repeat split; [constructor|].
           intros Hr. specialize (Hk Hr). discriminate.
      * inversion Hnames as [|? ? (_ & _ & Htop) Hrest]; subst.
        rewrite (eqb_false_of_ne _ _ Htop).
        inversion Hns; subst.
        apply IH; [exists names, k; auto | exact He2 | assumption].
    + destruct Hst as (names & k & -> & Hnames & Hk).
      apply IH; [|exact He2|constructor; [exact He1|exact Hns]].
      exists (e :: names), k. repeat split; auto.
      constructor; [repeat split; assumption | exact Hnames].
Qed.

Lemma cleanElems_names rooted names rest stack :
  Forall Filepath.realElem names ->
  Filepath.cleanElems rooted (names ++ rest) stack
  = Filepath.cleanElems rooted rest (rev names ++ stack).
Proof.
  revert stack. induction names as [|e names IH]; intros stack Hn;
    [reflexivity|].
  inversion Hn as [|? ? (H1 & H2 & H3) Hrest]; subst.
  cbn [app Filepath.cleanElems].
  rewrite (eqb_false_of_ne _ _ H1), (eqb_false_of_ne _ _ H2),
    (eqb_false_of_ne _ _ H3). cbn [orb].
  rewrite (IH _ Hrest). cbn [rev]. now rewrite <- app_assoc.
Qed.

Lemma cleanElems_dots k rest j :
  Filepath.cleanElems false (repeat ".." k ++ rest) (repeat ".." j)
  = Filepath.cleanElems false rest (repeat ".." (k + j)).
Proof.
  revert j. induction k as [|k IH]; intros j; [reflexivity|].
  cbn [repeat app Filepath.cleanElems].
  change (String.eqb ".." "" || String.eqb ".." ".") with false.
  change (String.eqb ".." "..") with true. cbn iota.
  destruct j as [|j]; cbn [repeat].
  - change [".."] with (repeat ".." 1).
    rewrite (IH 1%nat). f_equal. f_equal. lia.
  - change (String.eqb ".." "..") with true. cbn iota.
    change (".." :: ".." :: repeat ".." j) with (repeat ".." (S (S j))).
    rewrite (IH (S (S j))). f_equal. f_equal. lia.
Qed.

Lemma rev_repeat {A} (x : A) k : rev (repeat x k) = repeat x k.
Proof.
  induction k as [|k IH]; [reflexivity|]. cbn [repeat rev]. rewrite IH.
  clear IH. induction k as [|k IH]; [reflexivity|].
  cbn [repeat app]. now rewrite IH.
Qed.

(** Cleaning what is clean changes nothing. *)
Lemma cleanElems_idem rooted stack :
  Filepath.cleanStack rooted stack ->
  Filepath.cleanElems rooted (rev stack) [] = rev stack.
Proof.
  intros (names & k & -> & Hnames & Hk).
  rewrite rev_app_distr, rev_repeat.
  assert (Hrev : Forall Filepath.realElem (rev names)).
  { apply List.Forall_forall. intros e He. apply in_rev in He.
    now apply (proj1 (List.Forall_forall _ _) Hnames). }
  destruct rooted.
  - rewrite (Hk eq_refl). cbn [repeat app].
    rewrite <- (app_nil_r (rev names)) at 1.
    rewrite (cleanElems_names _ _ _ _ Hrev). cbn [Filepath.cleanElems].
    now rewrite rev_involutive, ?app_nil_r.
  - change (@nil string) with (repeat ".." 0) at 1.
    rewrite cleanElems_dots, Nat.add_0_r.
    rewrite <- (app_nil_r (rev names)) at 1.
    rewrite (cleanElems_names _ _ _ _ Hrev). cbn [Filepath.cleanElems].
    now rewrite rev_involutive, rev_app_distr, rev_repeat.
Qed.

Lemma noSlash_count e : Filepath.noSlash e -> GoStrings.countByte "/"%char e = 0%nat.
Proof.
  unfold Filepath.noSlash. intros H.
  destruct (GoStrings.countByte "/"%char e) eqn:E; [reflexivity|].
  assert (GoStrings.Contains e "/" = true) by (apply Contains_byte; lia).
  congruence.
Qed.

Lemma splitByte_dirText elems :
  Forall Filepath.noSlash elems ->
  GoStrings.splitByte "/"%char (Filepath.dirText elems) = (elems ++ [""])%list.
Proof.
  induction elems as [|e elems IH]; intros Hns; [reflexivity|].
  inversion Hns as [|? ? He Hrest]; subst. cbn [Filepath.dirText app].
  change ("/" ++ Filepath.dirText elems)
    with (String "/"%char (Filepath.dirText elems)).
  rewrite (splitByte_first _ _ _ (noSlash_count _ He)), (IH Hrest).
  reflexivity.
Qed.

Lemma cleanElems_trailing rooted elems stack :
  Filepath.cleanElems rooted (elems ++ [""]) stack
  = Filepath.cleanElems rooted elems stack.
Proof.
  revert stack. induction elems as [|e elems IH]; intros stack;
    [reflexivity|].
  cbn [app Filepath.cleanElems].
  destruct (String.eqb e "" || String.eqb e "."); [apply IH|].
  destruct (String.eqb e ".."); [|apply IH].
  destruct stack as [|top below]; [destruct rooted; apply IH|].
  destruct (String.eqb top ".."); apply IH.
Qed.

Lemma cleanStack_nil rooted : Filepath.cleanStack rooted [].
Proof. exists [], 0%nat. repeat split; constructor. Qed.

Lemma Clean_cleanDir x : x <> "" -> Filepath.Clean (Filepath.cleanDir x) = Filepath.Clean x.
Proof.
  intros Hx. unfold Filepath.cleanDir.
  rewrite (HasPrefix_slash_app x "/" Hx).
  set (rooted := GoStrings.HasPrefix x "/").
  destruct (cleanElems_stack rooted (GoStrings.splitByte "/"%char x) []
              (cleanStack_nil rooted) (splitByte_noSlash x)
              (List.Forall_nil _))
    as (stack & Hstack & Hclean & Hns).
  rewrite Hstack.
  assert (Hns' : Forall Filepath.noSlash (rev stack)).
  { apply List.Forall_forall. intros e He. apply in_rev in He.
    now apply (proj1 (List.Forall_forall _ _) Hns). }
  unfold Filepath.Clean at 2. rewrite (eqb_false_of_ne _ _ Hx).
  fold rooted. unfold Filepath.Separator. rewrite Hstack.
  destruct (rev stack) as [|e elems] eqn:Hrev.
  - cbn [Filepath.dirText]. rewrite append_nil_r.
    unfold GoStrings.Join. cbn [String.concat]. rewrite append_nil_r.
    destruct rooted; reflexivity.
  - assert (Hfirst : GoStrings.HasPrefix
                       ((if rooted then "/" else "")
                        ++ Filepath.dirText (e :: elems)) "/" = rooted).
    { destruct rooted eqn:Hr; [reflexivity|]. rewrite append_nil_l.
      cbn [Filepath.dirText]. inversion Hns' as [|? ? He _]; subst.
      destruct e as [|c e].
      - exfalso. destruct Hclean as (names & k & Hst & Hnames & _).
        assert (Hin : In "" stack) by (apply in_rev; rewrite Hrev; now left).
        rewrite Hst in Hin. apply in_app_or in Hin as [Hin|Hin].
        + apply (proj1 (List.Forall_forall _ _) Hnames) in Hin.
          now destruct Hin.
        + apply repeat_spec in Hin. discriminate.
      - rewrite append_cons, HasPrefix_byte. unfold Filepath.noSlash in He.
        rewrite Contains_slash_cons in He. now apply orb_false_iff in He. }
    unfold Filepath.Clean.
    assert ((if rooted then "/" else "") ++ Filepath.dirText (e :: elems)
            <> "") as Hne.
    { cbn [Filepath.dirText]. destruct rooted; [discriminate|].
      rewrite append_nil_l. destruct e; discriminate. }
    rewrite (eqb_false_of_ne _ _ Hne), Hfirst. unfold Filepath.Separator.
    assert (Hsplit :
              Filepath.cleanElems rooted
                (GoStrings.splitByte "/"%char
                   ((if rooted then "/" else "")
                    ++ Filepath.dirText (e :: elems))) []
              = (e :: elems)).
    { assert (Hbody : Filepath.cleanElems rooted
                        (GoStrings.splitByte "/"%char
                           (Filepath.dirText (e :: elems))) []
                      = e :: elems).
      { rewrite (splitByte_dirText _ Hns'), cleanElems_trailing, <- Hrev.
        now apply cleanElems_idem. }
      destruct rooted; [|now rewrite append_nil_l].
      change ("/" ++ Filepath.dirText (e :: elems))
        with (String "/"%char (Filepath.dirText (e :: elems))).
      cbn [GoStrings.splitByte]. change (Ascii.eqb "/" "/") with true.
      cbn iota. cbn [Filepath.cleanElems].
      change (String.eqb "" "" || String.eqb "" ".") with true. cbn iota.
      exact Hbody. }
    rewrite Hsplit. reflexivity.
Qed.

(** The files the managers keep for one certificate share a directory:
    for a certificate directory [c] and a store directory name [d], every
    path [Join(c, d, n)] with a plain file name [n] is one directory text
    followed by [n], and its [Dir] is that directory, which is
    [Join(c, d)] unless both are empty. *)
Lemma Join_in_directory c d :
  exists p, Filepath.dirForm p = true /\
    (forall n, Filepath.plainName n = true ->
       Filepath.Join [c; d; n] = p ++ n /\
       Filepath.Dir (p ++ n) = Filepath.Clean p) /\
    (c <> "" \/ d <> "" -> Filepath.Clean p = Filepath.Join [c; d]).
Proof.
  assert (Hdir : forall p n,
             Filepath.dirForm p = true -> Filepath.plainName n = true ->
             Filepath.Dir (p ++ n) = Filepath.Clean p).
  { intros p n Hp Hn. unfold Filepath.Dir.
    rewrite uptoLastSeparator_dir; [reflexivity | exact Hp|].
    unfold Filepath.plainName in Hn. apply andb_true_iff in Hn as [_ Hn].
    now apply negb_true_iff in Hn. }
  cbn [Filepath.Join].
  destruct (String.eqb_spec c "") as [->|Hc].
  - destruct (String.eqb_spec d "") as [->|Hd].
    + exists "". split; [reflexivity|]. split; [|intros [[]|[]]; reflexivity].
      intros n Hn.
      assert (String.eqb n "" = false) as ->.
      { unfold Filepath.plainName in Hn.
        destruct (String.eqb n ""); [discriminate | reflexivity]. }
      split; [|now apply Hdir]. cbn. now apply Clean_plain.
    + exists (Filepath.cleanDir d). split; [apply dirForm_cleanDir|].
      split.
      * intros n Hn. split; [|apply Hdir; [apply dirForm_cleanDir|exact Hn]].
        cbn. now apply Clean_file.
      * intros _. cbn. now apply Clean_cleanDir.
  - exists (Filepath.cleanDir (c ++ "/" ++ d)).
    split; [apply dirForm_cleanDir|]. split.
    + intros n Hn. split; [|apply Hdir; [apply dirForm_cleanDir|exact Hn]].
      rewrite <- (Clean_file _ n Hn). unfold GoStrings.Join.
      cbn [String.concat]. rewrite !append_assoc. reflexivity.
    + intros _. unfold GoStrings.Join. cbn [String.concat].
      apply Clean_cleanDir. destruct c; [contradiction | discriminate].
Qed.

(** ** The files of the multi-domain manager *)

(** The certificate path and the domain-list path of a multi-domain
    manager are different files of one directory, the one [createCertDir]
    makes. *)
Lemma multi_paths m :
  exists p, Filepath.dirForm p = true /\
    MultiDomainManager.getCertPath m = p ++ "cert.pem" /\
    MultiDomainManager.getKeyPath m = p ++ "key.pem" /\
    MultiDomainManager.getChainPath m = p ++ "chain.pem" /\
    MultiDomainManager.getDomainsListPath m = p ++ "domains.txt" /\
    Filepath.Dir (MultiDomainManager.getCertPath m) = Filepath.Clean p /\
    Filepath.Dir (MultiDomainManager.getKeyPath m) = Filepath.Clean p /\
    Filepath.Dir (MultiDomainManager.getChainPath m) = Filepath.Clean p /\
    Filepath.Dir (MultiDomainManager.getDomainsListPath m)
      = Filepath.Clean p /\
    (MultiDomainManager.certDir m <> "" \/
     (if (1 <? length (MultiDomainManager.domains m))%nat
      then MultiDomainManager.primaryDomain m ++ "_san"
      else MultiDomainManager.primaryDomain m) <> "" ->
     MultiDomainManager.createCertDir m
       = OS.MkdirAll (Filepath.Clean p) 493).
Proof.
  unfold MultiDomainManager.getCertPath, MultiDomainManager.getKeyPath,
    MultiDomainManager.getChainPath, MultiDomainManager.getDomainsListPath,
    MultiDomainManager.createCertDir.
  cbv zeta.
  destruct (Join_in_directory (MultiDomainManager.certDir m)
              (if (1 <? length (MultiDomainManager.domains m))%nat
               then MultiDomainManager.primaryDomain m ++ "_san"
               else MultiDomainManager.primaryDomain m))
    as (p & Hp & H & Hmk).
  exists p. split; [exact Hp|].
  destruct (H "cert.pem" eq_refl) as [-> ->].
  destruct (H "key.pem" eq_refl) as [-> ->].
  destruct (H "chain.pem" eq_refl) as [-> ->].
  destruct (H "domains.txt" eq_refl) as [-> ->].
  do 8 (split; [reflexivity|]).
  intros Hne. now rewrite Hmk.
Qed.

Lemma multi_list_not_cert m :
  MultiDomainManager.getDomainsListPath m <> MultiDomainManager.getCertPath m.
Proof.
  destruct (multi_paths m) as (p & _ & -> & _ & _ & -> & _).
  intros H. apply String.app_inj in H. discriminate.
Qed.

Lemma openTrunc_other op c path perm w path' :
  path' <> path ->
  files (snd (OS.openTrunc op c path perm w)) !! path' = files w !! path'.
Proof.
  intros Hne. unfold OS.openTrunc.
  destruct (faults w c); [reflexivity|].
  destruct (OS.isDir w path); [reflexivity|].
  destruct (_ || _); [reflexivity|].
  cbn. now rewrite lookup_insert_ne.
Qed.

Lemma Write_other path data w path' :
  path' <> path ->
  files (snd (OS.Write path data w)) !! path' = files w !! path'.
Proof.
  intros Hne. unfold OS.Write.
  destruct (faults w _); [reflexivity|].
  destruct (files w !! path); [|reflexivity].
  cbn. now rewrite lookup_insert_ne.
Qed.

Lemma WriteFile_other path data perm w path' :
  path' <> path ->
  files (snd (OS.WriteFile path data perm w)) !! path' = files w !! path'.
Proof.
  intros Hne. unfold OS.WriteFile, bind.
  pose proof (openTrunc_other "open" (CallWriteFile path) path perm w path' Hne)
    as Hopen.
  destruct (OS.openTrunc _ _ _ _ w) as [[[]|e] w1]; cbn in Hopen |- *;
    [|exact Hopen].
  rewrite <- Hopen. now apply Write_other.
Qed.

(** The save stage of the multi-domain manager: its result is that of
    writing the certificate; the write of the domain list only follows. *)
Lemma multi_saveCertificate_run m der key w :
  MultiDomainManager.saveCertificate m der key w =
  match (OS.Create (MultiDomainManager.getCertPath m) ;;;
         pem_Encode (MultiDomainManager.getCertPath m)
           {| Type_ := "CERTIFICATE"; Bytes := der |}) w with
  | (Ok _, w1) =>
      (Ok tt,
       snd (OS.WriteFile (MultiDomainManager.getDomainsListPath m)
              (RawData (GoStrings.Join (MultiDomainManager.domains m) LF))
              420 w1))
  | (Err e, w1) => (Err e, w1)
  end.
Proof.
  unfold MultiDomainManager.saveCertificate, bind,
    MultiDomainManager.warnOnly, ret.
  destruct (OS.Create _ w) as [[[]|e] w1]; [|reflexivity].
  destruct (pem_Encode _ _ w1) as [[[]|e] w2]; [|reflexivity].
  destruct (OS.WriteFile _ _ _ w2) as [r w3]; reflexivity.
Qed.

Lemma multi_saveCertificate_Ok m der key w w' :
  MultiDomainManager.saveCertificate m der key w = (Ok tt, w') ->
  exists md,
    files w' !! MultiDomainManager.getCertPath m
    = Some {| content := PemData {| Type_ := "CERTIFICATE"; Bytes := der |};
              mode := md |}.
Proof.
  rewrite multi_saveCertificate_run. unfold bind.
  destruct (OS.Create _ w) as [[[]|e] w1]; [|discriminate].
  destruct (pem_Encode _ _ w1) as [[[]|e] w2] eqn:Hw; [|discriminate].
  intros [= <-]. apply Write_Ok in Hw as (md & Hmd & _). exists md.
  rewrite WriteFile_other; [exact Hmd|].
  intros H. symmetry in H. now apply multi_list_not_cert in H.
Qed.

(** ** C8: failures during [Install] *)

Lemma bind_wrap_Ok {A B} msg (c : M A) (k : A -> M B) w a w1 :
  c w = (Ok a, w1) -> bind (wrap msg c) k w = k a w1.
Proof. unfold bind, wrap. now intros ->. Qed.

Lemma bind_wrap_Err {A B} msg (c : M A) (k : A -> M B) w e w1 :
  c w = (Err e, w1) -> bind (wrap msg c) k w = (Err (wrapError msg e), w1).
Proof. unfold bind, wrap. now intros ->. Qed.

Lemma Manager_Install_outcome m w :
  Manager.InstallOutcome m w (Manager.Install m w).
Proof.
  unfold Manager.Install.
  destruct (Manager.createCertDir m w) as [[[]|e] w1] eqn:H1;
    [rewrite (bind_wrap_Ok _ _ _ _ _ _ H1)
    |rewrite (bind_wrap_Err _ _ _ _ _ _ H1); now constructor].
  destruct (Manager.generatePrivateKey m w1) as [[key|e] w2] eqn:H2;
    [rewrite (bind_wrap_Ok _ _ _ _ _ _ H2)
    |rewrite (bind_wrap_Err _ _ _ _ _ _ H2);
     eapply Manager.FailedKey; eassumption].
  destruct (Manager.createCSR m key w2) as [[csr|e] w3] eqn:H3;
    [rewrite (bind_wrap_Ok _ _ _ _ _ _ H3)
    |rewrite (bind_wrap_Err _ _ _ _ _ _ H3);
     eapply Manager.FailedRequest; eassumption].
  destruct (Manager.obtainCertificate m csr w3) as [[der|e] w4] eqn:H4;
    [rewrite (bind_wrap_Ok _ _ _ _ _ _ H4)
    |rewrite (bind_wrap_Err _ _ _ _ _ _ H4);
     eapply Manager.FailedObtain; eassumption].
  destruct (Manager.saveCertificate m der key w4) as [[[]|e] w5] eqn:H5;
    [rewrite (bind_wrap_Ok _ _ _ _ _ _ H5)
    |rewrite (bind_wrap_Err _ _ _ _ _ _ H5);
     eapply Manager.FailedPersist; eassumption].
  destruct (Manager.configureWebServer m w5) as [[[]|e] w6] eqn:H6;
    [rewrite (bind_wrap_Ok _ _ _ _ _ _ H6)
    |rewrite (bind_wrap_Err _ _ _ _ _ _ H6);
     eapply Manager.FailedWebServer; eassumption].
  eapply Manager.Done; eassumption.
Qed.

Lemma Multi_Install_outcome m w :
  MultiDomainManager.InstallOutcome m w (MultiDomainManager.Install m w).
Proof.
  unfold MultiDomainManager.Install. cbv zeta.
  destruct (MultiDomainManager.hasWildcardDomain m &&
            negb (MultiDomainManager.challengeType m =? ChallengeDNS)) eqn:H0.
  { apply andb_true_iff in H0 as [Hw Hc]. apply negb_true_iff in Hc.
    apply MultiDomainManager.RejectedWildcard; [exact Hw|].
    now apply Z.eqb_neq. }
  destruct (MultiDomainManager.createCertDir m w) as [[[]|e] w1] eqn:H1;
    [rewrite (bind_wrap_Ok _ _ _ _ _ _ H1)
    |rewrite (bind_wrap_Err _ _ _ _ _ _ H1); now constructor].
  destruct (MultiDomainManager.generatePrivateKey m w1)
    as [[key|e] w2] eqn:H2;
    [rewrite (bind_wrap_Ok _ _ _ _ _ _ H2)
    |rewrite (bind_wrap_Err _ _ _ _ _ _ H2);
     eapply MultiDomainManager.FailedKey; eassumption].
  destruct (MultiDomainManager.createMultiDomainCSR m key w2)
    as [[csr|e] w3] eqn:H3;
    [rewrite (bind_wrap_Ok _ _ _ _ _ _ H3)
    |rewrite (bind_wrap_Err _ _ _ _ _ _ H3);
     eapply MultiDomainManager.FailedRequest; eassumption].
  destruct (MultiDomainManager.obtainCertificate m csr w3)
    as [[der|e] w4] eqn:H4;
    [rewrite (bind_wrap_Ok _ _ _ _ _ _ H4)
    |rewrite (bind_wrap_Err _ _ _ _ _ _ H4);
     eapply MultiDomainManager.FailedObtain; eassumption].
  destruct (MultiDomainManager.saveCertificate m der key w4)
    as [[[]|e] w5] eqn:H5;
    [rewrite (bind_wrap_Ok _ _ _ _ _ _ H5)
    |rewrite (bind_wrap_Err _ _ _ _ _ _ H5);
     eapply MultiDomainManager.FailedPersist; eassumption].
  destruct (MultiDomainManager.configureWebServers m w5)
    as [[[]|e] w6] eqn:H6;
    [rewrite (bind_wrap_Ok _ _ _ _ _ _ H6)
    |rewrite (bind_wrap_Err _ _ _ _ _ _ H6);
     eapply MultiDomainManager.FailedWebServer; eassumption].
  eapply MultiDomainManager.Done; eassumption.
Qed.

Lemma configureWebServer_world m w r w' :
  Manager.configureWebServer m w = (r, w') -> w' = w.
Proof.
  unfold Manager.configureWebServer, Manager.configureNginx,
    Manager.configureApache, Manager.configureIIS, ret, fail.
  repeat destruct (_ =? _); congruence.
Qed.

Lemma configureWebServers_world m w r w' :
  MultiDomainManager.configureWebServers m w = (r, w') -> w' = w.
Proof.
  unfold MultiDomainManager.configureWebServers,
    MultiDomainManager.configureNginx, MultiDomainManager.configureApache,
    MultiDomainManager.configureIIS, ret, fail.
  repeat destruct (_ =? _); congruence.
Qed.

(** The claim as written fails: on a host where the domain list of the
    sample pair cannot be written, the write fails in every state, yet
    [Install] reports success and leaves no domain list behind. *)
Lemma Install_swallows_list_failure :
  let listPath := MultiDomainManager.getDomainsListPath Sample.pair in
  (forall w data perm,
      faults w = faults Sample.readOnlyList ->
      fst (OS.WriteFile listPath data perm w)
      = Err (PathError "open" listPath EIO)) /\
  fst (MultiDomainManager.Install Sample.pair Sample.readOnlyList) = Ok tt /\
  files (snd (MultiDomainManager.Install Sample.pair Sample.readOnlyList))
    !! listPath = None.
Proof.
  cbv zeta. split; [|split].
  - intros w data perm Hf. unfold OS.WriteFile, bind, OS.openTrunc.
    rewrite Hf. reflexivity.
  - vm_compute. reflexivity.
  - vm_compute. reflexivity.
Qed.

(** C8 (amended). Both [Install] functions follow the state machine of
    their stages: the run ends at the first stage that returns an error,
    with that error wrapped under the message of the stage, and reports
    success only when every stage did. A run that ends with the
    web-server error has the certificate on disk. In the save stage of the
    multi-domain manager the result is that of writing the certificate:
    what the write of the domain list returns is not part of it. *)
Theorem Install_reports_stage_failures :
  (forall m w, Manager.InstallOutcome m w (Manager.Install m w)) /\
  (forall m w,
      MultiDomainManager.InstallOutcome m w (MultiDomainManager.Install m w)) /\
  (forall m w inner w',
      Manager.Install m w
        = (Err (wrapError "配置 Web 服务器失败" inner), w') ->
      exists md der,
        files w' !! Manager.getCertPath m
        = Some {| content :=
                    PemData {| Type_ := "CERTIFICATE"; Bytes := der |};
                  mode := md |}) /\
  (forall m w inner w',
      MultiDomainManager.Install m w
        = (Err (wrapError "配置 Web 服务器失败" inner), w') ->
      exists md der,
        files w' !! MultiDomainManager.getCertPath m
        = Some {| content :=
                    PemData {| Type_ := "CERTIFICATE"; Bytes := der |};
                  mode := md |}) /\
  (forall m der key w,
      fst (MultiDomainManager.saveCertificate m der key w)
      = fst ((OS.Create (MultiDomainManager.getCertPath m) ;;;
              pem_Encode (MultiDomainManager.getCertPath m)
                {| Type_ := "CERTIFICATE"; Bytes := der |}) w)).
Proof.
  split; [exact Manager_Install_outcome|].
  split; [exact Multi_Install_outcome|].
  split; [|split].
  - intros m w inner w' Hrun.
    pose proof (Manager_Install_outcome m w) as Hout. rewrite Hrun in Hout.
    inversion Hout
      as [| | | | |w1 key w2 csr w3 der w4 w5 ? ? H1 H2 H3 H4 H5 H6|]; subst.
    apply configureWebServer_world in H6 as ->.
    apply saveCertificate_Ok in H5 as [md Hmd]. eauto.
  - intros m w inner w' Hrun.
    pose proof (Multi_Install_outcome m w) as Hout. rewrite Hrun in Hout.
    inversion Hout
      as [| | | | | |w1 key w2 csr w3 der w4 w5 ? ? H0 H1 H2 H3 H4 H5 H6|];
      subst.
    apply configureWebServers_world in H6 as ->.
    apply multi_saveCertificate_Ok in H5 as [md Hmd]. eauto.
  - intros m der key w. rewrite multi_saveCertificate_run.
    destruct ((OS.Create _ ;;; pem_Encode _ _) w) as [[[]|e] w1]; reflexivity.
Qed.

Lemma Install_reports_stage_failures_witness :
  exists md der,
    files (snd (Manager.Install Sample.unknownServer Sample.freshWorld))
      !! Manager.getCertPath Sample.unknownServer
    = Some {| content := PemData {| Type_ := "CERTIFICATE"; Bytes := der |};
              mode := md |}.
Proof.
  refine (proj1 (proj2 (proj2 Install_reports_stage_failures))
            Sample.unknownServer Sample.freshWorld
            (errorString "不支持的 Web 服务器类型") _ _).
  apply run_result. vm_compute. reflexivity.
Defined.

(** ** The files of the single-domain manager *)

Lemma single_paths m :
  exists p, Filepath.dirForm p = true /\
    Manager.getCertPath m = p ++ "cert.pem" /\
    Manager.getKeyPath m = p ++ "key.pem" /\
    Manager.getChainPath m = p ++ "chain.pem".
Proof.
  unfold Manager.getCertPath, Manager.getKeyPath, Manager.getChainPath.
  destruct (Join_in_directory (Manager.certDir m) (Manager.domain m))
    as (p & Hp & H & _).
  exists p. split; [exact Hp|].
  destruct (H "cert.pem" eq_refl) as [-> _].
  destruct (H "key.pem" eq_refl) as [-> _].
  destruct (H "chain.pem" eq_refl) as [-> _].
  repeat split.
Qed.

Lemma single_key_not_cert m : Manager.getKeyPath m <> Manager.getCertPath m.
Proof.
  destruct (single_paths m) as (p & _ & -> & -> & _).
  intros H. apply String.app_inj in H. discriminate.
Qed.

Lemma obtainCertificate_supported m csr :
  supportedChallenge (Manager.challengeType m) = true ->
  Manager.obtainCertificate m csr = Manager.generateSelfSignedCert m csr.
Proof.
  unfold supportedChallenge, Manager.obtainCertificate,
    Manager.obtainCertificateWebroot, Manager.obtainCertificateStandalone,
    Manager.obtainCertificateDNS.
  repeat destruct (_ =? _); try reflexivity. discriminate.
Qed.

(** ** The stages of [Manager.Install], exactly *)

Lemma isDir_spec w path : OS.isDir w path = true <-> path ∈ dirs w.
Proof. unfold OS.isDir. apply bool_decide_eq_true. Qed.

Lemma isDir_not w path : OS.isDir w path = false <-> path ∉ dirs w.
Proof. unfold OS.isDir. apply bool_decide_eq_false. Qed.

Lemma find_existsb {A} (f : A -> bool) l :
  find f l = None <-> existsb f l = false.
Proof.
  induction l as [|a l IH]; cbn [find existsb]; [tauto|].
  destruct (f a); cbn [orb]; [split; discriminate | exact IH].
Qed.

Lemma filter_all {A} (f : A -> bool) l :
  forallb f l = true -> List.filter f l = l.
Proof.
  induction l as [|a l IH]; cbn [forallb List.filter]; [reflexivity|].
  intros [Ha Hl]%andb_true_iff. rewrite Ha. f_equal. auto.
Qed.

Lemma firstRefused_accepts w l :
  OS.firstRefused w l = None <-> forallb (OS.accepts w) l = true.
Proof.
  induction l as [|p l IH]; cbn [OS.firstRefused forallb]; [tauto|].
  unfold OS.accepts at 1.
  destruct (OS.refused w p); cbn [andb]; [split; discriminate | exact IH].
Qed.

Lemma forallb_rev {A} (f : A -> bool) l : forallb f (rev l) = forallb f l.
Proof.
  apply eq_true_iff_eq. rewrite !List.forallb_forall.
  split; intros H x Hx; apply H; [now apply List.in_rev in Hx|].
  now apply List.in_rev.
Qed.

Lemma find_refused w l :
  OS.firstRefused w (rev l) = None <-> forallb (OS.accepts w) l = true.
Proof. now rewrite firstRefused_accepts, forallb_rev. Qed.

Lemma MkdirAll_iff path perm w w' :
  OS.MkdirAll path perm w = (Ok tt, w') <->
  path <> "" /\
  forallb (OS.accepts w) (Filepath.ancestors (String.length path) path)
  = true /\
  faults w (CallMkdirAll path) = false /\
  existsb (OS.isFile w) (Filepath.ancestors (String.length path) path)
  = false /\
  w' = set_dirs (dirs w ∪ list_to_set
                   (Filepath.ancestors (String.length path) path)) w.
Proof.
  unfold OS.MkdirAll. cbv zeta.
  set (chain := Filepath.ancestors (String.length path) path).
  destruct (String.eqb_spec path "") as [->|Hne];
    [split; [discriminate | now intros [? _]]|].
  destruct (faults w _);
    [split; [discriminate | now intros (_ & _ & ? & _)]|].
  destruct (forallb (OS.accepts w) chain) eqn:Hacc.
  - rewrite (filter_all _ _ Hacc), (proj2 (find_refused _ _) Hacc).
    destruct (find (OS.isFile w) chain) as [above|] eqn:Hfile.
    + split; [discriminate|]. intros (_ & _ & _ & Hex & _).
      apply find_existsb in Hex. congruence.
    + apply find_existsb in Hfile.
      split; [intros [= <-]; auto | intros (_ & _ & _ & _ & ->); reflexivity].
  - split; [|now intros (_ & ? & _)].
    destruct (find (OS.isFile w) _); [discriminate|].
    destruct (OS.firstRefused w _) as [[high errno]|] eqn:Hhigh;
      [discriminate|].
    apply find_refused in Hhigh. congruence.
Qed.

(** A name that is an IA5String is valid UTF-8. *)
Lemma isIA5String_valid s : isIA5String s = true -> utf8_ValidString s = true.
Proof.
  unfold isIA5String, utf8_ValidString.
  induction s as [|c s IH]; [reflexivity|].
  cbn [list_ascii_of_string forallb utf8_valid]. cbv zeta.
  intros [Hc Hs]%andb_true_iff. rewrite Hc. auto.
Qed.

(** The library encodes the names of a single-domain request exactly when
    the domain is an IA5String. *)
Lemma namesRefused_single d :
  namesRefused {| CommonName := d |} [d] = false <-> isIA5String d = true.
Proof.
  unfold namesRefused. cbn [forallb CommonName]. rewrite andb_true_r.
  destruct (isIA5String d) eqn:Hd; cbn [negb orb].
  - rewrite (isIA5String_valid d Hd). tauto.
  - split; discriminate.
Qed.

Lemma openTrunc_iff op c path perm w w' :
  OS.openTrunc op c path perm w = (Ok tt, w') <->
  faults w c = false /\ OS.accepts w path = true /\
  (path ∉ dirs w) /\ (Filepath.Dir path ∈ dirs w) /\
  w' = set_files
         (<[path := {| content := RawData "";
                       mode := modeAfterCreate w path perm |}]> (files w)) w.
Proof.
  unfold OS.openTrunc, modeAfterCreate. rewrite <- isDir_not, <- isDir_spec.
  destruct (faults w c); [split; [discriminate | now intros [? _]]|].
  destruct (OS.isDir w path);
    [split; [discriminate | now intros (_ & _ & ? & _)]|].
  destruct (OS.accepts w path); cbn [negb orb];
    [|split; [discriminate | now intros (_ & ? & _)]].
  destruct (OS.isDir w (Filepath.Dir path)); cbn [negb];
    [|split; [discriminate | now intros (_ & _ & _ & ? & _)]].
  split; [intros [= <-]; auto | intros (_ & _ & _ & _ & ->); reflexivity].
Qed.

Lemma Write_iff path data w w' :
  OS.Write path data w = (Ok tt, w') <->
  faults w (CallWrite path) = false /\
  exists f, files w !! path = Some f /\
            w' = set_files
                   (<[path := {| content := data; mode := mode f |}]>
                      (files w)) w.
Proof.
  unfold OS.Write. destruct (faults w _);
    [split; [discriminate | now intros [? _]]|].
  destruct (files w !! path) as [f|].
  - split; [intros [= <-]; eauto|].
    intros (_ & f' & [= <-] & ->). reflexivity.
  - split; [discriminate | intros (_ & f' & [=] & _)].
Qed.

(** Creating a file and writing [data] to it. *)
Lemma createWrite_iff c path perm data w w' :
  (OS.openTrunc "open" c path perm ;;; OS.Write path data) w = (Ok tt, w')
  <->
  faults w c = false /\ faults w (CallWrite path) = false /\
  OS.accepts w path = true /\
  (path ∉ dirs w) /\ (Filepath.Dir path ∈ dirs w) /\
  w' = set_files
         (<[path := {| content := data;
                       mode := modeAfterCreate w path perm |}]> (files w)) w.
Proof.
  rewrite bind_Ok_iff. split.
  - intros ([] & w1 & (Hc & Ha & Hnd & Hd & ->)%openTrunc_iff
            & (Hw & f & Hf & ->)%Write_iff).
    cbn [faults set_files files] in *.
    rewrite lookup_insert_eq in Hf. injection Hf as <-.
    repeat split; try assumption.
    unfold set_files. cbn. now rewrite insert_insert_eq.
  - intros (Hc & Hw & Ha & Hnd & Hd & ->). eexists tt, _. split.
    + apply openTrunc_iff. repeat split; eassumption.
    + apply Write_iff. cbn [faults set_files files]. split; [exact Hw|].
      eexists. split; [apply lookup_insert_eq|].
      unfold set_files. cbn. now rewrite insert_insert_eq.
Qed.

Lemma Chmod_file path md w f :
  files w !! path = Some f ->
  faults w (CallChmod path) = false ->
  OS.Chmod path md w
  = (Ok tt, set_files (<[path := {| content := content f; mode := md |}]>
                         (files w)) w).
Proof. intros Hf Hc. unfold OS.Chmod. now rewrite Hc, Hf. Qed.

Lemma Chmod_fault path md w w' :
  OS.Chmod path md w = (Ok tt, w') -> faults w (CallChmod path) = false.
Proof. unfold OS.Chmod. now destruct (faults w _). Qed.

(** The key stage. *)
Lemma storeKey_iff bits keyPath w key w' :
  (let* privateKey := rsa_GenerateKey bits in
   OS.Create keyPath ;;;
   pem_Encode keyPath
     {| Type_ := "RSA PRIVATE KEY";
        Bytes := x509_MarshalPKCS1PrivateKey privateKey |} ;;;
   OS.Chmod keyPath 384 ;;;
   ret privateKey) w = (Ok key, w')
  <->
  faults w (CallGenerateKey (entropy w)) = false /\
  faults w (CallCreate keyPath) = false /\
  faults w (CallWrite keyPath) = false /\
  faults w (CallChmod keyPath) = false /\
  OS.accepts w keyPath = true /\
  (keyPath ∉ dirs w) /\ (Filepath.Dir keyPath ∈ dirs w) /\
  key = {| key_bits := bits; key_draw := entropy w |} /\
  w' = set_files
         (<[keyPath := {| content :=
                            PemData {| Type_ := "RSA PRIVATE KEY";
                                       Bytes := DerPrivateKey key |};
                          mode := 384 |}]> (files w))
         (set_entropy (S (entropy w)) w).
Proof.
  rewrite bind_Ok_iff. split.
  - intros (k & w1 & (Hg & -> & ->)%GenerateKey_iff & H).
    apply bind_Ok in H
      as ([] & w2 & (Hc & Ha & Hnd & Hd & ->)%openTrunc_iff & H).
    apply bind_Ok in H as ([] & w3 & (Hw & f & Hf & ->)%Write_iff & H).
    apply bind_Ok in H as ([] & w4 & Hchmod & [= <- <-]).
    pose proof (Chmod_fault _ _ _ _ Hchmod) as Hm.
    unfold OS.Chmod in Hchmod.
    change (OS.accepts (set_entropy (S (entropy w)) w) keyPath)
      with (OS.accepts w keyPath) in Ha.
    cbn [faults set_files set_entropy files dirs] in *.
    rewrite lookup_insert_eq in Hf. injection Hf as <-.
    rewrite Hm, lookup_insert_eq in Hchmod. injection Hchmod as <-.
    repeat split; try assumption.
    unfold set_files, set_entropy. cbn. now rewrite !insert_insert_eq.
  - intros (Hg & Hc & Hw & Hm & Ha & Hnd & Hd & -> & ->).
    eexists _, _. split; [apply GenerateKey_iff; repeat split; exact Hg|].
    apply bind_Ok_iff. eexists tt, _. split.
    { apply openTrunc_iff. cbn [faults set_entropy dirs].
      repeat split; eassumption. }
    apply bind_Ok_iff. eexists tt, _. split.
    { apply Write_iff. cbn [faults set_files set_entropy files].
      split; [exact Hw|]. eexists. split; [apply lookup_insert_eq|].
      reflexivity. }
    apply bind_Ok_iff. eexists tt, _. split.
    { apply Chmod_file; [apply lookup_insert_eq | exact Hm]. }
    unfold ret, set_files, set_entropy. cbn.
    now rewrite !insert_insert_eq.
Qed.

Lemma createCSR_iff m key w csr w' :
  Manager.createCSR m key w = (Ok csr, w') <->
  faults w CallCreateCertificateRequest = false /\
  isIA5String (Manager.domain m) = true /\
  csr = DerRequest {| csr_Subject := {| CommonName := Manager.domain m |};
                      csr_DNSNames := [Manager.domain m] |} key /\
  w' = w.
Proof.
  unfold Manager.createCSR. rewrite bind_Ok_iff. split.
  - intros (der & w1 & (Hf & Hn & -> & ->)%CreateCertificateRequest_iff
            & [= <- <-]).
    cbn [csr_Subject csr_DNSNames] in Hn. apply namesRefused_single in Hn.
    auto.
  - intros (Hf & Hn & -> & ->). eexists _, _. split; [|reflexivity].
    apply CreateCertificateRequest_iff. cbn [csr_Subject csr_DNSNames].
    apply namesRefused_single in Hn. auto.
Qed.

Lemma obtainCertificate_iff m req signer w der w' :
  Manager.obtainCertificate m (DerRequest req signer) w = (Ok der, w') <->
  supportedChallenge (Manager.challengeType m) = true /\
  faults w (CallGenerateKey (entropy w)) = false /\
  faults w CallCreateCertificate = false /\
  serialNumbers w = true /\
  namesRefused (csr_Subject req) (csr_DNSNames req) = false /\
  der = DerCertificate (issuedAt (csr_Subject req) (csr_DNSNames req) w)
          {| key_bits := 2048; key_draw := entropy w |} /\
  w' = set_entropy (S (entropy w)) (set_reads (S (S (reads w))) w).
Proof.
  destruct (supportedChallenge (Manager.challengeType m)) eqn:Hs.
  - rewrite (obtainCertificate_supported m _ Hs), generateSelfSignedCert_iff.
    tauto.
  - split; [|now intros [? _]].
    revert Hs. unfold supportedChallenge, Manager.obtainCertificate.
    repeat destruct (_ =? _); discriminate.
Qed.

Lemma saveCertificate_iff m der key w w' :
  Manager.saveCertificate m der key w = (Ok tt, w') <->
  faults w (CallCreate (Manager.getCertPath m)) = false /\
  faults w (CallWrite (Manager.getCertPath m)) = false /\
  OS.accepts w (Manager.getCertPath m) = true /\
  (Manager.getCertPath m ∉ dirs w) /\
  (Filepath.Dir (Manager.getCertPath m) ∈ dirs w) /\
  w' = set_files
         (<[Manager.getCertPath m :=
              {| content := PemData {| Type_ := "CERTIFICATE";
                                       Bytes := der |};
                 mode := modeAfterCreate w (Manager.getCertPath m) 438 |}]>
            (files w)) w.
Proof.
  unfold Manager.saveCertificate. cbv zeta.
  rewrite <- (createWrite_iff (CallCreate (Manager.getCertPath m))).
  unfold OS.Create, pem_Encode, bind, ret.
  destruct (OS.openTrunc _ _ _ _ w) as [[[]|e] w1]; [|tauto].
  destruct (OS.Write _ _ w1) as [[[]|e] w2]; tauto.
Qed.

Lemma configureWebServer_iff m w w' :
  Manager.configureWebServer m w = (Ok tt, w') <->
  knownServer (Manager.webServerType m) = true /\ w' = w.
Proof.
  unfold Manager.configureWebServer, knownServer, Manager.configureNginx,
    Manager.configureApache, Manager.configureIIS, ret, fail.
  repeat destruct (_ =? _); cbn [orb];
    (split; [intros [= <-]; auto | intros [? ->]; try reflexivity;
                                    discriminate]).
Qed.

Lemma createCertDir_iff m w w' :
  Manager.createCertDir m w = (Ok tt, w') <->
  storeDir m <> "" /\
  forallb (OS.accepts w) (storeChain m) = true /\
  faults w (CallMkdirAll (storeDir m)) = false /\
  existsb (OS.isFile w) (storeChain m) = false /\
  w' = set_dirs (dirs w ∪ list_to_set (storeChain m)) w.
Proof. apply MkdirAll_iff. Qed.

(** [Install] succeeds exactly on the worlds that are ready for it, and
    then leaves the world [installed]. *)
Lemma Install_iff m w w' :
  Manager.Install m w = (Ok tt, w') <->
  InstallReady m w /\ w' = installed m w.
Proof.
  split.
  - intros (w1 & key & w2 & csr & w3 & der & w4 & w5 &
            H1 & H2 & H3 & H4 & H5 & H6)%Install_stages.
    apply createCertDir_iff in H1 as (A0 & A3 & A1 & A2 & ->).
    apply storeKey_iff in H2
      as (B1 & B2 & B3 & B4 & B7 & B5 & B6 & -> & ->).
    apply createCSR_iff in H3 as (C1 & C2 & -> & ->).
    apply obtainCertificate_iff in H4 as (D1 & D2 & D3 & D4 & _ & -> & ->).
    apply saveCertificate_iff in H5 as (E1 & E2 & E5 & E3 & E4 & ->).
    apply configureWebServer_iff in H6 as (F1 & ->).
    change (OS.accepts (set_dirs _ w) (Manager.getKeyPath m))
      with (OS.accepts w (Manager.getKeyPath m)) in B7.
    match type of E5 with
    | OS.accepts ?v _ = true =>
        change (OS.accepts v (Manager.getCertPath m))
          with (OS.accepts w (Manager.getCertPath m)) in E5
    end.
    cbn [faults set_files set_dirs set_entropy set_reads files dirs entropy
           reads serialNumbers clock] in *.
    split; [|reflexivity].
    unfold InstallReady. cbv zeta. tauto.
  - intros [Hready ->]. unfold InstallReady in Hready. cbv zeta in Hready.
    destruct Hready as (A0 & A3 & B7 & E5 & C2 & D4 & A1 & A2 & B1 & B2 &
                        B3 & B4 & B5 & B6 & C1 & D1 & D2 & D3 & E1 & E2 &
                        E3 & E4 & F1).
    unfold Manager.Install.
    apply bind_Ok_iff. eexists tt, _. split.
    { apply wrap_Ok_iff, createCertDir_iff. repeat split; assumption. }
    apply bind_Ok_iff. eexists _, _. split.
    { apply wrap_Ok_iff, storeKey_iff.
      cbn [faults set_dirs dirs entropy]. repeat split; assumption. }
    apply bind_Ok_iff. eexists _, _. split.
    { apply wrap_Ok_iff, createCSR_iff.
      cbn [faults set_files set_dirs set_entropy].
      repeat split; assumption. }
    apply bind_Ok_iff. eexists _, _. split.
    { apply wrap_Ok_iff, obtainCertificate_iff.
      cbn [faults set_files set_dirs set_entropy entropy serialNumbers
             clock reads csr_Subject csr_DNSNames].
      repeat split; try assumption. now apply namesRefused_single. }
    apply bind_Ok_iff. eexists tt, _. split.
    { apply wrap_Ok_iff, saveCertificate_iff.
      cbn [faults set_files set_dirs set_entropy set_reads dirs].
      repeat split; assumption. }
    apply bind_Ok_iff. eexists tt, _. split.
    { apply wrap_Ok_iff, configureWebServer_iff. split; [exact F1|].
      reflexivity. }
    reflexivity.
Qed.

(** ** C6: store layout *)

(** Splitting the joined list at the newlines gives the list back. *)
Lemma splitByte_Join ds :
  ds <> [] ->
  Forall (fun d => GoStrings.countByte (ascii_of_nat 10) d = 0%nat) ds ->
  GoStrings.splitByte (ascii_of_nat 10) (GoStrings.Join ds LF) = ds.
Proof.
  unfold GoStrings.Join. induction ds as [|d ds IH]; [contradiction|].
  intros _ Hall. inversion Hall as [|? ? Hd Hds]; subst.
  destruct ds as [|d' ds]; [now apply splitByte_none|].
  cbn [String.concat]. unfold LF at 1.
  rewrite append_cons, append_nil_l, (splitByte_first _ _ _ Hd).
  f_equal. apply IH; [discriminate | exact Hds].
Qed.

Lemma openTrunc_Ok op c path perm w w' :
  OS.openTrunc op c path perm w = (Ok tt, w') ->
  OS.isDir w (Filepath.Dir path) = true /\ dirs w' = dirs w /\
  exists md, files w' !! path = Some {| content := RawData ""; mode := md |}.
Proof.
  intros (_ & _ & _ & Hd & ->)%openTrunc_iff.
  split; [now apply isDir_spec|]. split; [reflexivity|].
  eexists. cbn [files set_files]. apply lookup_insert_eq.
Qed.

Lemma WriteFile_succeeds path data perm w :
  faults w (CallWriteFile path) = false -> faults w (CallWrite path) = false ->
  OS.accepts w path = true ->
  OS.isDir w path = false -> OS.isDir w (Filepath.Dir path) = true ->
  exists md,
    files (snd (OS.WriteFile path data perm w)) !! path
    = Some {| content := data; mode := md |}.
Proof.
  intros Hf1 Hf2 Ha Hd1 Hd2.
  unfold OS.WriteFile, bind, OS.openTrunc, OS.Write.
  rewrite Hf1, Hd1, Ha, Hd2. cbn. rewrite Hf2, lookup_insert_eq. cbn.
  rewrite lookup_insert_eq. eauto.
Qed.

Lemma multi_saveCertificate_list m der key w w' :
  MultiDomainManager.saveCertificate m der key w = (Ok tt, w') ->
  faults w (CallWriteFile (MultiDomainManager.getDomainsListPath m)) = false ->
  faults w (CallWrite (MultiDomainManager.getDomainsListPath m)) = false ->
  OS.accepts w (MultiDomainManager.getDomainsListPath m) = true ->
  MultiDomainManager.getDomainsListPath m ∉ dirs w ->
  exists md,
    files w' !! MultiDomainManager.getDomainsListPath m
    = Some {| content :=
                RawData (GoStrings.Join (MultiDomainManager.domains m) LF);
              mode := md |}.
Proof.
  rewrite multi_saveCertificate_run. unfold bind.
  intros Hrun Hf1 Hf2 Ha Hnd.
  destruct (OS.Create _ w) as [[[]|e] w1] eqn:Hcreate; [|discriminate].
  destruct (pem_Encode _ _ w1) as [[[]|e] w2] eqn:Hwrite; [|discriminate].
  injection Hrun as <-.
  pose proof (frame_of _ _ _ _ (Framed_Create _) Hcreate) as G1.
  pose proof (frame_of _ _ _ _ (Framed_pem_Encode _ _) Hwrite) as G2.
  pose proof G1 as (_ & _ & F1 & _). pose proof G2 as (_ & _ & F2 & _).
  apply openTrunc_Ok in Hcreate as (Hdir & Hdirs1 & _).
  apply Write_Ok in Hwrite as (_ & _ & Hdirs2 & _).
  destruct (multi_paths m) as (p & _ & _ & _ & _ & _ & Hc & _ & _ & Hl & _).
  apply WriteFile_succeeds.
  - now rewrite F2, F1.
  - now rewrite F2, F1.
  - now rewrite (accepts_frame _ _ _ G2), (accepts_frame _ _ _ G1).
  - apply isDir_false. now rewrite Hdirs2, Hdirs1.
  - rewrite Hl, <- Hc. unfold OS.isDir in *. now rewrite Hdirs2, Hdirs1.
Qed.

(** The save stage of the multi-domain manager, when nothing stands in
    its way: it writes the certificate and then the domain list. *)
Lemma multi_saveCertificate_writes m der key w :
  let certPath := MultiDomainManager.getCertPath m in
  let listPath := MultiDomainManager.getDomainsListPath m in
  faults w (CallCreate certPath) = false ->
  faults w (CallWrite certPath) = false ->
  OS.accepts w certPath = true ->
  certPath ∉ dirs w -> Filepath.Dir certPath ∈ dirs w ->
  faults w (CallWriteFile listPath) = false ->
  faults w (CallWrite listPath) = false ->
  OS.accepts w listPath = true ->
  listPath ∉ dirs w ->
  MultiDomainManager.saveCertificate m der key w
  = (Ok tt,
     set_files
       (<[listPath :=
            {| content :=
                 RawData (GoStrings.Join (MultiDomainManager.domains m) LF);
               mode := modeAfterCreate w listPath 420 |}]>
          (<[certPath :=
               {| content :=
                    PemData {| Type_ := "CERTIFICATE"; Bytes := der |};
                  mode := modeAfterCreate w certPath 438 |}]>
             (files w))) w).
Proof.
  cbv zeta. intros Hc1 Hc2 Hca Hcd Hcp Hl1 Hl2 Hla Hld.
  rewrite multi_saveCertificate_run.
  unfold OS.Create, pem_Encode.
  rewrite (proj2 (createWrite_iff _ _ _ _ _ _)
             (conj Hc1 (conj Hc2 (conj Hca (conj Hcd (conj Hcp eq_refl)))))).
  unfold OS.WriteFile.
  destruct (multi_paths m) as (p & _ & _ & _ & _ & _ & Hc & _ & _ & Hl & _).
  assert (Hlp : Filepath.Dir (MultiDomainManager.getDomainsListPath m)
                ∈ dirs w) by (now rewrite Hl, <- Hc).
  match goal with
  | |- context [(OS.openTrunc "open" ?c ?p ?perm ;;; OS.Write ?p ?d) ?w1] =>
      rewrite (proj2 (createWrite_iff c p perm d w1 _)
                 (conj Hl1 (conj Hl2 (conj Hla (conj Hld (conj Hlp eq_refl))))))
  end.
  cbn [snd]. unfold set_files, modeAfterCreate. cbn [files dirs umask clock
    reads entropy faults serialNumbers].
  rewrite (lookup_insert_ne _ _ _ _ (not_eq_sym (multi_list_not_cert m))).
  reflexivity.
Qed.

(** C6. For a manager made by [NewMultiDomainManager] from the domain set
    [ds] under the certificate root [root]: the store directory name is
    the domain itself for a set of one and [<primary>_san] for a larger
    set; the directory created and the four file paths are [root], that
    name and the file name joined, so the files are one directory text
    followed by [cert.pem], [key.pem], [chain.pem] and [domains.txt] and
    share their [Dir], which is the directory created (unless root and
    name are both empty); for a set of one the single-domain manager derives
    the same three PEM paths; the save stage, when no call of it fails
    for an outside cause, the system takes the two paths and the store
    directory is there, writes the certificate
    and then, at [domains.txt], the domains joined by newlines (one per
    line, the last without a newline after it), which split back into
    [ds] in input order, and leaves every other file as it was; every
    save stage that succeeds has written that list when nothing stands
    in the way of that write. *)
Theorem store_layout :
  forall (cfg : option Config) (ds : list string) (email : string)
         (m : MultiDomainManager.t),
    MultiDomainManager.NewMultiDomainManager cfg ds email = Some m ->
    let root := GetCertDir cfg in
    let dir := storeDirName ds in
    (forall d, ds = [d] -> dir = d) /\
    (forall d d' rest, ds = d :: d' :: rest -> dir = d ++ "_san") /\
    MultiDomainManager.createCertDir m
      = OS.MkdirAll (Filepath.Join [root; dir]) 493 /\
    MultiDomainManager.getCertPath m = Filepath.Join [root; dir; "cert.pem"] /\
    MultiDomainManager.getKeyPath m = Filepath.Join [root; dir; "key.pem"] /\
    MultiDomainManager.getChainPath m
      = Filepath.Join [root; dir; "chain.pem"] /\
    MultiDomainManager.getDomainsListPath m
      = Filepath.Join [root; dir; "domains.txt"] /\
    (exists p,
        Filepath.dirForm p = true /\
        MultiDomainManager.getCertPath m = p ++ "cert.pem" /\
        MultiDomainManager.getKeyPath m = p ++ "key.pem" /\
        MultiDomainManager.getChainPath m = p ++ "chain.pem" /\
        MultiDomainManager.getDomainsListPath m = p ++ "domains.txt" /\
        Filepath.Dir (MultiDomainManager.getCertPath m) = Filepath.Clean p /\
        Filepath.Dir (MultiDomainManager.getKeyPath m) = Filepath.Clean p /\
        Filepath.Dir (MultiDomainManager.getChainPath m) = Filepath.Clean p /\
        Filepath.Dir (MultiDomainManager.getDomainsListPath m)
          = Filepath.Clean p /\
        (root <> "" \/ dir <> "" ->
         MultiDomainManager.createCertDir m
           = OS.MkdirAll (Filepath.Clean p) 493)) /\
    (forall d,
        ds = [d] ->
        Manager.getCertPath (Manager.NewManager cfg d email)
          = MultiDomainManager.getCertPath m /\
        Manager.getKeyPath (Manager.NewManager cfg d email)
          = MultiDomainManager.getKeyPath m /\
        Manager.getChainPath (Manager.NewManager cfg d email)
          = MultiDomainManager.getChainPath m) /\
    (forall der key w,
        let certPath := MultiDomainManager.getCertPath m in
        let listPath := MultiDomainManager.getDomainsListPath m in
        faults w (CallCreate certPath) = false ->
        faults w (CallWrite certPath) = false ->
        OS.accepts w certPath = true ->
        certPath ∉ dirs w -> Filepath.Dir certPath ∈ dirs w ->
        faults w (CallWriteFile listPath) = false ->
        faults w (CallWrite listPath) = false ->
        OS.accepts w listPath = true ->
        listPath ∉ dirs w ->
        exists w',
          MultiDomainManager.saveCertificate m der key w = (Ok tt, w') /\
          files w' !! listPath
          = Some {| content := RawData (GoStrings.Join ds LF);
                    mode := modeAfterCreate w listPath 420 |} /\
          files w' !! certPath
          = Some {| content :=
                      PemData {| Type_ := "CERTIFICATE"; Bytes := der |};
                    mode := modeAfterCreate w certPath 438 |} /\
          (forall path,
              path <> listPath -> path <> certPath ->
              files w' !! path = files w !! path)) /\
    (forall der key w w',
        MultiDomainManager.saveCertificate m der key w = (Ok tt, w') ->
        faults w (CallWriteFile (MultiDomainManager.getDomainsListPath m))
          = false ->
        faults w (CallWrite (MultiDomainManager.getDomainsListPath m))
          = false ->
        OS.accepts w (MultiDomainManager.getDomainsListPath m) = true ->
        MultiDomainManager.getDomainsListPath m ∉ dirs w ->
        exists md,
          files w' !! MultiDomainManager.getDomainsListPath m
          = Some {| content := RawData (GoStrings.Join ds LF);
                    mode := md |}) /\
    (Forall (fun d => GoStrings.countByte (ascii_of_nat 10) d = 0%nat) ds ->
     GoStrings.splitByte (ascii_of_nat 10) (GoStrings.Join ds LF) = ds).
Proof.
  intros cfg ds email m Hnew root dir. subst root dir.
  destruct ds as [|d ds]; [discriminate|].
  injection Hnew as <-.
  assert (Hdir : (if (1 <? length (d :: ds))%nat then d ++ "_san" else d)
                 = storeDirName (d :: ds)).
  { destruct ds; reflexivity. }
  split; [intros d0 [= -> ->]; reflexivity|].
  split; [intros d0 d1 rest [= -> ->]; reflexivity|].
  unfold MultiDomainManager.createCertDir, MultiDomainManager.getCertPath,
    MultiDomainManager.getKeyPath, MultiDomainManager.getChainPath,
    MultiDomainManager.getDomainsListPath.
  cbn [MultiDomainManager.domains MultiDomainManager.primaryDomain
       MultiDomainManager.certDir]. cbv zeta. rewrite Hdir.
  do 5 (split; [reflexivity|]).
  split; [|split; [|split; [|split]]].
  - pose proof (multi_paths
                  {| MultiDomainManager.domains := d :: ds;
                     MultiDomainManager.primaryDomain := d;
                     MultiDomainManager.email := email;
                     MultiDomainManager.challengeType := ChallengeWebroot;
                     MultiDomainManager.webrootPath := "";
                     MultiDomainManager.webServerType := 0;
                     MultiDomainManager.certDir := GetCertDir cfg;
                     MultiDomainManager.keySize := 2048 |}) as H.
    unfold MultiDomainManager.getCertPath, MultiDomainManager.getKeyPath,
      MultiDomainManager.getChainPath, MultiDomainManager.getDomainsListPath,
      MultiDomainManager.createCertDir in H.
    cbn [MultiDomainManager.domains MultiDomainManager.primaryDomain
         MultiDomainManager.certDir] in H. cbv zeta in H.
    rewrite Hdir in H. exact H.
  - intros d0 [= -> ->]. repeat split; reflexivity.
  - intros der key w Hc1 Hc2 Hca Hcd Hcp Hl1 Hl2 Hla Hld.
    pose proof (multi_saveCertificate_writes
                  {| MultiDomainManager.domains := d :: ds;
                     MultiDomainManager.primaryDomain := d;
                     MultiDomainManager.email := email;
                     MultiDomainManager.challengeType := ChallengeWebroot;
                     MultiDomainManager.webrootPath := "";
                     MultiDomainManager.webServerType := 0;
                     MultiDomainManager.certDir := GetCertDir cfg;
                     MultiDomainManager.keySize := 2048 |} der key w) as H.
    pose proof (multi_list_not_cert
                  {| MultiDomainManager.domains := d :: ds;
                     MultiDomainManager.primaryDomain := d;
                     MultiDomainManager.email := email;
                     MultiDomainManager.challengeType := ChallengeWebroot;
                     MultiDomainManager.webrootPath := "";
                     MultiDomainManager.webServerType := 0;
                     MultiDomainManager.certDir := GetCertDir cfg;
                     MultiDomainManager.keySize := 2048 |}) as Hne.
    unfold MultiDomainManager.getCertPath,
      MultiDomainManager.getDomainsListPath in H, Hne.
    cbn [MultiDomainManager.domains MultiDomainManager.primaryDomain
         MultiDomainManager.certDir] in H, Hne. cbv zeta in H, Hne.
    rewrite Hdir in H, Hne.
    specialize (H Hc1 Hc2 Hca Hcd Hcp Hl1 Hl2 Hla Hld).
    eexists. split; [exact H|]. cbn [files set_files].
    split; [apply lookup_insert_eq|]. split.
    + rewrite lookup_insert_ne by exact Hne. apply lookup_insert_eq.
    + intros path Hp1 Hp2. now rewrite !lookup_insert_ne by congruence.
  - intros der key w w' Hrun Hf1 Hf2 Ha Hnd.
    pose proof (multi_saveCertificate_list _ _ _ _ _ Hrun) as H.
    unfold MultiDomainManager.getDomainsListPath in H.
    cbn [MultiDomainManager.domains MultiDomainManager.primaryDomain
         MultiDomainManager.certDir] in H. cbv zeta in H.
    rewrite Hdir in H. exact (H Hf1 Hf2 Ha Hnd).
  - apply splitByte_Join. discriminate.
Qed.

(** The sample pair on an empty disk, once its store directory is made:
    the save stage leaves both domains at [domains.txt], one per line,
    in input order. *)
Lemma store_layout_witness :
  let w0 := snd (MultiDomainManager.createCertDir Sample.pair
                   Sample.freshWorld) in
  MultiDomainManager.getDomainsListPath Sample.pair
  = "/etc/autocert/certs/example.com_san/domains.txt" /\
  exists w',
    MultiDomainManager.saveCertificate Sample.pair (DerOther "")
      {| key_bits := 2048; key_draw := 0 |} w0 = (Ok tt, w') /\
    files w' !! "/etc/autocert/certs/example.com_san/domains.txt"
    = Some {| content := RawData ("example.com" ++ LF ++ "www.example.com");
              mode := 420 |} /\
    GoStrings.splitByte (ascii_of_nat 10)
      ("example.com" ++ LF ++ "www.example.com")
    = ["example.com"; "www.example.com"].
Proof.
  cbv zeta.
  pose proof (store_layout None ["example.com"; "www.example.com"]
                "admin@example.com" Sample.pair eq_refl) as H.
  cbv zeta in H.
  destruct H as (_ & _ & _ & _ & _ & _ & Hpath & _ & _ & Hsave & _ & Hsplit).
  split; [exact Hpath|].
  destruct (Hsave (DerOther "") {| key_bits := 2048; key_draw := 0 |}
              (snd (MultiDomainManager.createCertDir Sample.pair
                      Sample.freshWorld)))
    as (w' & Hrun & Hlist & _);
    try reflexivity;
    try (apply (bool_decide_unpack _); vm_compute; exact I).
  exists w'. split; [exact Hrun|]. split; [exact Hlist|].
  apply Hsplit. repeat constructor.
Defined.

(** The two layouts of the specification, and the domain list a run
    leaves behind. *)
Example layout_single :
  Manager.getCertPath Sample.single
  = "/etc/autocert/certs/example.com/cert.pem".
Proof. reflexivity. Qed.

Example layout_san :
  MultiDomainManager.getCertPath Sample.pair
    = "/etc/autocert/certs/example.com_san/cert.pem" /\
  MultiDomainManager.getDomainsListPath Sample.pair
    = "/etc/autocert/certs/example.com_san/domains.txt" /\
  content <$> (files (snd (MultiDomainManager.Install Sample.pair
                             Sample.freshWorld))
               !! "/etc/autocert/certs/example.com_san/domains.txt")
    = Some (RawData ("example.com" ++ LF ++ "www.example.com")).
Proof. vm_compute. repeat split. Qed.

(** ** C2: renewal threshold *)

(** The key file and the certificate file a successful [Install] leaves,
    and what it leaves alone. *)
Lemma installed_files m w :
  files (installed m w) !! Manager.getKeyPath m
  = Some {| content :=
              PemData
                {| Type_ := "RSA PRIVATE KEY";
                   Bytes :=
                     DerPrivateKey {| key_bits := Manager.keySize m;
                                      key_draw := entropy w |} |};
            mode := 384 |} /\
  files (installed m w) !! Manager.getCertPath m
  = Some {| content :=
              PemData
                {| Type_ := "CERTIFICATE";
                   Bytes :=
                     DerCertificate
                       (issuedAt {| CommonName := Manager.domain m |}
                                 [Manager.domain m] w)
                       {| key_bits := 2048; key_draw := S (entropy w) |} |};
            mode := modeAfterCreate w (Manager.getCertPath m) 438 |} /\
  (forall path,
      path <> Manager.getKeyPath m -> path <> Manager.getCertPath m ->
      files (installed m w) !! path = files w !! path) /\
  (forall path, path ∈ dirs w -> path ∈ dirs (installed m w)).
Proof.
  pose proof (single_key_not_cert m) as Hne.
  unfold installed, modeAfterCreate. cbn [files dirs].
  split; [|split; [|split]].
  - rewrite lookup_insert_ne by congruence. apply lookup_insert_eq.
  - rewrite lookup_insert_eq. now rewrite lookup_insert_ne by exact Hne.
  - intros path Hk Hc. now rewrite !lookup_insert_ne by congruence.
  - intros path Hin. now apply elem_of_union_l.
Qed.

(** C2. Let the certificate file of the manager hold a readable, well-formed
    certificate, and let [now] be the clock reading [Renew] compares it
    with. If [NotAfter - now] exceeds 30 days, [Renew] returns success and
    only the clock position has moved: files, directories and the key
    counter are what they were. Otherwise [Renew] is the full [Install]
    run from the world [w'] after these readings. That run succeeds
    when [w'] is ready for it (for a manager with the key size
    [NewManager] gives it). Whenever it succeeds, it has replaced the
    two artifacts in place: the key file holds the key [Install] drew
    first in this run, with mode 0600; the certificate file holds the
    certificate issued from the clock of this run for the domain, signed
    with the second key drawn, and keeps the mode it had; every other
    file is what it was and no directory is gone. *)
Theorem Renew_threshold :
  forall (m : Manager.t) (w : World) (f : File) (blk : pem_Block)
         (cert : x509_Certificate),
    files w !! Manager.getCertPath m = Some f ->
    faults w (CallReadFile (Manager.getCertPath m)) = false ->
    pem_Decode (content f) = Some blk ->
    x509_ParseCertificate (Bytes blk) = Ok cert ->
    let now := clock w (S (reads w)) in
    let w' := set_reads (S (S (reads w))) w in
    (renewThreshold < NotAfter cert - now ->
     Manager.Renew m w = (Ok tt, w') /\
     files w' = files w /\ dirs w' = dirs w /\ entropy w' = entropy w) /\
    (NotAfter cert - now <= renewThreshold ->
     Manager.Renew m w = Manager.Install m w' /\
     (Manager.keySize m = 2048 -> InstallReady m w' ->
      Manager.Renew m w = (Ok tt, installed m w')) /\
     forall w2,
       Manager.Renew m w = (Ok tt, w2) ->
       files w2 !! Manager.getKeyPath m
       = Some {| content :=
                   PemData
                     {| Type_ := "RSA PRIVATE KEY";
                        Bytes :=
                          DerPrivateKey {| key_bits := Manager.keySize m;
                                           key_draw := entropy w |} |};
                 mode := 384 |} /\
       files w2 !! Manager.getCertPath m
       = Some {| content :=
                   PemData
                     {| Type_ := "CERTIFICATE";
                        Bytes :=
                          DerCertificate
                            (issuedAt {| CommonName := Manager.domain m |}
                                      [Manager.domain m] w')
                            {| key_bits := 2048;
                               key_draw := S (entropy w) |} |};
                 mode := mode f |} /\
       (forall path,
           path <> Manager.getKeyPath m -> path <> Manager.getCertPath m ->
           files w2 !! path = files w !! path) /\
       (forall path, path ∈ dirs w -> path ∈ dirs w2) /\
       entropy w2 = S (S (entropy w))).
Proof.
  intros m w f blk cert Hf Hr Hpem Hder now w'.
  assert (Hrenew : Manager.Renew m w =
                   if renewThreshold <? NotAfter cert - now then (Ok tt, w')
                   else Manager.Install m w').
  { unfold Manager.Renew, bind, wrap.
    rewrite (GetCertInfo_stored _ _ _ _ _ Hf Hr Hpem Hder).
    cbn [time_Now ExpiryDate]. rewrite Sub_over_threshold.
    subst now w'. unfold set_reads. cbn [clock reads].
    destruct (renewThreshold <? _); reflexivity. }
  split.
  - intros Hlong. apply Z.ltb_lt in Hlong. rewrite Hrenew, Hlong.
    repeat split.
  - intros Hshort. apply Z.ltb_ge in Hshort. rewrite Hrenew, Hshort.
    split; [reflexivity|]. split.
    + intros _ Hready. now apply Install_iff.
    + intros w2 [_ ->]%Install_iff.
      destruct (installed_files m w') as (Hkey & Hcert & Hother & Hdirs).
      unfold modeAfterCreate in Hcert.
      replace (files w' !! Manager.getCertPath m) with (Some f) in Hcert
        by (symmetry; exact Hf).
      repeat split; assumption.
Qed.

(** A renewal 61 days after the first installation: the stored
    certificate has 29 days left, and [Renew] replaces the key of the
    first run (drawn first) by the third key drawn and the certificate by
    one issued from the clock of the renewal, signed with the fourth. *)
Lemma Renew_threshold_witness :
  let w1 := snd (Manager.Install Sample.single Sample.agingWorld) in
  let w2 := snd (Manager.Renew Sample.single w1) in
  Manager.Renew Sample.single w1 = (Ok tt, w2) /\
  files w2 !! "/etc/autocert/certs/example.com/key.pem"
  = Some {| content :=
              PemData
                {| Type_ := "RSA PRIVATE KEY";
                   Bytes :=
                     DerPrivateKey {| key_bits := 2048; key_draw := 2 |} |};
            mode := 384 |} /\
  files w2 !! "/etc/autocert/certs/example.com/cert.pem"
  = Some {| content :=
              PemData
                {| Type_ := "CERTIFICATE";
                   Bytes :=
                     DerCertificate
                       {| Subject := {| CommonName := "example.com" |};
                          DNSNames := ["example.com"];
                          NotBefore := 1705270400000000000;
                          NotAfter := 1713046400000000000;
                          KeyUsage := 5;
                          ExtKeyUsage := [1] |}
                       {| key_bits := 2048; key_draw := 3 |} |};
            mode := 420 |}.
Proof.
  cbv zeta.
  assert (Hrun : Manager.Renew Sample.single
                   (snd (Manager.Install Sample.single Sample.agingWorld))
                 = (Ok tt,
                    snd (Manager.Renew Sample.single
                           (snd (Manager.Install Sample.single
                                   Sample.agingWorld)))))
    by (apply run_result; vm_compute; reflexivity).
  split; [exact Hrun|].
  pose proof (Renew_threshold
                Sample.single
                (snd (Manager.Install Sample.single Sample.agingWorld))
                {| content :=
                     PemData
                       {| Type_ := "CERTIFICATE";
                          Bytes :=
                            DerCertificate
                              (issuedAt {| CommonName := "example.com" |}
                                        ["example.com"] Sample.agingWorld)
                              {| key_bits := 2048; key_draw := 1 |} |};
                   mode := 420 |}
                _ _ ltac:(vm_compute; reflexivity) eq_refl eq_refl eq_refl)
    as [_ Hshort].
  destruct Hshort as (_ & _ & Hfiles); [vm_compute; discriminate|].
  destruct (Hfiles _ Hrun) as (Hkey & Hcert & _).
  split; [exact Hkey | exact Hcert].
Defined.

(* ===================================================================== *)
(** * Part III. Further properties of the code                            *)
(* ===================================================================== *)

(** ** What the calls keep *)

Lemma Keeps_ret {A B} (f : World -> B) (a : A) : Keeps f (ret a).
Proof. intros w. reflexivity. Qed.

Lemma Keeps_fail {A B} (f : World -> B) e : Keeps f (@fail A e).
Proof. intros w. reflexivity. Qed.

Lemma Keeps_bind {A B C} (f : World -> C) (c : M A) (k : A -> M B) :
  Keeps f c -> (forall a, Keeps f (k a)) -> Keeps f (bind c k).
Proof.
  intros Hc Hk w. unfold bind. specialize (Hc w).
  destruct (c w) as [[a|e] w1]; simpl in *; [|exact Hc].
  now rewrite Hk.
Qed.

Lemma Keeps_wrap {A B} (f : World -> B) msg (c : M A) :
  Keeps f c -> Keeps f (wrap msg c).
Proof.
  intros Hc w. unfold wrap. specialize (Hc w).
  destruct (c w) as [[a|e] w1]; exact Hc.
Qed.

Lemma Keeps_warnOnly {B} (f : World -> B) (c : M unit) :
  Keeps f c -> Keeps f (MultiDomainManager.warnOnly c).
Proof.
  intros Hc w. unfold MultiDomainManager.warnOnly. specialize (Hc w).
  destruct (c w) as [r w1]; exact Hc.
Qed.

Lemma Keeps_of {A B} (f : World -> B) (c : M A) w r w' :
  Keeps f c -> c w = (r, w') -> f w' = f w.
Proof. intros H Hrun. specialize (H w). now rewrite Hrun in H. Qed.

(** The file-system calls draw no randomness and read no clock. *)
Lemma MkdirAll_world path perm w :
  snd (OS.MkdirAll path perm w) = w \/
  exists made : list string,
    snd (OS.MkdirAll path perm w) = set_dirs (dirs w ∪ list_to_set made) w.
Proof.
  unfold OS.MkdirAll. destruct (String.eqb path ""); [now left|].
  destruct (faults w _); [now left|]. cbv zeta.
  destruct (find _ _); [now left|].
  destruct (OS.firstRefused _ _) as [[high errno]|]; right; eexists;
    reflexivity.
Qed.

Lemma openTrunc_world op c path perm w :
  snd (OS.openTrunc op c path perm w) = w \/
  exists f, snd (OS.openTrunc op c path perm w)
            = set_files (<[path := f]> (files w)) w.
Proof.
  unfold OS.openTrunc. destruct (faults w c); [now left|].
  destruct (OS.isDir w path); [now left|].
  destruct (_ || _); [now left|]. right. eexists. reflexivity.
Qed.

Lemma Write_world path data w :
  snd (OS.Write path data w) = w \/
  exists f, snd (OS.Write path data w)
            = set_files (<[path := f]> (files w)) w.
Proof.
  unfold OS.Write. destruct (faults w _); [now left|].
  destruct (files w !! path); [|now left]. right. eexists. reflexivity.
Qed.

Lemma Chmod_world path md w :
  snd (OS.Chmod path md w) = w \/
  exists f, snd (OS.Chmod path md w)
            = set_files (<[path := f]> (files w)) w.
Proof.
  unfold OS.Chmod. destruct (faults w _); [now left|].
  destruct (files w !! path).
  - right. eexists. reflexivity.
  - left. now destruct (OS.isDir w path).
Qed.

Ltac run_op :=
  repeat match goal with
    | |- context [if ?b then _ else _] => destruct b
    | |- context [match ?o with Some _ => _ | None => _ end] => destruct o
    end; try reflexivity.

Lemma Keeps_entropy_MkdirAll path perm : Keeps entropy (OS.MkdirAll path perm).
Proof.
  intros w. unfold OS.MkdirAll. run_op.
  match goal with
  | refusal : (string * Errno)%type |- _ => now destruct refusal
  end.
Qed.

Lemma Keeps_entropy_openTrunc op c path perm :
  Keeps entropy (OS.openTrunc op c path perm).
Proof. intros w. unfold OS.openTrunc. run_op. Qed.

Lemma Keeps_entropy_Write path data : Keeps entropy (OS.Write path data).
Proof. intros w. unfold OS.Write. run_op. Qed.

Lemma Keeps_entropy_Chmod path md : Keeps entropy (OS.Chmod path md).
Proof. intros w. unfold OS.Chmod. run_op. Qed.

Lemma Keeps_entropy_Now : Keeps entropy time_Now.
Proof. intros w. reflexivity. Qed.

(** The library calls leave the disk alone. *)
Lemma Keeps_files_GenerateKey bits : Keeps files (rsa_GenerateKey bits).
Proof. intros w. unfold rsa_GenerateKey. run_op. Qed.

Lemma Keeps_dirs_GenerateKey bits : Keeps dirs (rsa_GenerateKey bits).
Proof. intros w. unfold rsa_GenerateKey. run_op. Qed.

Lemma Keeps_files_Now : Keeps files time_Now.
Proof. intros w. reflexivity. Qed.

Lemma Keeps_dirs_Now : Keeps dirs time_Now.
Proof. intros w. reflexivity. Qed.

Lemma Keeps_CreateCertificateRequest {B} (f : World -> B) template priv :
  Keeps f (x509_CreateCertificateRequest template priv).
Proof. intros w. unfold x509_CreateCertificateRequest. run_op. Qed.

Lemma Keeps_CreateCertificate {B} (f : World -> B) template priv :
  Keeps f (x509_CreateCertificate template priv).
Proof. intros w. unfold x509_CreateCertificate. run_op. Qed.

(** Opening, writing and changing the mode of one file leave every other
    file and every directory as they are. *)
Lemma Keeps_file_openTrunc op c path perm path' :
  path' <> path ->
  Keeps (fun w => files w !! path') (OS.openTrunc op c path perm).
Proof. intros Hne w. now apply openTrunc_other. Qed.

Lemma Keeps_file_Write path data path' :
  path' <> path -> Keeps (fun w => files w !! path') (OS.Write path data).
Proof. intros Hne w. now apply Write_other. Qed.

Lemma Keeps_file_Chmod path md path' :
  path' <> path -> Keeps (fun w => files w !! path') (OS.Chmod path md).
Proof.
  intros Hne w. unfold OS.Chmod. run_op; cbn; now rewrite lookup_insert_ne.
Qed.

Lemma Keeps_dirs_openTrunc op c path perm :
  Keeps dirs (OS.openTrunc op c path perm).
Proof. intros w. unfold OS.openTrunc. run_op. Qed.

Lemma Keeps_dirs_Write path data : Keeps dirs (OS.Write path data).
Proof. intros w. unfold OS.Write. run_op. Qed.

Lemma Keeps_dirs_Chmod path md : Keeps dirs (OS.Chmod path md).
Proof. intros w. unfold OS.Chmod. run_op. Qed.

Lemma Keeps_files_MkdirAll path perm : Keeps files (OS.MkdirAll path perm).
Proof.
  intros w. unfold OS.MkdirAll. run_op.
  match goal with
  | refusal : (string * Errno)%type |- _ => now destruct refusal
  end.
Qed.

Lemma Keeps_lookup {A} (c : M A) path :
  Keeps files c -> Keeps (fun w => files w !! path) c.
Proof. intros H w. now rewrite H. Qed.

Create HintDb keeps.
#[local] Hint Resolve Keeps_entropy_MkdirAll Keeps_entropy_openTrunc
  Keeps_entropy_Write Keeps_entropy_Chmod Keeps_entropy_Now
  Keeps_files_GenerateKey Keeps_dirs_GenerateKey Keeps_files_Now
  Keeps_dirs_Now Keeps_CreateCertificateRequest Keeps_CreateCertificate
  Keeps_file_openTrunc Keeps_file_Write Keeps_file_Chmod
  Keeps_dirs_openTrunc Keeps_dirs_Write Keeps_dirs_Chmod
  Keeps_files_MkdirAll Keeps_ret Keeps_fail : keeps.

(** Composite computations: open the binds, then look each call up. *)
Ltac keeps :=
  repeat first
    [ apply Keeps_bind; [|intro]
    | apply Keeps_wrap
    | apply Keeps_warnOnly
    | solve [auto with keeps]
    | solve [apply Keeps_lookup; auto with keeps] ].

(** ** The key file of the single-domain manager *)

Lemma Chmod_Ok path md w w' :
  OS.Chmod path md w = (Ok tt, w') ->
  forall data md0,
    files w !! path = Some {| content := data; mode := md0 |} ->
    files w' !! path = Some {| content := data; mode := md |}.
Proof.
  unfold OS.Chmod. destruct (faults w _); [discriminate|].
  intros Hrun data md0 Hf. rewrite Hf in Hrun. injection Hrun as <-.
  cbn. now rewrite lookup_insert_eq.
Qed.

Lemma GenerateKey_Ok bits w key w' :
  rsa_GenerateKey bits w = (Ok key, w') ->
  key = {| key_bits := bits; key_draw := entropy w |} /\
  entropy w' = S (entropy w).
Proof.
  unfold rsa_GenerateKey. destruct (faults w _); [discriminate|].
  intros [= <- <-]. repeat split.
Qed.

(** The steps that store a key at [keyPath], shared by both managers. *)
Lemma storeKey_Ok bits keyPath w key w' :
  (let* privateKey := rsa_GenerateKey bits in
   OS.Create keyPath ;;;
   pem_Encode keyPath
     {| Type_ := "RSA PRIVATE KEY";
        Bytes := x509_MarshalPKCS1PrivateKey privateKey |} ;;;
   OS.Chmod keyPath 384 ;;;
   ret privateKey) w = (Ok key, w') ->
  key = {| key_bits := bits; key_draw := entropy w |} /\
  files w' !! keyPath
  = Some {| content := PemData {| Type_ := "RSA PRIVATE KEY";
                                  Bytes := DerPrivateKey key |};
            mode := 384 |} /\
  entropy w' = S (entropy w).
Proof.
  intros (k & w1 & Hgen & H)%bind_Ok.
  apply bind_Ok in H as ([] & w2 & Hcreate & H).
  apply bind_Ok in H as ([] & w3 & Hwrite & H).
  apply bind_Ok in H as ([] & w4 & Hchmod & Hret).
  injection Hret as <- <-.
  apply GenerateKey_Ok in Hgen as (-> & Hgen).
  pose proof (Keeps_of entropy _ _ _ _
                (Keeps_entropy_openTrunc _ _ _ _) Hcreate) as E2.
  pose proof (Keeps_of entropy _ _ _ _ (Keeps_entropy_Write _ _) Hwrite)
    as E3.
  pose proof (Keeps_of entropy _ _ _ _ (Keeps_entropy_Chmod _ _) Hchmod)
    as E4.
  apply Write_Ok in Hwrite as (md & Hmd & _).
  split; [reflexivity|]. split; [|congruence].
  exact (Chmod_Ok _ _ _ _ Hchmod _ _ Hmd).
Qed.

Lemma Keeps_entropy_createCertDir m : Keeps entropy (Manager.createCertDir m).
Proof. unfold Manager.createCertDir. keeps. Qed.

Lemma Keeps_createCSR {B} (f : World -> B) m key :
  Keeps f (Manager.createCSR m key).
Proof. unfold Manager.createCSR. keeps. Qed.

Lemma Keeps_entropy_saveCertificate m der key :
  Keeps entropy (Manager.saveCertificate m der key).
Proof. unfold Manager.saveCertificate, OS.Create, pem_Encode. keeps. Qed.

Lemma Keeps_key_saveCertificate m der key :
  Keeps (fun w => files w !! Manager.getKeyPath m)
    (Manager.saveCertificate m der key).
Proof.
  pose proof (single_key_not_cert m).
  unfold Manager.saveCertificate, OS.Create, pem_Encode. keeps.
Qed.

Lemma Keeps_files_generateSelfSignedCert m csr :
  Keeps files (Manager.generateSelfSignedCert m csr).
Proof.
  unfold Manager.generateSelfSignedCert.
  destruct (x509_ParseCertificateRequest csr); keeps.
Qed.

Lemma Keeps_files_obtainCertificate m csr :
  Keeps files (Manager.obtainCertificate m csr).
Proof.
  unfold Manager.obtainCertificate, Manager.obtainCertificateWebroot,
    Manager.obtainCertificateStandalone, Manager.obtainCertificateDNS.
  repeat destruct (_ =? _); try apply Keeps_files_generateSelfSignedCert.
  apply Keeps_fail.
Qed.

(** X1. After a successful [Install] the key file holds, PEM-encoded and
    with mode 0600, the key of the configured size that was drawn first,
    while the certificate file holds a certificate made with the 2048-bit
    key drawn second: the stored certificate does not belong to the
    stored key. *)
Theorem Install_key_and_certificate :
  forall (m : Manager.t) (w w' : World),
    Manager.Install m w = (Ok tt, w') ->
    files w' !! Manager.getKeyPath m
    = Some {| content :=
                PemData
                  {| Type_ := "RSA PRIVATE KEY";
                     Bytes := DerPrivateKey
                                {| key_bits := Manager.keySize m;
                                   key_draw := entropy w |} |};
              mode := 384 |} /\
    (exists md cert,
        files w' !! Manager.getCertPath m
        = Some {| content :=
                    PemData
                      {| Type_ := "CERTIFICATE";
                         Bytes := DerCertificate cert
                                    {| key_bits := 2048;
                                       key_draw := S (entropy w) |} |};
                  mode := md |}) /\
    entropy w' = S (S (entropy w)).
Proof.
  intros m w w' (w1 & key & w2 & csr & w3 & der & w4 & w5 &
                 H1 & H2 & H3 & H4 & H5 & H6)%Install_stages.
  pose proof (Keeps_of _ _ _ _ _ (Keeps_entropy_createCertDir m) H1) as E1.
  apply storeKey_Ok in H2 as (-> & Hkey & E2).
  pose proof (Keeps_of _ _ _ _ _ (Keeps_createCSR entropy m _) H3) as E3.
  pose proof (Keeps_of _ _ _ _ _ (Keeps_createCSR files m _) H3) as F3.
  pose proof (createCSR_Ok _ _ _ _ _ H3) as ->.
  pose proof (Keeps_of _ _ _ _ _ (Keeps_files_obtainCertificate m _) H4)
    as F4.
  apply obtainCertificate_Ok in H4 as [-> ->].
  pose proof (Keeps_of _ _ _ _ _ (Keeps_key_saveCertificate m _ _) H5)
    as K5.
  pose proof (Keeps_of _ _ _ _ _ (Keeps_entropy_saveCertificate m _ _) H5)
    as E5.
  apply saveCertificate_Ok in H5 as [md Hmd].
  apply configureWebServer_world in H6 as ->.
  cbn in *. split; [|split].
  - rewrite K5, F3, <- E1. exact Hkey.
  - exists md. eexists. rewrite Hmd, E3, E2, E1. reflexivity.
  - congruence.
Qed.

Lemma Install_key_and_certificate_witness :
  files (snd (Manager.Install Sample.single Sample.freshWorld))
    !! Manager.getKeyPath Sample.single
  = Some {| content :=
              PemData
                {| Type_ := "RSA PRIVATE KEY";
                   Bytes := DerPrivateKey
                              {| key_bits := 2048; key_draw := 0 |} |};
            mode := 384 |} /\
  (exists md cert,
      files (snd (Manager.Install Sample.single Sample.freshWorld))
        !! Manager.getCertPath Sample.single
      = Some {| content :=
                  PemData
                    {| Type_ := "CERTIFICATE";
                       Bytes := DerCertificate cert
                                  {| key_bits := 2048; key_draw := 1 |} |};
                mode := md |}) /\
  entropy (snd (Manager.Install Sample.single Sample.freshWorld)) = 2%nat.
Proof.
  apply (Install_key_and_certificate Sample.single Sample.freshWorld).
  apply run_result. vm_compute. reflexivity.
Defined.

(** X2. [Install] undoes nothing: when it fails at a stage after the key
    stage (request, obtain, persist or web server), the key generated by
    this run stays in the key file, with mode 0600. *)
Theorem Install_failure_keeps_key :
  forall (m : Manager.t) (w : World) (msg : string) (inner : error)
         (w' : World),
    Manager.Install m w = (Err (wrapError msg inner), w') ->
    msg <> "创建证书目录失败" ->
    msg <> "生成私钥失败" ->
    files w' !! Manager.getKeyPath m
    = Some {| content :=
                PemData
                  {| Type_ := "RSA PRIVATE KEY";
                     Bytes := DerPrivateKey
                                {| key_bits := Manager.keySize m;
                                   key_draw := entropy w |} |};
              mode := 384 |}.
Proof.
  intros m w msg inner w' Hrun Hdir Hkey.
  pose proof (Manager_Install_outcome m w) as Hout. rewrite Hrun in Hout.
  assert (Hstored : forall w1 key w2,
             Manager.createCertDir m w = (Ok tt, w1) ->
             Manager.generatePrivateKey m w1 = (Ok key, w2) ->
             key = {| key_bits := Manager.keySize m;
                      key_draw := entropy w |} /\
             files w2 !! Manager.getKeyPath m
             = Some {| content :=
                         PemData {| Type_ := "RSA PRIVATE KEY";
                                    Bytes := DerPrivateKey key |};
                       mode := 384 |}).
  { intros w1 key w2 H1 H2.
    pose proof (Keeps_of _ _ _ _ _ (Keeps_entropy_createCertDir m) H1) as E1.
    apply storeKey_Ok in H2 as (-> & Hfile & _). rewrite E1 in *.
    now split. }
  inversion Hout as
    [ i0 w0 H1 | w1 i0 w0 H1 H2 | w1 key w2 i0 w0 H1 H2 H3
    | w1 key w2 csr w3 i0 w0 H1 H2 H3 H4
    | w1 key w2 csr w3 der w4 i0 w0 H1 H2 H3 H4 H5
    | w1 key w2 csr w3 der w4 w5 i0 w0 H1 H2 H3 H4 H5 H6 | ]; subst;
    try contradiction;
    destruct (Hstored _ _ _ H1 H2) as [-> Hfile].
  - pose proof (Keeps_of _ _ _ _ _ (Keeps_createCSR files m _) H3) as F3.
    now rewrite F3.
  - pose proof (Keeps_of _ _ _ _ _ (Keeps_createCSR files m _) H3) as F3.
    pose proof (Keeps_of _ _ _ _ _ (Keeps_files_obtainCertificate m _) H4)
      as F4.
    now rewrite F4, F3.
  - pose proof (Keeps_of _ _ _ _ _ (Keeps_createCSR files m _) H3) as F3.
    pose proof (Keeps_of _ _ _ _ _ (Keeps_files_obtainCertificate m _) H4)
      as F4.
    pose proof (Keeps_of _ _ _ _ _ (Keeps_key_saveCertificate m _ _) H5)
      as K5.
    cbv beta in K5. now rewrite K5, F4, F3.
  - pose proof (Keeps_of _ _ _ _ _ (Keeps_createCSR files m _) H3) as F3.
    pose proof (Keeps_of _ _ _ _ _ (Keeps_files_obtainCertificate m _) H4)
      as F4.
    pose proof (Keeps_of _ _ _ _ _ (Keeps_key_saveCertificate m _ _) H5)
      as K5.
    apply configureWebServer_world in H6 as ->.
    cbv beta in K5. now rewrite K5, F4, F3.
Qed.

Lemma Install_failure_keeps_key_witness :
  files (snd (Manager.Install Sample.single Scenario.noRequests))
    !! Manager.getKeyPath Sample.single
  = Some {| content :=
              PemData
                {| Type_ := "RSA PRIVATE KEY";
                   Bytes := DerPrivateKey
                              {| key_bits := 2048; key_draw := 0 |} |};
            mode := 384 |}.
Proof.
  refine (Install_failure_keeps_key Sample.single Scenario.noRequests
            "创建 CSR 失败"
            (libError "x509: cannot create certificate request") _ _ _ _).
  - apply run_result. vm_compute. reflexivity.
  - discriminate.
  - discriminate.
Defined.

(** ** The single-domain manager and the challenge type *)

(** X3. The single-domain [Install] does not look at the challenge: with
    any two of the three supported challenge types, and any webroot path,
    it behaves the same on every world. In particular it has no wildcard
    guard of its own. *)
Theorem Install_ignores_challenge :
  forall (m : Manager.t) (c : Z) (path : string) (w : World),
    supportedChallenge (Manager.challengeType m) = true ->
    supportedChallenge c = true ->
    Manager.Install
      (Manager.SetWebrootPath (Manager.SetChallengeType m c) path) w
    = Manager.Install m w.
Proof.
  intros m c path w Hm Hc.
  unfold Manager.Install.
  assert (Hobtain : forall csr,
             Manager.obtainCertificate
               (Manager.SetWebrootPath (Manager.SetChallengeType m c) path)
               csr
             = Manager.obtainCertificate m csr).
  { intros csr. rewrite !obtainCertificate_supported by assumption.
    reflexivity. }
  unfold bind.
  change (Manager.createCertDir
            (Manager.SetWebrootPath (Manager.SetChallengeType m c) path))
    with (Manager.createCertDir m).
  destruct (wrap _ (Manager.createCertDir m) w) as [[[]|e] w1];
    [|reflexivity].
  change (Manager.generatePrivateKey
            (Manager.SetWebrootPath (Manager.SetChallengeType m c) path))
    with (Manager.generatePrivateKey m).
  destruct (wrap _ (Manager.generatePrivateKey m) w1) as [[key|e] w2];
    [|reflexivity].
  change (Manager.createCSR
            (Manager.SetWebrootPath (Manager.SetChallengeType m c) path))
    with (Manager.createCSR m).
  destruct (wrap _ (Manager.createCSR m key) w2) as [[csr|e] w3];
    [|reflexivity].
  rewrite Hobtain.
  destruct (wrap _ (Manager.obtainCertificate m csr) w3) as [[der|e] w4];
    reflexivity.
Qed.

Lemma Install_ignores_challenge_witness :
  Manager.Install
    (Manager.SetWebrootPath
       (Manager.SetChallengeType Sample.single ChallengeDNS) "/var/www")
    Sample.freshWorld
  = Manager.Install Sample.single Sample.freshWorld.
Proof.
  apply Install_ignores_challenge; reflexivity.
Defined.

(** ** Renewal needs a stored certificate *)

Lemma GetCertInfo_unreadable m w :
  storedCertificate (Manager.getCertPath m) w = None ->
  exists e, Manager.GetCertInfo m w = (Err e, w).
Proof.
  unfold storedCertificate, Manager.GetCertInfo. cbv zeta.
  generalize (Manager.getCertPath m) as cp. intros cp Hnone.
  assert (Hread : exists e,
             (let* certData := wrap "读取证书文件失败" (OS.ReadFile cp) in
              match pem_Decode certData with
              | None => fail (errorString "无法解析证书文件")
              | Some block =>
                  match x509_ParseCertificate (Bytes block) with
                  | Err err => fail (wrapError "解析证书失败" err)
                  | Ok cert =>
                      let* now := time_Now in
                      ret {| Domain := Manager.domain m;
                             CertPath := cp;
                             KeyPath := Manager.getKeyPath m;
                             ChainPath := Manager.getChainPath m;
                             ExpiryDate := NotAfter cert;
                             IsValid := Time.Before now (NotAfter cert) |}
                  end
              end) w = (Err e, w)).
  { unfold bind, wrap, OS.ReadFile.
    destruct (faults w (CallReadFile cp)); [eexists; reflexivity|].
    destruct (files w !! cp) as [f|];
      [|destruct (OS.isDir w cp); eexists; reflexivity].
    destruct (pem_Decode (content f)) as [blk|]; [|eexists; reflexivity].
    destruct (x509_ParseCertificate (Bytes blk)); [discriminate|].
    eexists; reflexivity. }
  unfold OS.Stat.
  destruct (faults w (CallStat cp)); [exact Hread|].
  destruct (OS.isFile w cp || OS.isDir w cp); [exact Hread|].
  destruct (OS.missing w cp); first [exact Hread | eexists; reflexivity].
Qed.

(** X4. [Renew] never installs for a domain without a readable stored
    certificate (no file, not PEM, or not a certificate): it fails with
    the error of [GetCertInfo] under its own message and leaves the
    world, clock included, exactly as it was. *)
Theorem Renew_needs_stored_certificate :
  forall (m : Manager.t) (w : World),
    storedCertificate (Manager.getCertPath m) w = None ->
    exists e,
      Manager.GetCertInfo m w = (Err e, w) /\
      Manager.Renew m w = (Err (wrapError "获取证书信息失败" e), w).
Proof.
  intros m w Hnone.
  destruct (GetCertInfo_unreadable m w Hnone) as [e He].
  exists e. split; [exact He|].
  unfold Manager.Renew. now rewrite (bind_wrap_Err _ _ _ _ _ _ He).
Qed.

Lemma Renew_needs_stored_certificate_witness :
  exists e,
    Manager.GetCertInfo Sample.single Scenario.keyInPlace
    = (Err e, Scenario.keyInPlace) /\
    Manager.Renew Sample.single Scenario.keyInPlace
    = (Err (wrapError "获取证书信息失败" e), Scenario.keyInPlace).
Proof.
  apply Renew_needs_stored_certificate. vm_compute. reflexivity.
Defined.

(** ** The multi-domain manager: what a successful run stores *)

Ltac framed :=
  repeat first
    [ apply Framed_bind; [|intro]
    | apply Framed_wrap
    | apply Framed_ret
    | apply Framed_fail
    | apply Framed_MkdirAll
    | apply Framed_openTrunc
    | apply Framed_Write
    | apply Framed_Chmod
    | apply Framed_GenerateKey
    | apply Framed_CreateCertificateRequest ].

Lemma Framed_warnOnly (c : M unit) :
  Framed c -> Framed (MultiDomainManager.warnOnly c).
Proof.
  intros Hc w. unfold MultiDomainManager.warnOnly. specialize (Hc w).
  destruct (c w) as [r w1]; exact Hc.
Qed.

Lemma Framed_multi_createCertDir m :
  Framed (MultiDomainManager.createCertDir m).
Proof. unfold MultiDomainManager.createCertDir. framed. Qed.

Lemma Framed_multi_generatePrivateKey m :
  Framed (MultiDomainManager.generatePrivateKey m).
Proof.
  unfold MultiDomainManager.generatePrivateKey, OS.Create, pem_Encode.
  framed.
Qed.

Lemma Framed_createMultiDomainCSR m key :
  Framed (MultiDomainManager.createMultiDomainCSR m key).
Proof. unfold MultiDomainManager.createMultiDomainCSR. framed. Qed.

Lemma Keeps_entropy_multi_createCertDir m :
  Keeps entropy (MultiDomainManager.createCertDir m).
Proof. unfold MultiDomainManager.createCertDir. keeps. Qed.

Lemma Keeps_createMultiDomainCSR {B} (f : World -> B) m key :
  Keeps f (MultiDomainManager.createMultiDomainCSR m key).
Proof. unfold MultiDomainManager.createMultiDomainCSR. keeps. Qed.

Lemma multi_key_not_cert m :
  MultiDomainManager.getKeyPath m <> MultiDomainManager.getCertPath m.
Proof.
  destruct (multi_paths m) as (p & _ & -> & -> & _).
  intros H. apply String.app_inj in H. discriminate.
Qed.

Lemma multi_key_not_list m :
  MultiDomainManager.getKeyPath m <> MultiDomainManager.getDomainsListPath m.
Proof.
  destruct (multi_paths m) as (p & _ & _ & -> & _ & -> & _).
  intros H. apply String.app_inj in H. discriminate.
Qed.

Lemma Keeps_key_multi_saveCertificate m der key :
  Keeps (fun w => files w !! MultiDomainManager.getKeyPath m)
    (MultiDomainManager.saveCertificate m der key).
Proof.
  pose proof (multi_key_not_cert m). pose proof (multi_key_not_list m).
  unfold MultiDomainManager.saveCertificate, OS.WriteFile, OS.Create,
    pem_Encode. keeps.
Qed.

Lemma Keeps_files_generateMultiDomainSelfSignedCert m csr :
  Keeps files (MultiDomainManager.generateMultiDomainSelfSignedCert m csr).
Proof.
  unfold MultiDomainManager.generateMultiDomainSelfSignedCert.
  destruct (x509_ParseCertificateRequest csr); keeps.
Qed.

Lemma Keeps_files_multi_obtainCertificate m csr :
  Keeps files (MultiDomainManager.obtainCertificate m csr).
Proof.
  unfold MultiDomainManager.obtainCertificate,
    MultiDomainManager.obtainCertificateWebroot,
    MultiDomainManager.obtainCertificateStandalone,
    MultiDomainManager.obtainCertificateDNS.
  repeat destruct (_ =? _);
    try destruct (MultiDomainManager.hasWildcardDomain m);
    try apply Keeps_files_generateMultiDomainSelfSignedCert;
    apply Keeps_fail.
Qed.

(** The stub of the multi-domain manager is the stub of the single-domain
    one: neither looks at its manager. *)
Lemma generateMultiDomainSelfSignedCert_Ok m req signer w der w' :
  MultiDomainManager.generateMultiDomainSelfSignedCert m
    (DerRequest req signer) w = (Ok der, w') ->
  der = DerCertificate (issuedAt (csr_Subject req) (csr_DNSNames req) w)
          {| key_bits := 2048; key_draw := entropy w |} /\
  w' = set_entropy (S (entropy w)) (set_reads (S (S (reads w))) w).
Proof.
  exact (generateSelfSignedCert_Ok
           (Manager.NewManager None "" "") req signer w der w').
Qed.

Lemma multi_obtainCertificate_Ok m req signer w der w' :
  MultiDomainManager.obtainCertificate m (DerRequest req signer) w
  = (Ok der, w') ->
  der = DerCertificate (issuedAt (csr_Subject req) (csr_DNSNames req) w)
          {| key_bits := 2048; key_draw := entropy w |} /\
  w' = set_entropy (S (entropy w)) (set_reads (S (S (reads w))) w).
Proof.
  unfold MultiDomainManager.obtainCertificate,
    MultiDomainManager.obtainCertificateWebroot,
    MultiDomainManager.obtainCertificateStandalone,
    MultiDomainManager.obtainCertificateDNS.
  repeat destruct (_ =? _);
    try destruct (MultiDomainManager.hasWildcardDomain m);
    try apply generateMultiDomainSelfSignedCert_Ok; discriminate.
Qed.

Lemma createMultiDomainCSR_Ok m key w csr w' :
  MultiDomainManager.createMultiDomainCSR m key w = (Ok csr, w') ->
  csr = DerRequest
          {| csr_Subject :=
               {| CommonName := MultiDomainManager.primaryDomain m |};
             csr_DNSNames := MultiDomainManager.domains m |} key.
Proof.
  unfold MultiDomainManager.createMultiDomainCSR.
  intros (der & w1 & (_ & _ & -> & ->)%CreateCertificateRequest_iff
          & [= <- _])%bind_Ok.
  reflexivity.
Qed.

(** The stages of a successful multi-domain run. *)
Lemma multi_Install_stages m w w' :
  MultiDomainManager.Install m w = (Ok tt, w') ->
  MultiDomainManager.hasWildcardDomain m
  && negb (MultiDomainManager.challengeType m =? ChallengeDNS) = false /\
  exists w1 key w2 csr w3 der w4 w5,
    MultiDomainManager.createCertDir m w = (Ok tt, w1) /\
    MultiDomainManager.generatePrivateKey m w1 = (Ok key, w2) /\
    MultiDomainManager.createMultiDomainCSR m key w2 = (Ok csr, w3) /\
    MultiDomainManager.obtainCertificate m csr w3 = (Ok der, w4) /\
    MultiDomainManager.saveCertificate m der key w4 = (Ok tt, w5) /\
    MultiDomainManager.configureWebServers m w5 = (Ok tt, w').
Proof.
  intros Hrun. pose proof (Multi_Install_outcome m w) as Hout.
  rewrite Hrun in Hout.
  inversion Hout as
    [ | | | | | | |w1 key w2 csr w3 der w4 w5 w0 Hg H1 H2 H3 H4 H5 H6];
    subst.
  split; [exact Hg|]. exists w1, key, w2, csr, w3, der, w4, w5. tauto.
Qed.

(** The certificate file after a successful multi-domain run. *)
Lemma multi_Install_Ok m w w' :
  MultiDomainManager.Install m w = (Ok tt, w') ->
  exists md signer,
    files w' !! MultiDomainManager.getCertPath m
    = Some {| content :=
                PemData
                  {| Type_ := "CERTIFICATE";
                     Bytes :=
                       DerCertificate
                         (issuedAt
                            {| CommonName :=
                                 MultiDomainManager.primaryDomain m |}
                            (MultiDomainManager.domains m) w)
                         signer |};
              mode := md |}.
Proof.
  intros (_ & w1 & key & w2 & csr & w3 & der & w4 & w5 &
          H1 & H2 & H3 & H4 & H5 & H6)%multi_Install_stages.
  pose proof (frame_of _ _ _ _ (Framed_multi_createCertDir m) H1) as F1.
  pose proof (frame_of _ _ _ _ (Framed_multi_generatePrivateKey m) H2) as F2.
  pose proof (frame_of _ _ _ _ (Framed_createMultiDomainCSR m key) H3) as F3.
  pose proof (frame_trans _ _ _ F1 (frame_trans _ _ _ F2 F3))
    as (Hc & Hr & _).
  pose proof (createMultiDomainCSR_Ok _ _ _ _ _ H3) as ->.
  apply multi_obtainCertificate_Ok in H4 as [-> ->].
  apply multi_saveCertificate_Ok in H5 as [md Hmd].
  apply configureWebServers_world in H6 as ->.
  exists md. eexists. rewrite Hmd. unfold issuedAt.
  cbn [csr_Subject csr_DNSNames]. now rewrite Hc, Hr.
Qed.

(** X5. After a successful multi-domain [Install] the certificate file
    holds one certificate whose common name is the primary domain and
    whose names are all the domains, in order, valid from the first
    clock reading of the run until 90 days after the second; the key
    file holds the key drawn first, with mode 0600, and the certificate
    is made with the key drawn after it; a wildcard set got here only
    under the DNS challenge. *)
Theorem Multi_Install_stores :
  forall (m : MultiDomainManager.t) (w w' : World),
    MultiDomainManager.Install m w = (Ok tt, w') ->
    (exists md,
        files w' !! MultiDomainManager.getCertPath m
        = Some {| content :=
                    PemData
                      {| Type_ := "CERTIFICATE";
                         Bytes :=
                           DerCertificate
                             (issuedAt
                                {| CommonName :=
                                     MultiDomainManager.primaryDomain m |}
                                (MultiDomainManager.domains m) w)
                             {| key_bits := 2048;
                                key_draw := S (entropy w) |} |};
                  mode := md |}) /\
    files w' !! MultiDomainManager.getKeyPath m
    = Some {| content :=
                PemData
                  {| Type_ := "RSA PRIVATE KEY";
                     Bytes := DerPrivateKey
                                {| key_bits := MultiDomainManager.keySize m;
                                   key_draw := entropy w |} |};
              mode := 384 |} /\
    (MultiDomainManager.hasWildcardDomain m = true ->
     MultiDomainManager.challengeType m = ChallengeDNS).
Proof.
  intros m w w' (Hguard & w1 & key & w2 & csr & w3 & der & w4 & w5 &
                 H1 & H2 & H3 & H4 & H5 & H6)%multi_Install_stages.
  pose proof (frame_of _ _ _ _ (Framed_multi_createCertDir m) H1) as F1.
  pose proof (frame_of _ _ _ _ (Framed_multi_generatePrivateKey m) H2) as F2.
  pose proof (frame_of _ _ _ _ (Framed_createMultiDomainCSR m key) H3) as F3.
  pose proof (frame_trans _ _ _ F1 (frame_trans _ _ _ F2 F3))
    as (Hc & Hr & _).
  pose proof (Keeps_of _ _ _ _ _ (Keeps_entropy_multi_createCertDir m) H1)
    as E1.
  apply storeKey_Ok in H2 as (-> & Hkey & E2).
  pose proof (Keeps_of _ _ _ _ _ (Keeps_createMultiDomainCSR entropy m _) H3)
    as E3.
  pose proof (Keeps_of _ _ _ _ _ (Keeps_createMultiDomainCSR files m _) H3)
    as K3.
  pose proof (createMultiDomainCSR_Ok _ _ _ _ _ H3) as ->.
  pose proof (Keeps_of _ _ _ _ _ (Keeps_files_multi_obtainCertificate m _) H4)
    as K4.
  apply multi_obtainCertificate_Ok in H4 as [-> ->].
  pose proof (Keeps_of _ _ _ _ _ (Keeps_key_multi_saveCertificate m _ _) H5)
    as K5.
  apply multi_saveCertificate_Ok in H5 as [md Hmd].
  apply configureWebServers_world in H6 as ->.
  cbv beta in K5. split; [|split].
  - exists md. rewrite Hmd, E3, E2, E1. unfold issuedAt.
    cbn [csr_Subject csr_DNSNames]. now rewrite Hc, Hr.
  - rewrite K5, K4, K3, <- E1. exact Hkey.
  - intros Hw. rewrite Hw in Hguard. cbn in Hguard.
    apply negb_false_iff, Z.eqb_eq in Hguard. exact Hguard.
Qed.

Lemma Multi_Install_stores_witness :
  exists md der,
    files (snd (MultiDomainManager.Install Sample.pair Sample.freshWorld))
      !! MultiDomainManager.getCertPath Sample.pair
    = Some {| content := PemData {| Type_ := "CERTIFICATE"; Bytes := der |};
              mode := md |}.
Proof.
  destruct (Multi_Install_stores Sample.pair Sample.freshWorld
              (snd (MultiDomainManager.Install Sample.pair
                      Sample.freshWorld)))
    as ([md Hmd] & _).
  - apply run_result. vm_compute. reflexivity.
  - exists md. eexists. exact Hmd.
Defined.

(** ** The multi-domain manager: errors that cannot occur *)

Lemma generateMultiDomainSelfSignedCert_Err m req signer w e w' :
  MultiDomainManager.generateMultiDomainSelfSignedCert m
    (DerRequest req signer) w = (Err e, w') ->
  exists text, e = libError text.
Proof.
  unfold MultiDomainManager.generateMultiDomainSelfSignedCert.
  cbn [x509_ParseCertificateRequest].
  unfold bind, time_Now, ret.
  destruct (rsa_GenerateKey 2048 _) as [[k|e1] w1] eqn:Hg.
  - destruct (x509_CreateCertificate _ _ w1) as [[c|e2] w2] eqn:Hc;
      [discriminate|].
    intros [= <- _]. revert Hc. unfold x509_CreateCertificate.
    repeat match goal with
           | |- context [if ?b then _ else _] => destruct b
           end;
      first [discriminate | intros [= <- _]; eexists; reflexivity].
  - intros [= <- _]. revert Hg. unfold rsa_GenerateKey.
    destruct (faults _ _); [|discriminate].
    intros [= <- _]. eexists; reflexivity.
Qed.

(** X6. The wildcard checks inside the Webroot and Standalone obtain
    stages are dead under [Install]: a failure of the obtain stage is a
    failure of the crypto library or an unsupported challenge type,
    never one of their two messages. *)
Theorem Install_obtain_errors :
  forall (m : MultiDomainManager.t) (w : World) (inner : error)
         (w' : World),
    MultiDomainManager.Install m w
    = (Err (wrapError "获取证书失败" inner), w') ->
    (exists text, inner = libError text) \/
    (supportedChallenge (MultiDomainManager.challengeType m) = false /\
     inner = errorString
               ("不支持的验证模式: "
                ++ pretty (MultiDomainManager.challengeType m))).
Proof.
  intros m w inner w' Hrun.
  pose proof (Multi_Install_outcome m w) as Hout. rewrite Hrun in Hout.
  inversion Hout as
    [ | | | |w1 key w2 csr w3 i0 w0 Hg H1 H2 H3 H4| | | ]; subst.
  pose proof (createMultiDomainCSR_Ok _ _ _ _ _ H3) as ->.
  revert H4 Hg.
  unfold MultiDomainManager.obtainCertificate,
    MultiDomainManager.obtainCertificateWebroot,
    MultiDomainManager.obtainCertificateStandalone,
    MultiDomainManager.obtainCertificateDNS, supportedChallenge.
  destruct (MultiDomainManager.challengeType m =? ChallengeWebroot) eqn:HW;
    destruct (MultiDomainManager.challengeType m =? ChallengeStandalone)
      eqn:HS;
    destruct (MultiDomainManager.challengeType m =? ChallengeDNS) eqn:HD;
    destruct (MultiDomainManager.hasWildcardDomain m);
    cbn [andb negb orb]; intros H4 Hg; try discriminate;
    first [ apply generateMultiDomainSelfSignedCert_Err in H4; now left
          | injection H4 as <- _; right; split; reflexivity
          | apply Z.eqb_eq in HD; rewrite HD in HW, HS; discriminate ].
Qed.

Lemma Install_obtain_errors_witness :
  (exists text, libError "x509: cannot create certificate" = libError text)
  \/ (supportedChallenge (MultiDomainManager.challengeType Sample.pair)
      = false /\
      libError "x509: cannot create certificate"
      = errorString
          ("不支持的验证模式: "
           ++ pretty (MultiDomainManager.challengeType Sample.pair))).
Proof.
  refine (Install_obtain_errors Sample.pair Scenario.noCertificates
            (libError "x509: cannot create certificate")
            (snd (MultiDomainManager.Install Sample.pair
                    Scenario.noCertificates)) _).
  apply run_result. vm_compute. reflexivity.
Defined.

(** ** The install command: reading the domain flags *)

Lemma splitByte_length c s :
  length (GoStrings.splitByte c s) = S (GoStrings.countByte c s).
Proof.
  induction s as [|a s IH]; [reflexivity|].
  cbn [GoStrings.splitByte GoStrings.countByte].
  destruct (Ascii.eqb a c); cbn [length]; [now rewrite IH|].
  destruct (GoStrings.splitByte c s); [discriminate|]. exact IH.
Qed.

(** X8. What [parseDomains] returns: with [--domains] set, one trimmed
    entry per comma-separated piece, in order and with duplicates kept,
    so one more entry than there are commas, and [--domain] is ignored;
    otherwise the trimmed [--domain] alone; never the empty list, and
    every entry is non-empty and passes [validateDomainName]. With both
    flags empty it fails. *)
Theorem parseDomains_shape :
  forall fl : Cmd.Flags,
    (forall ds,
        Cmd.parseDomains fl = Ok ds ->
        ds = (if String.eqb (Cmd.domains fl) "" then
                [GoStrings.TrimSpace (Cmd.domain fl)]
              else map GoStrings.TrimSpace
                     (GoStrings.splitByte ","%char (Cmd.domains fl))) /\
        length ds
        = (if String.eqb (Cmd.domains fl) "" then 1%nat
           else S (GoStrings.countByte ","%char (Cmd.domains fl))) /\
        ds <> [] /\
        Forall (fun d => d <> "" /\ Cmd.validateDomainName d = None) ds) /\
    (Cmd.domains fl = "" -> Cmd.domain fl = "" ->
     Cmd.parseDomains fl
     = Err (errorString "必须指定 --domain 或 --domains 参数")).
Proof.
  intros fl. split.
  - intros ds Hparse.
    pose proof (parseDomains_Ok fl ds Hparse) as Hall.
    revert Hparse. unfold Cmd.parseDomains.
    destruct (String.eqb (Cmd.domains fl) "") eqn:Hlist; cbn [negb].
    + destruct (negb (String.eqb (Cmd.domain fl) "")); [|discriminate].
      destruct (Cmd.validateEach _); [discriminate|].
      intros [= <-]. repeat split; [discriminate | exact Hall].
    + destruct (Cmd.validateEach _); [discriminate|].
      intros [= <-].
      split; [reflexivity|]. split; [|split; [|exact Hall]].
      * now rewrite length_map, splitByte_length.
      * intros Hnil. apply (f_equal (@length string)) in Hnil.
        rewrite length_map, splitByte_length in Hnil. discriminate.
  - intros Hlist Hone. unfold Cmd.parseDomains.
    now rewrite Hlist, Hone.
Qed.

(** ** The install command: which names pass *)

(** X9. [validateDomainName] accepts exactly the names that are not
    empty, hold no space (U+0020) and, when they start with [*.], are at
    least four bytes long and hold no further star. *)
Theorem validateDomainName_accepts :
  forall d : string,
    Cmd.validateDomainName d = None <->
    d <> "" /\
    GoStrings.Contains d " " = false /\
    (GoStrings.HasPrefix d "*." = true ->
     (4 <= String.length d)%nat /\
     GoStrings.Contains (GoStrings.slice_from 2 d) "*" = false).
Proof.
  intros d. unfold Cmd.validateDomainName.
  destruct d as [|a d]; [cbn; intuition congruence|].
  cbn [String.length Nat.eqb].
  destruct (GoStrings.HasPrefix (String a d) "*.") eqn:Hp.
  - destruct (Nat.ltb_spec (S (String.length d)) 4) as [Hlt|Hge].
    + split; [discriminate|]. intros (_ & _ & H).
      destruct (H eq_refl) as [Hlen _]. lia.
    + destruct (GoStrings.Contains (GoStrings.slice_from 2 (String a d)) "*")
        eqn:Hstar.
      * split; [discriminate|]. intros (_ & _ & H).
        destruct (H eq_refl) as [_ Hc]. discriminate.
      * destruct (GoStrings.Contains (String a d) " ") eqn:Hsp.
        -- split; [discriminate|]. intros (_ & H & _). discriminate.
        -- split; [|reflexivity]. intros _.
           repeat split; [discriminate | lia].
  - destruct (GoStrings.Contains (String a d) " ") eqn:Hsp.
    + split; [discriminate|]. intros (_ & H & _). discriminate.
    + split; [|reflexivity]. intros _.
      repeat split; discriminate.
Qed.

(** ** The install command: which flag sets pass *)

(** X7. [validateInstallFlags] accepts exactly the command lines with one
    server flag, at most one challenge flag and, when a domain has the
    wildcard prefix, the [--dns] flag; so for a wildcard it accepts
    [--dns] alone. *)
Theorem validateInstallFlags_accepts :
  forall (fl : Cmd.Flags) (ds : list string),
    (Cmd.validateInstallFlags fl ds = None <->
     Cmd.serverCount fl = 1 /\ Cmd.modeCount fl <= 1 /\
     (Cmd.hasWildcard ds = true -> Cmd.dnsChallenge fl = true)) /\
    (Cmd.validateInstallFlags fl ds = None ->
     Cmd.hasWildcard ds = true ->
     Cmd.dnsChallenge fl = true /\ Cmd.standalone fl = false /\
     Cmd.webroot fl = "").
Proof.
  intros fl ds.
  unfold Cmd.validateInstallFlags, Cmd.serverCount, Cmd.modeCount.
  destruct (String.eqb_spec (Cmd.webroot fl) "") as [Hroot|Hroot];
    destruct (Cmd.nginx fl), (Cmd.apache fl), (Cmd.iis fl),
      (Cmd.hasWildcard ds), (Cmd.dnsChallenge fl), (Cmd.standalone fl);
    cbn; (split; [split|]);
    try discriminate; try lia; try tauto;
    try (intros (? & ? & H); try lia; specialize (H eq_refl);
         discriminate).
Qed.

(** ** The install command, end to end *)

Lemma singleDomainManager_fields cfg fl d :
  Manager.domain (Cmd.singleDomainManager cfg fl d) = d /\
  Manager.certDir (Cmd.singleDomainManager cfg fl d) = GetCertDir cfg /\
  Manager.keySize (Cmd.singleDomainManager cfg fl d) = 2048.
Proof.
  unfold Cmd.singleDomainManager.
  destruct (Cmd.dnsChallenge fl || GoStrings.HasPrefix d "*."),
    (Cmd.standalone fl), (negb (String.eqb (Cmd.webroot fl) "")),
    (Cmd.nginx fl), (Cmd.apache fl), (Cmd.iis fl); repeat split.
Qed.

Lemma multiDomainManager_fields fl ds m :
  MultiDomainManager.domains (Cmd.multiDomainManager fl ds m)
  = MultiDomainManager.domains m /\
  MultiDomainManager.primaryDomain (Cmd.multiDomainManager fl ds m)
  = MultiDomainManager.primaryDomain m /\
  MultiDomainManager.certDir (Cmd.multiDomainManager fl ds m)
  = MultiDomainManager.certDir m /\
  MultiDomainManager.keySize (Cmd.multiDomainManager fl ds m)
  = MultiDomainManager.keySize m /\
  (Cmd.hasWildcard ds = true ->
   MultiDomainManager.challengeType (Cmd.multiDomainManager fl ds m)
   = ChallengeDNS).
Proof.
  unfold Cmd.multiDomainManager.
  destruct (Cmd.hasWildcard ds), (Cmd.dnsChallenge fl), (Cmd.standalone fl),
    (negb (String.eqb (Cmd.webroot fl) "")), (Cmd.nginx fl),
    (Cmd.apache fl), (Cmd.iis fl);
    repeat split; discriminate.
Qed.

Lemma wrap_Ok_inv {A} msg (c : M A) w a w' :
  wrap msg c w = (Ok a, w') -> c w = (Ok a, w').
Proof.
  unfold wrap. destruct (c w) as [[x|e] w1]; [|discriminate].
  now intros [= <- <-].
Qed.

(** X10. A successful [runInstall] has parsed the flags into a domain
    list that passed validation and has stored, under the certificate
    root in the directory named after the set ([<domain>] for one name,
    [<first>_san] for more), one certificate for the first name that
    lists all the names. *)
Theorem runInstall_stores :
  forall (cfg : option Config) (fl : Cmd.Flags) (w w' : World),
    Cmd.runInstall cfg fl w = (Ok tt, w') ->
    exists ds first,
      Cmd.parseDomains fl = Ok ds /\
      head ds = Some first /\
      Cmd.validateInstallFlags fl ds = None /\
      exists md signer,
        files w' !! Filepath.Join [GetCertDir cfg; storeDirName ds;
                                   "cert.pem"]
        = Some {| content :=
                    PemData
                      {| Type_ := "CERTIFICATE";
                         Bytes :=
                           DerCertificate
                             (issuedAt {| CommonName := first |} ds w)
                             signer |};
                  mode := md |}.
Proof.
  intros cfg fl w w'. unfold Cmd.runInstall.
  destruct (Cmd.parseDomains fl) as [ds|e] eqn:Hparse; [|discriminate].
  destruct (Cmd.validateInstallFlags fl ds) eqn:Hflags; [discriminate|].
  destruct ds as [|d [|d' rest]].
  - discriminate.
  - unfold Cmd.installSingleDomain. intros Hrun%wrap_Ok_inv.
    apply Install_Ok in Hrun as ((md & signer & Hfile) & _).
    destruct (singleDomainManager_fields cfg fl d) as (Hd & Hdir & _).
    unfold Manager.getCertPath in Hfile. rewrite Hd, Hdir in Hfile.
    exists [d], d. split; [reflexivity|]. split; [reflexivity|].
    split; [exact Hflags|]. exists md, signer. exact Hfile.
  - unfold Cmd.installMultiDomain.
    cbn [MultiDomainManager.NewMultiDomainManager].
    intros Hrun%wrap_Ok_inv.
    apply multi_Install_Ok in Hrun as (md & signer & Hfile).
    destruct (multiDomainManager_fields fl (d :: d' :: rest)
                {| MultiDomainManager.domains := d :: d' :: rest;
                   MultiDomainManager.primaryDomain := d;
                   MultiDomainManager.email := Cmd.email fl;
                   MultiDomainManager.challengeType := ChallengeWebroot;
                   MultiDomainManager.webrootPath := "";
                   MultiDomainManager.webServerType := 0;
                   MultiDomainManager.certDir := GetCertDir cfg;
                   MultiDomainManager.keySize := 2048 |})
      as (Hds & Hp & Hdir & _).
    unfold MultiDomainManager.getCertPath in Hfile.
    rewrite Hds, Hp, Hdir in Hfile. cbn in Hfile.
    exists (d :: d' :: rest), d. split; [reflexivity|].
    split; [reflexivity|]. split; [exact Hflags|].
    exists md, signer. exact Hfile.
Qed.

Lemma runInstall_stores_witness :
  exists ds first,
    Cmd.parseDomains (Scenario.listLine "example.com, www.example.com")
    = Ok ds /\
    head ds = Some first /\
    Cmd.validateInstallFlags
      (Scenario.listLine "example.com, www.example.com") ds = None /\
    exists md signer,
      files (snd (Cmd.runInstall None
                    (Scenario.listLine "example.com, www.example.com")
                    Sample.freshWorld))
        !! Filepath.Join [GetCertDir None; storeDirName ds; "cert.pem"]
      = Some {| content :=
                  PemData
                    {| Type_ := "CERTIFICATE";
                       Bytes :=
                         DerCertificate
                           (issuedAt {| CommonName := first |} ds
                              Sample.freshWorld)
                           signer |};
                mode := md |}.
Proof.
  apply runInstall_stores. apply run_result. vm_compute. reflexivity.
Defined.

(** X11. The wildcard guard inside the multi-domain [Install] cannot fire
    from the install command: [installMultiDomain] switches a list with a
    wildcard to the DNS challenge before it calls [Install], whatever the
    flags say, so neither it nor [runInstall] ever returns that error. *)
Theorem installMultiDomain_never_guarded :
  forall (cfg : option Config) (fl : Cmd.Flags) (w : World),
    (forall ds,
        fst (Cmd.installMultiDomain cfg fl ds w)
        <> Err (wrapError "多域名证书安装失败"
                  (errorString "泛域名证书必须使用 DNS 验证模式"))) /\
    fst (Cmd.runInstall cfg fl w)
    <> Err (wrapError "多域名证书安装失败"
              (errorString "泛域名证书必须使用 DNS 验证模式")).
Proof.
  intros cfg fl w.
  assert (Hmulti : forall ds,
             fst (Cmd.installMultiDomain cfg fl ds w)
             <> Err (wrapError "多域名证书安装失败"
                       (errorString "泛域名证书必须使用 DNS 验证模式"))).
  { intros ds. unfold Cmd.installMultiDomain.
    destruct ds as [|d rest]; [discriminate|].
    cbn [MultiDomainManager.NewMultiDomainManager].
    set (m0 := {| MultiDomainManager.domains := d :: rest |}).
    destruct (multiDomainManager_fields fl (d :: rest) m0)
      as (Hds & _ & _ & _ & Hdns).
    pose proof (Multi_Install_outcome
                  (Cmd.multiDomainManager fl (d :: rest) m0) w) as Hout.
    unfold wrap.
    destruct (MultiDomainManager.Install _ w) as [[[]|e] w1];
      [discriminate|].
    cbn [fst]. intros [= He]. subst e.
    inversion Hout as [Hw Hct| | | | | | | ]; subst.
    apply Hct, Hdns. rewrite hasWildcard_anyWildcard.
    unfold MultiDomainManager.hasWildcardDomain in Hw.
    now rewrite Hds in Hw. }
  split; [exact Hmulti|].
  unfold Cmd.runInstall.
  destruct (Cmd.parseDomains fl) as [ds|e]; [|discriminate].
  destruct (Cmd.validateInstallFlags fl ds); [discriminate|].
  destruct ds as [|d [|d' rest]]; try apply Hmulti.
  unfold Cmd.installSingleDomain, wrap.
  destruct (Manager.Install _ w) as [[[]|e] w1]; [discriminate|].
  cbn [fst]. rewrite !append_cons. discriminate.
Qed.

(** ** Substrings *)

Lemma HasPrefix_spec s p :
  GoStrings.HasPrefix s p = true <-> exists post, s = p ++ post.
Proof.
  revert s. induction p as [|c p IH]; intros s.
  - split; [intros _; exists s; reflexivity | reflexivity].
  - destruct s as [|a s]; cbn [GoStrings.HasPrefix].
    + split; [discriminate | intros [post H]].
      rewrite append_cons in H. discriminate.
    + rewrite andb_true_iff, Ascii.eqb_eq, IH. split.
      * intros [-> [post ->]]. exists post. now rewrite append_cons.
      * intros [post H]. rewrite append_cons in H.
        injection H as -> ->. eauto.
Qed.

Lemma Contains_unfold s sub :
  GoStrings.Contains s sub
  = if GoStrings.HasPrefix s sub then true
    else match s with
         | EmptyString => false
         | String _ s' => GoStrings.Contains s' sub
         end.
Proof. destruct s; reflexivity. Qed.

Lemma Contains_spec s sub :
  GoStrings.Contains s sub = true <-> exists pre post, s = pre ++ sub ++ post.
Proof.
  induction s as [|c s IH]; rewrite Contains_unfold.
  - destruct (GoStrings.HasPrefix "" sub) eqn:Hp.
    + apply HasPrefix_spec in Hp as [post Hp].
      split; [intros _; exists "", post; exact Hp | reflexivity].
    + split; [discriminate|]. intros (pre & post & H).
      destruct pre; [|rewrite append_cons in H; discriminate].
      rewrite append_nil_l in H.
      assert (GoStrings.HasPrefix "" sub = true)
        by (apply HasPrefix_spec; eauto).
      congruence.
  - destruct (GoStrings.HasPrefix (String c s) sub) eqn:Hp.
    + apply HasPrefix_spec in Hp as [post Hp].
      split; [intros _; exists "", post; exact Hp | reflexivity].
    + rewrite IH. split.
      * intros (pre & post & ->). exists (String c pre), post.
        now rewrite append_cons.
      * intros (pre & post & H). destruct pre as [|a pre].
        -- rewrite append_nil_l in H.
           assert (GoStrings.HasPrefix (String c s) sub = true)
             by (apply HasPrefix_spec; eauto).
           congruence.
        -- rewrite append_cons in H. injection H as _ ->. eauto.
Qed.

Lemma Contains_trans s t u :
  GoStrings.Contains s t = true -> GoStrings.Contains t u = true ->
  GoStrings.Contains s u = true.
Proof.
  intros (a & b & ->)%Contains_spec (c & d & ->)%Contains_spec.
  apply Contains_spec. exists (a ++ c), (d ++ b).
  now rewrite !append_assoc.
Qed.

(** ** The Nginx scan matches names by substring *)

Lemma scanLines_weaken d d' lines :
  GoStrings.Contains d d' = true ->
  forall st st',
    Nginx.inServerBlock st' = Nginx.inServerBlock st ->
    Nginx.hasSSL st' = Nginx.hasSSL st ->
    (Nginx.hasDomain st = true -> Nginx.hasDomain st' = true) ->
    Nginx.scanLines d lines st = true ->
    Nginx.scanLines d' lines st' = true.
Proof.
  intros Hsub. induction lines as [|text rest IH]; [discriminate|].
  intros st st' Hin Hssl Hdom. cbn [Nginx.scanLines]. cbv zeta.
  rewrite Hin, Hssl.
  destruct (GoStrings.Contains (GoStrings.TrimSpace text) "server {");
    [apply IH; auto|].
  destruct (GoStrings.Contains (GoStrings.TrimSpace text) "}"
            && Nginx.inServerBlock st).
  { destruct (Nginx.hasSSL st); cbn [andb]; [|apply IH; auto].
    destruct (Nginx.hasDomain st); [now rewrite Hdom|].
    destruct (Nginx.hasDomain st'); [reflexivity|]. apply IH; auto. }
  destruct (Nginx.inServerBlock st) eqn:Hblock;
    [|apply IH; auto; congruence].
  apply IH; cbn [Nginx.inServerBlock Nginx.hasSSL Nginx.hasDomain]; auto.
  destruct (GoStrings.Contains (GoStrings.TrimSpace text) "server_name");
    cbn [andb]; [|exact Hdom].
  destruct (GoStrings.Contains (GoStrings.TrimSpace text) d) eqn:Hd.
  - now rewrite (Contains_trans _ _ _ Hd Hsub).
  - intros H. rewrite (Hdom H).
    now destruct (GoStrings.Contains (GoStrings.TrimSpace text) d').
Qed.

Lemma anySSL_weaken h d d' files :
  GoStrings.Contains d d' = true ->
  Nginx.anySSL h files d = true -> Nginx.anySSL h files d' = true.
Proof.
  intros Hsub. induction files as [|f files IH]; [discriminate|].
  cbn [Nginx.anySSL].
  destruct (Nginx.checkSSLInConfig h f d) eqn:Hd.
  - intros _. unfold Nginx.checkSSLInConfig in *.
    destruct (Nginx.openLines h f); [|discriminate].
    rewrite (scanLines_weaken d d' _ Hsub _ _ eq_refl eq_refl (fun H => H) Hd).
    reflexivity.
  - intros H. rewrite (IH H).
    now destruct (Nginx.checkSSLInConfig h f d').
Qed.

(** X12. The Nginx scan matches the domain by substring: when a file, or
    the host, counts as SSL-enabled for a name, it counts as SSL-enabled
    for every name contained in that name, the empty name included. *)
Theorem IsSSLEnabled_substring :
  forall (h : Nginx.Host) (domain shorter : string),
    GoStrings.Contains domain shorter = true ->
    (forall configFile,
        Nginx.checkSSLInConfig h configFile domain = true ->
        Nginx.checkSSLInConfig h configFile shorter = true) /\
    (Nginx.IsSSLEnabled h domain = true ->
     Nginx.IsSSLEnabled h shorter = true /\
     Nginx.IsSSLEnabled h "" = true).
Proof.
  intros h domain shorter Hsub. split.
  - intros f. unfold Nginx.checkSSLInConfig.
    destruct (Nginx.openLines h f); [|discriminate].
    now apply scanLines_weaken.
  - unfold Nginx.IsSSLEnabled. intros H. split.
    + now apply (anySSL_weaken h domain).
    + apply (anySSL_weaken h domain); [|exact H].
      now destruct domain.
Qed.

Lemma IsSSLEnabled_substring_witness :
  Nginx.IsSSLEnabled (Sample.hostWith Sample.sslSite) "ample.co" = true /\
  Nginx.IsSSLEnabled (Sample.hostWith Sample.sslSite) "" = true.
Proof.
  apply (IsSSLEnabled_substring (Sample.hostWith Sample.sslSite)
           "example.com" "ample.co"); vm_compute; reflexivity.
Defined.

(** ** Paths: joining in two steps *)

Lemma splitByte_concat sep ds :
  ds <> [] ->
  Forall (fun d => GoStrings.countByte sep d = 0%nat) ds ->
  GoStrings.splitByte sep (GoStrings.Join ds (String sep "")) = ds.
Proof.
  unfold GoStrings.Join. induction ds as [|d ds IH]; [contradiction|].
  intros _ Hall. inversion Hall as [|? ? Hd Hds]; subst.
  destruct ds as [|d' ds]; [now apply splitByte_none|].
  cbn [String.concat].
  rewrite append_cons, append_nil_l, (splitByte_first _ _ _ Hd).
  f_equal. apply IH; [discriminate | exact Hds].
Qed.

Lemma cleanStack_head rooted stack e elems :
  Filepath.cleanStack rooted stack -> rev stack = e :: elems -> e <> "".
Proof.
  intros (names & k & Hst & Hnames & _) Hrev ->.
  assert (Hin : In "" stack) by (apply in_rev; rewrite Hrev; now left).
  rewrite Hst in Hin. apply in_app_or in Hin as [Hin|Hin].
  - apply (proj1 (List.Forall_forall _ _) Hnames) in Hin. now destruct Hin.
  - apply repeat_spec in Hin. discriminate.
Qed.

(** The directory text of a path is that of the cleaned path. *)
Lemma cleanDir_Clean x :
  x <> "" -> Filepath.cleanDir (Filepath.Clean x) = Filepath.cleanDir x.
Proof.
  intros Hx. unfold Filepath.cleanDir at 2.
  rewrite (HasPrefix_slash_app x "/" Hx).
  unfold Filepath.Clean. rewrite (eqb_false_of_ne _ _ Hx).
  unfold Filepath.Separator.
  set (rooted := GoStrings.HasPrefix x "/").
  destruct (cleanElems_stack rooted (GoStrings.splitByte "/"%char x) []
              (cleanStack_nil rooted) (splitByte_noSlash x)
              (List.Forall_nil _))
    as (stack & Hstack & Hclean & Hns).
  rewrite Hstack.
  assert (Hns' : Forall Filepath.noSlash (rev stack)).
  { apply List.Forall_forall. intros e He. apply in_rev in He.
    now apply (proj1 (List.Forall_forall _ _) Hns). }
  destruct (rev stack) as [|e elems] eqn:Hrev.
  - unfold GoStrings.Join. cbn [String.concat Filepath.dirText].
    destruct rooted; reflexivity.
  - pose proof (cleanStack_head _ _ _ _ Hclean Hrev) as He.
    assert (Hjoin : GoStrings.Join (e :: elems) "/" <> "").
    { unfold GoStrings.Join. cbn [String.concat].
      destruct elems; [exact He|]. destruct e; [contradiction|discriminate]. }
    assert (Hout : (if rooted then "/" else "")
                   ++ GoStrings.Join (e :: elems) "/" <> "").
    { destruct rooted; [discriminate|]. now rewrite append_nil_l. }
    rewrite (eqb_false_of_ne _ _ Hout).
    unfold Filepath.cleanDir. rewrite (HasPrefix_slash_app _ "/" Hout).
    assert (Hfirst : GoStrings.HasPrefix
                       ((if rooted then "/" else "")
                        ++ GoStrings.Join (e :: elems) "/") "/" = rooted).
    { destruct rooted eqn:Hr; [reflexivity|]. rewrite append_nil_l.
      inversion Hns' as [|? ? Hes _]; subst.
      unfold GoStrings.Join. cbn [String.concat].
      destruct e as [|c e]; [contradiction|].
      unfold Filepath.noSlash in Hes. rewrite Contains_slash_cons in Hes.
      apply orb_false_iff in Hes as [Hc _].
      destruct elems; [|rewrite append_cons]; now rewrite HasPrefix_byte. }
    rewrite Hfirst. f_equal.
    assert (Hsplit : GoStrings.splitByte "/"%char
                       (GoStrings.Join (e :: elems) "/") = e :: elems).
    { apply splitByte_concat; [discriminate|].
      eapply List.Forall_impl; [|exact Hns']. intros a. apply noSlash_count. }
    assert (Hidem : Filepath.cleanElems rooted (e :: elems) [] = e :: elems).
    { rewrite <- Hrev. now apply cleanElems_idem. }
    destruct rooted.
    + change ("/" ++ GoStrings.Join (e :: elems) "/")
        with (String "/"%char (GoStrings.Join (e :: elems) "/")).
      cbn [GoStrings.splitByte]. change (Ascii.eqb "/" "/") with true.
      cbn iota. rewrite Hsplit.
      change (Filepath.cleanElems true ("" :: e :: elems) [])
        with (Filepath.cleanElems true (e :: elems) []).
      now rewrite Hidem.
    + now rewrite append_nil_l, Hsplit, Hidem.
Qed.

Lemma Clean_ne x : Filepath.Clean x <> "".
Proof.
  unfold Filepath.Clean. destruct (String.eqb x ""); [discriminate|].
  cbv zeta.
  destruct (String.eqb_spec
              ((if GoStrings.HasPrefix x "/" then "/" else "")
               ++ GoStrings.Join
                    (Filepath.cleanElems (GoStrings.HasPrefix x "/")
                       (GoStrings.splitByte Filepath.Separator x) []) "/")
              ""); [discriminate | assumption].
Qed.

(** [Join(Join(c, d), n)] is [Join(c, d, n)], also written
    [Join(c, d + "/" + n)]. *)
Lemma Join_nested c d n :
  Filepath.plainName d = true -> Filepath.plainName n = true ->
  Filepath.Join [Filepath.Join [c; d]; n]
  = Filepath.Join [c; d ++ "/" ++ n].
Proof.
  intros Hd Hn.
  assert (Hdne : d <> "") by (intros ->; discriminate).
  assert (Hdn : String.eqb (d ++ "/" ++ n) "" = false).
  { apply String.eqb_neq. destruct d; [contradiction|discriminate]. }
  cbn [Filepath.Join]. rewrite (eqb_false_of_ne _ _ Hdne), Hdn.
  unfold GoStrings.Join. cbn [String.concat].
  destruct (String.eqb_spec c "") as [->|Hc].
  - rewrite (Clean_plain d Hd), (eqb_false_of_ne _ _ Hdne). reflexivity.
  - rewrite (eqb_false_of_ne _ _ (Clean_ne _)).
    rewrite (Clean_file _ n Hn), cleanDir_Clean
      by (destruct c; [contradiction|discriminate]).
    rewrite <- (Clean_file _ n Hn). now rewrite !append_assoc.
Qed.

Lemma Join_certs d n :
  Filepath.plainName d = true -> Filepath.plainName n = true ->
  Filepath.Join ["certs"; d; n] = "certs/" ++ d ++ "/" ++ n.
Proof.
  intros Hd Hn. cbn [Filepath.Join]. change (String.eqb "certs" "") with false.
  cbn iota. unfold GoStrings.Join. cbn [String.concat].
  rewrite <- !append_assoc, append_assoc.
  change (("certs" ++ "/") ++ d) with ("certs/" ++ d).
  rewrite (Clean_file ("certs/" ++ d) n Hn). f_equal.
  unfold Filepath.cleanDir.
  assert (Hslash : GoStrings.Contains d "/" = false).
  { unfold Filepath.plainName in Hd. apply andb_true_iff in Hd as [_ Hd].
    now apply negb_true_iff in Hd. }
  change ("certs/" ++ d) with ("certs" ++ "/" ++ d).
  rewrite (splitByte_snoc "certs" d Hslash).
  change (GoStrings.splitByte "/" "certs") with ["certs"].
  rewrite (cleanElems_snoc _ _ _ _ Hd).
  change (GoStrings.HasPrefix (("certs" ++ "/" ++ d) ++ "/") "/") with false.
  cbn. rewrite append_nil_l, !append_assoc. reflexivity.
Qed.

(** ** Backup: what is collected and where it is restored *)

Lemma addEntries_lookup files d dir entries a l :
  Backup.addEntries files d dir entries !! a = Some l ->
  files !! a = Some l \/
  exists e, In e entries /\ Backup.IsDir e = false /\
            a = Filepath.Join ["certs"; d; Backup.Name e] /\
            l = Filepath.Join [dir; Backup.Name e].
Proof.
  revert files. induction entries as [|e entries IH]; intros files;
    cbn [Backup.addEntries]; [now left|]. cbv zeta.
  destruct (Backup.IsDir e) eqn:Hdir; cbn [negb].
  - intros [H|(e' & Hin & H)]%IH; [now left|].
    right. exists e'. split; [now right | exact H].
  - intros [H|(e' & Hin & H)]%IH.
    + destruct (decide (Filepath.Join ["certs"; d; Backup.Name e] = a))
        as [Heq|Hne].
      * subst a. rewrite lookup_insert_eq in H. injection H as <-.
        right. exists e. repeat split; [now left | exact Hdir].
      * rewrite lookup_insert_ne in H by exact Hne. now left.
    + right. exists e'. split; [now right | exact H].
Qed.

Lemma addAllDomains_lookup m h entries a l :
  forall files files',
    Backup.addAllDomains m h files entries = (files', None) ->
    files' !! a = Some l ->
    files !! a = Some l \/
    exists dir es e,
      In dir entries /\
      Backup.ReadDir h (Filepath.Join [Backup.certDir m; Backup.Name dir])
      = Ok es /\
      In e es /\
      a = Filepath.Join ["certs"; Backup.Name dir; Backup.Name e] /\
      l = Filepath.Join [Filepath.Join [Backup.certDir m; Backup.Name dir];
                         Backup.Name e].
Proof.
  induction entries as [|dir entries IH]; intros files files';
    cbn [Backup.addAllDomains].
  - intros [= <-]. now left.
  - destruct (Backup.IsDir dir).
    + unfold Backup.addDomainFiles.
      destruct (Backup.ReadDir h _) as [es|err] eqn:Hread; [|discriminate].
      intros Hrest Hlook.
      destruct (IH _ _ Hrest Hlook) as [H|(dir' & es' & e & Hin & H)].
      * apply addEntries_lookup in H as [H|(e & Hin & _ & -> & ->)];
          [now left|].
        right. exists dir, es, e. repeat split; [now left | exact Hread
                                               | exact Hin].
      * right. exists dir', es', e. split; [now right | exact H].
    + intros Hrest Hlook.
      destruct (IH _ _ Hrest Hlook) as [H|(dir' & es' & e & Hin & H)];
        [now left|].
      right. exists dir', es', e. split; [now right | exact H].
Qed.

Lemma Join_config n :
  Filepath.plainName n = true ->
  Filepath.Join ["config"; n] = "config/" ++ n.
Proof.
  intros Hn. cbn [Filepath.Join]. change (String.eqb "config" "") with false.
  cbn iota. unfold GoStrings.Join. cbn [String.concat].
  now rewrite (Clean_file "config" n Hn).
Qed.

Lemma addYaml_lookup m entries a l :
  forall files,
    Backup.addYaml m files entries !! a = Some l ->
    files !! a = Some l \/
    exists e, In e entries /\
              a = Filepath.Join ["config"; Backup.Name e] /\
              l = Filepath.Join [Backup.configDir m; Backup.Name e].
Proof.
  induction entries as [|e entries IH]; intros files;
    cbn [Backup.addYaml]; [now left|]. cbv zeta.
  destruct (negb (Backup.IsDir e) && Backup.HasSuffix (Backup.Name e) ".yaml").
  - intros [H|(e' & Hin & H)]%IH.
    + destruct (decide (Filepath.Join ["config"; Backup.Name e] = a))
        as [Heq|Hne].
      * subst a. rewrite lookup_insert_eq in H. injection H as <-.
        right. exists e. repeat split. now left.
      * rewrite lookup_insert_ne in H by exact Hne. now left.
    + right. exists e'. split; [now right | exact H].
  - intros [H|(e' & Hin & H)]%IH; [now left|].
    right. exists e'. split; [now right | exact H].
Qed.

Lemma addHome_lookup h home names a l :
  forall files,
    Backup.addHome h home files names !! a = Some l ->
    files !! a = Some l \/
    exists n, In n names /\ Backup.Stat h (Filepath.Join [home; n]) = None /\
              a = Filepath.Join ["config"; n] /\
              l = Filepath.Join [home; n].
Proof.
  induction names as [|n names IH]; intros files;
    cbn [Backup.addHome]; [now left|].
  cbv zeta. destruct (Backup.Stat h (Filepath.Join [home; n])) eqn:Hstat.
  - intros [H|(n' & Hin & H)]%IH; [now left|].
    right. exists n'. split; [now right | exact H].
  - intros [H|(n' & Hin & H)]%IH.
    + destruct (decide (Filepath.Join ["config"; n] = a)) as [Heq|Hne].
      * subst a. rewrite lookup_insert_eq in H. injection H as <-.
        right. exists n. repeat split; [now left | exact Hstat].
      * rewrite lookup_insert_ne in H by exact Hne. now left.
    + right. exists n'. split; [now right | exact H].
Qed.

Lemma addConfigFiles_lookup m h files files' a l :
  Backup.addConfigFiles m h files = (files', None) ->
  files' !! a = Some l ->
  files !! a = Some l \/
  (exists es e,
      Backup.ReadDir h (Backup.configDir m) = Ok es /\ In e es /\
      a = Filepath.Join ["config"; Backup.Name e] /\
      l = Filepath.Join [Backup.configDir m; Backup.Name e]) \/
  (exists home n,
      Backup.UserHomeDir h = Ok home /\
      In n [".autocert.yaml"; "autocert.yaml"; "config.yaml"] /\
      Backup.Stat h (Filepath.Join [home; n]) = None /\
      a = Filepath.Join ["config"; n] /\ l = Filepath.Join [home; n]).
Proof.
  unfold Backup.addConfigFiles. cbv zeta.
  set (names := [".autocert.yaml"; "autocert.yaml"; "config.yaml"]).
  clearbody names. intros Heq Hlook.
  apply (f_equal fst) in Heq. cbn [fst] in Heq. subst files'.
  assert (Hhome :
            match Backup.Stat h (Backup.configDir m) with
            | None =>
                match Backup.ReadDir h (Backup.configDir m) with
                | Ok entries => Backup.addYaml m files entries
                | Err _ => files
                end
            | Some _ => files
            end !! a = Some l \/
            exists home n,
              Backup.UserHomeDir h = Ok home /\ In n names /\
              Backup.Stat h (Filepath.Join [home; n]) = None /\
              a = Filepath.Join ["config"; n] /\
              l = Filepath.Join [home; n]).
  { destruct (Backup.UserHomeDir h) as [home|] eqn:Hh; [|now left].
    apply addHome_lookup in Hlook as [H|(n & Hin & Hst & Ha & Hl)];
      [now left|].
    right. exists home, n. auto. }
  destruct Hhome as [H|H]; [|now right; right].
  destruct (Backup.Stat h (Backup.configDir m)); [now left|].
  destruct (Backup.ReadDir h (Backup.configDir m)) as [es|] eqn:Hread;
    [|now left].
  apply addYaml_lookup in H as [H|(e & Hin & Ha & Hl)]; [now left|].
  right; left. exists es, e. auto.
Qed.

(** What [collectFiles] returns: every entry is a file of a domain
    directory under its [certs/] name, a [.yaml] file of the
    configuration directory, or one of the three configuration files of
    the home directory, under its [config/] name. *)
Lemma collectFiles_lookup m h domain fs a l :
  Backup.collectFiles m h domain = Ok fs ->
  fs !! a = Some l ->
  (exists d e,
      (domain = "" \/ d = domain) /\
      a = Filepath.Join ["certs"; d; Backup.Name e] /\
      l = Filepath.Join [Filepath.Join [Backup.certDir m; d]; Backup.Name e] /\
      exists es,
        Backup.ReadDir h (Filepath.Join [Backup.certDir m; d]) = Ok es /\
        In e es /\
        (domain = "" ->
         exists ds, Backup.ReadDir h (Backup.certDir m) = Ok ds /\
                    exists dir, In dir ds /\ Backup.Name dir = d)) \/
  (exists es e,
      Backup.ReadDir h (Backup.configDir m) = Ok es /\ In e es /\
      a = Filepath.Join ["config"; Backup.Name e] /\
      l = Filepath.Join [Backup.configDir m; Backup.Name e]) \/
  (exists home n,
      Backup.UserHomeDir h = Ok home /\
      In n [".autocert.yaml"; "autocert.yaml"; "config.yaml"] /\
      Backup.Stat h (Filepath.Join [home; n]) = None /\
      a = Filepath.Join ["config"; n] /\ l = Filepath.Join [home; n]).
Proof.
  unfold Backup.collectFiles. cbv zeta.
  set (certs := if negb (String.eqb domain "") then _ else _).
  destruct certs as [files [err|]] eqn:Hcerts; [discriminate|].
  destruct (Backup.addConfigFiles m h files) as [files' [err|]] eqn:Hcfg;
    [discriminate|].
  intros [= <-] Hlook.
  pose proof (addConfigFiles_lookup _ _ _ _ _ _ Hcfg Hlook) as Hconfig.
  destruct Hconfig as [H|H]; [|now right].
  left. subst certs.
  destruct (String.eqb_spec domain "") as [->|Hdom]; cbn [negb] in Hcerts.
  - destruct (Backup.ReadDir h (Backup.certDir m)) as [ds|err] eqn:Hds.
    + destruct (addAllDomains_lookup _ _ _ _ _ _ _ Hcerts H)
        as [Hempty|(dir & es & e & Hin & Hes & He & Ha & Hl)];
        [rewrite lookup_empty in Hempty; discriminate|].
      exists (Backup.Name dir), e. split; [now left|].
      split; [exact Ha|]. split; [exact Hl|].
      exists es. split; [exact Hes|]. split; [exact He|].
      intros _. exists ds. split; [reflexivity|]. now exists dir.
    + destruct (negb _); injection Hcerts as <-;
        rewrite lookup_empty in H; discriminate.
  - destruct (Backup.Stat h _).
    + injection Hcerts as <-. rewrite lookup_empty in H. discriminate.
    + unfold Backup.addDomainFiles in Hcerts.
      destruct (Backup.ReadDir h _) as [es|err] eqn:Hes; [|discriminate].
      injection Hcerts as <-.
      apply addEntries_lookup in H as [Hempty|(e & He & _ & Ha & Hl)];
        [rewrite lookup_empty in Hempty; discriminate|].
      exists domain, e. split; [now right|].
      split; [exact Ha|]. split; [exact Hl|].
      exists es. split; [exact Hes|]. split; [exact He|].
      intros ->. contradiction.
Qed.

Lemma getTargetPath_certs m h d n :
  Filepath.plainName d = true -> Filepath.plainName n = true ->
  Backup.getTargetPath m h (Filepath.Join ["certs"; d; n])
  = Ok (Filepath.Join [Filepath.Join [Backup.certDir m; d]; n]).
Proof.
  intros Hd Hn. rewrite (Join_certs d n Hd Hn), (Join_nested _ d n Hd Hn).
  reflexivity.
Qed.

Lemma config_not_certs n :
  GoStrings.HasPrefix ("config/" ++ n) "certs/" = false.
Proof. reflexivity. Qed.

(** X13. Export and import agree on certificate files: on a host whose
    directory listings hold plain file names, every file that
    [collectFiles] puts under a [certs/] archive name is mapped back by
    [getTargetPath] to the local path it was collected from. (The domain
    asked for is empty, for all domains, or a plain directory name.) *)
Theorem certificates_restore_in_place :
  forall (m : Backup.Manager) (h : Backup.Host) (domain : string)
         (fs : gmap string string),
    (forall dir entries,
        Backup.ReadDir h dir = Ok entries ->
        Forall (fun e => Filepath.plainName (Backup.Name e) = true) entries) ->
    domain = "" \/ Filepath.plainName domain = true ->
    Backup.collectFiles m h domain = Ok fs ->
    forall archivePath localPath,
      fs !! archivePath = Some localPath ->
      GoStrings.HasPrefix archivePath "certs/" = true ->
      Backup.getTargetPath m h archivePath = Ok localPath.
Proof.
  intros m h domain fs Hplain Hdomain Hcollect a l Hlook Hprefix.
  destruct (collectFiles_lookup _ _ _ _ _ _ Hcollect Hlook)
    as [(d & e & Hd & -> & -> & es & Hes & He & Hall)
       |[(es & e & Hes & He & -> & _)|(home & n & _ & Hn & _ & -> & _)]].
  - apply getTargetPath_certs.
    + destruct Hd as [->| ->].
      * destruct (Hall eq_refl) as (ds & Hds & dir & Hdir & <-).
        exact (proj1 (List.Forall_forall _ _) (Hplain _ _ Hds) _ Hdir).
      * destruct Hdomain as [->|H]; [|exact H].
        destruct (Hall eq_refl) as (ds & Hds & dir & Hdir & Heq).
        rewrite <- Heq.
        exact (proj1 (List.Forall_forall _ _) (Hplain _ _ Hds) _ Hdir).
    + exact (proj1 (List.Forall_forall _ _) (Hplain _ _ Hes) _ He).
  - pose proof (proj1 (List.Forall_forall _ _) (Hplain _ _ Hes) _ He) as Hp.
    rewrite (Join_config _ Hp), config_not_certs in Hprefix. discriminate.
  - destruct Hn as [<-|[<-|[<-|[]]]]; discriminate.
Qed.

Lemma certificates_restore_in_place_witness :
  Backup.getTargetPath Scenario.store Scenario.storeHost
    "certs/example.com/cert.pem"
  = Ok "/etc/autocert/certs/example.com/cert.pem".
Proof.
  apply (certificates_restore_in_place Scenario.store Scenario.storeHost
           "" Scenario.collected).
  - intros dir entries. cbn [Backup.ReadDir Scenario.storeHost].
    destruct (String.eqb dir "/etc/autocert/certs");
      [intros [= <-]; repeat constructor|].
    destruct (String.eqb dir "/etc/autocert/certs/example.com");
      [intros [= <-]; repeat constructor | discriminate].
  - now left.
  - vm_compute. reflexivity.
  - vm_compute. reflexivity.
  - reflexivity.
Defined.

Lemma addHome_keeps h home names a :
  forall files l,
    files !! a = Some l ->
    ~ In a (map (fun n => Filepath.Join ["config"; n]) names) ->
    Backup.addHome h home files names !! a = Some l.
Proof.
  induction names as [|n names IH]; intros files l Hl Hnot;
    cbn [Backup.addHome]; [exact Hl|].
  cbv zeta. cbn [map In] in Hnot.
  destruct (Backup.Stat h (Filepath.Join [home; n])).
  - apply IH; [exact Hl | tauto].
  - apply IH; [|tauto]. rewrite lookup_insert_ne; [exact Hl | tauto].
Qed.

Lemma addHome_adds h home names n :
  forall files,
    List.NoDup (map (fun n => Filepath.Join ["config"; n]) names) ->
    In n names ->
    Backup.Stat h (Filepath.Join [home; n]) = None ->
    Backup.addHome h home files names !! Filepath.Join ["config"; n]
    = Some (Filepath.Join [home; n]).
Proof.
  induction names as [|n' names IH]; intros files Hnd Hin Hstat;
    [destruct Hin|].
  cbn [Backup.addHome]. cbv zeta. cbn [map] in Hnd.
  apply List.NoDup_cons_iff in Hnd as [Hfresh Hnd].
  destruct Hin as [<-|Hin].
  - rewrite Hstat. apply addHome_keeps; [|exact Hfresh].
    now rewrite lookup_insert_eq.
  - destruct (Backup.Stat h (Filepath.Join [home; n'])); now apply IH.
Qed.

(** X14. Export and import disagree on the configuration files of the
    home directory: an [autocert.yaml] or [config.yaml] found there is
    archived as [config/<name>], in place of the file of that name from
    the configuration directory, and [getTargetPath] sends that archive
    member to the configuration directory, not back to the home
    directory. *)
Theorem home_config_restored_elsewhere :
  forall (m : Backup.Manager) (h : Backup.Host) (domain home n : string)
         (fs : gmap string string),
    In n ["autocert.yaml"; "config.yaml"] ->
    Backup.UserHomeDir h = Ok home ->
    Backup.Stat h (Filepath.Join [home; n]) = None ->
    Backup.collectFiles m h domain = Ok fs ->
    fs !! ("config/" ++ n) = Some (Filepath.Join [home; n]) /\
    Backup.getTargetPath m h ("config/" ++ n)
    = Ok (Filepath.Join [Backup.configDir m; n]).
Proof.
  intros m h domain home n fs Hn Hhome Hstat Hcollect.
  assert (Hplain : Filepath.plainName n = true).
  { destruct Hn as [<-|[<-|[]]]; reflexivity. }
  split.
  - revert Hcollect. unfold Backup.collectFiles. cbv zeta.
    set (certs := if negb (String.eqb domain "") then _ else _).
    destruct certs as [files [err|]]; [discriminate|].
    unfold Backup.addConfigFiles. cbv zeta. rewrite Hhome.
    intros Heq. apply (f_equal (fun r => match r with
                                         | Ok fs' => fs' !! ("config/" ++ n)
                                         | Err _ => None
                                         end)) in Heq.
    rewrite <- Heq, <- (Join_config n Hplain).
    apply addHome_adds; [|destruct Hn as [<-|[<-|[]]]; cbn; tauto|exact Hstat].
    vm_compute. repeat constructor; cbn; intuition discriminate.
  - unfold Backup.getTargetPath.
    change (GoStrings.HasPrefix ("config/" ++ n) "certs/") with false.
    change (GoStrings.HasPrefix ("config/" ++ n) "config/") with true.
    cbn iota. cbv zeta.
    change (Backup.TrimPrefix ("config/" ++ n) "config/") with n.
    destruct Hn as [<-|[<-|[]]]; reflexivity.
Qed.

Lemma home_config_restored_elsewhere_witness :
  Scenario.collected !! "config/config.yaml" = Some "/root/config.yaml" /\
  Backup.getTargetPath Scenario.store Scenario.storeHost
    "config/config.yaml"
  = Ok "/etc/autocert/config.yaml".
Proof.
  apply (home_config_restored_elsewhere Scenario.store Scenario.storeHost
           "" "/root" "config.yaml" Scenario.collected).
  - right; now left.
  - reflexivity.
  - reflexivity.
  - vm_compute. reflexivity.
Defined.

(** ** Backup: archive names are not confined *)

Lemma splitByte_app sep a b :
  GoStrings.splitByte sep (a ++ String sep b)
  = (GoStrings.splitByte sep a ++ GoStrings.splitByte sep b)%list.
Proof.
  induction a as [|c a IH].
  - rewrite append_nil_l. cbn [GoStrings.splitByte].
    now rewrite Ascii.eqb_refl.
  - rewrite append_cons. cbn [GoStrings.splitByte]. rewrite IH.
    destruct (Ascii.eqb c sep); [reflexivity|].
    pose proof (splitByte_nonempty sep a) as Hne.
    destruct (GoStrings.splitByte sep a); [contradiction | reflexivity].
Qed.

Lemma splitByte_climb k rest :
  GoStrings.splitByte "/"%char (Backup.climb k ++ rest)
  = (repeat ".." k ++ GoStrings.splitByte "/"%char rest)%list.
Proof.
  induction k as [|k IH]; [reflexivity|].
  cbn [Backup.climb repeat app]. rewrite append_assoc.
  change ("../" ++ Backup.climb k ++ rest)
    with (".." ++ String "/"%char (Backup.climb k ++ rest)).
  now rewrite splitByte_app, IH.
Qed.

(** On a rooted path the stack never holds [..], and [elems] add at most
    one entry each. *)
Lemma cleanElems_rooted_prefix elems :
  forall stack,
    Forall (fun e => e <> "..") stack ->
    exists stack',
      (forall rest,
          Filepath.cleanElems true (elems ++ rest) stack
          = Filepath.cleanElems true rest stack') /\
      Forall (fun e => e <> "..") stack' /\
      (length stack' <= length stack + length elems)%nat.
Proof.
  induction elems as [|e elems IH]; intros stack Hstack.
  - exists stack. repeat split; [exact Hstack | cbn; lia].
  - cbn [app Filepath.cleanElems length].
    destruct (String.eqb e "" || String.eqb e ".").
    + destruct (IH stack Hstack) as (s' & H1 & H2 & H3).
      exists s'. repeat split; [exact H1 | exact H2 | lia].
    + destruct (String.eqb_spec e "..") as [->|Hne].
      * destruct stack as [|top below].
        -- destruct (IH [] Hstack) as (s' & H1 & H2 & H3).
           exists s'. repeat split; [exact H1 | exact H2 | cbn in *; lia].
        -- inversion Hstack as [|? ? Htop Hbelow]; subst.
           rewrite (eqb_false_of_ne _ _ Htop).
           destruct (IH below Hbelow) as (s' & H1 & H2 & H3).
           exists s'. repeat split; [exact H1 | exact H2 | cbn in *; lia].
      * destruct (IH (e :: stack)) as (s' & H1 & H2 & H3);
          [now constructor|].
        exists s'. repeat split; [exact H1 | exact H2 | cbn in *; lia].
Qed.

Lemma cleanElems_rooted_climb k rest :
  forall stack,
    Forall (fun e => e <> "..") stack ->
    (length stack <= k)%nat ->
    Filepath.cleanElems true (repeat ".." k ++ rest) stack
    = Filepath.cleanElems true rest [].
Proof.
  induction k as [|k IH]; intros stack Hstack Hlen.
  - destruct stack; [reflexivity | cbn in Hlen; lia].
  - cbn [repeat app Filepath.cleanElems].
    change (String.eqb ".." "" || String.eqb ".." ".") with false.
    change (String.eqb ".." "..") with true. cbn iota.
    destruct stack as [|top below]; [apply IH; [constructor | cbn; lia]|].
    inversion Hstack as [|? ? Htop Hbelow]; subst.
    rewrite (eqb_false_of_ne _ _ Htop).
    apply IH; [exact Hbelow | cbn in Hlen; lia].
Qed.

(** X15. [getTargetPath] does not confine archive members to the
    certificate directory: under a rooted certificate directory, a
    member name [certs/../…/../<rest>] with at least as many [../] as
    the directory has elements is sent to [/<rest>], cleaned, whatever
    [<rest>] is. *)
Theorem getTargetPath_escapes :
  forall (m : Backup.Manager) (h : Backup.Host) (k : nat) (rest : string),
    GoStrings.HasPrefix (Backup.certDir m) "/" = true ->
    (length (GoStrings.splitByte "/"%char (Backup.certDir m)) <= k)%nat ->
    Backup.getTargetPath m h ("certs/" ++ Backup.climb k ++ rest)
    = Ok (Filepath.Clean ("/" ++ rest)).
Proof.
  intros m h k rest Hroot Hk. unfold Backup.getTargetPath.
  change (GoStrings.HasPrefix ("certs/" ++ Backup.climb k ++ rest) "certs/")
    with true.
  cbn iota. cbv zeta.
  change (Backup.TrimPrefix ("certs/" ++ Backup.climb k ++ rest) "certs/")
    with (Backup.climb k ++ rest).
  f_equal. destruct (Backup.certDir m) as [|c0 c] eqn:Hc; [discriminate|].
  rewrite <- Hc in *. cbn [Filepath.Join].
  assert (Hne : Backup.certDir m <> "") by (rewrite Hc; discriminate).
  rewrite (eqb_false_of_ne _ _ Hne).
  unfold GoStrings.Join. cbn [String.concat].
  unfold Filepath.Clean, Filepath.Separator.
  assert (String.eqb (Backup.certDir m ++ "/" ++ Backup.climb k ++ rest) ""
          = false) as ->.
  { apply String.eqb_neq. rewrite Hc. discriminate. }
  rewrite (HasPrefix_slash_app _ _ Hne), Hroot.
  change (String.eqb ("/" ++ rest) "") with false.
  change (GoStrings.HasPrefix ("/" ++ rest) "/") with true. cbn iota.
  change ("/" ++ Backup.climb k ++ rest)
    with (String "/"%char (Backup.climb k ++ rest)).
  rewrite splitByte_app, splitByte_climb.
  destruct (cleanElems_rooted_prefix
              (GoStrings.splitByte "/"%char (Backup.certDir m)) []
              (List.Forall_nil _)) as (stack & Hrun & Hstack & Hlen).
  rewrite Hrun, (cleanElems_rooted_climb k _ stack Hstack)
    by (cbn in Hlen; lia).
  change ("/" ++ rest) with (String "/"%char rest).
  cbn [GoStrings.splitByte]. change (Ascii.eqb "/" "/") with true. cbn iota.
  reflexivity.
Qed.

Lemma getTargetPath_escapes_witness :
  Backup.getTargetPath Scenario.store Scenario.storeHost
    ("certs/" ++ Backup.climb 4 ++ "etc/cron.d/job")
  = Ok (Filepath.Clean ("/" ++ "etc/cron.d/job")).
Proof.
  apply getTargetPath_escapes; [reflexivity | vm_compute; lia].
Defined.

(** ** Lines of a text *)

Lemma countByte_app c a b :
  GoStrings.countByte c (a ++ b)
  = (GoStrings.countByte c a + GoStrings.countByte c b)%nat.
Proof.
  induction a as [|x a IH]; [reflexivity|].
  rewrite append_cons. cbn [GoStrings.countByte]. rewrite IH. lia.
Qed.

(** A pattern without the separator cannot reach across it. *)
Lemma HasPrefix_before sep a b pat :
  GoStrings.countByte sep pat = 0%nat ->
  GoStrings.HasPrefix (a ++ String sep b) pat = true ->
  GoStrings.HasPrefix a pat = true.
Proof.
  revert a. induction pat as [|p pat IH]; intros a Hc; [reflexivity|].
  cbn [GoStrings.countByte] in Hc.
  destruct (Ascii.eqb_spec p sep) as [->|Hp]; [discriminate|].
  destruct a as [|x a].
  - rewrite append_nil_l. cbn [GoStrings.HasPrefix].
    intros [Hx _]%andb_true_iff. apply Ascii.eqb_eq in Hx. congruence.
  - rewrite append_cons. cbn [GoStrings.HasPrefix].
    intros [Hx Hrest]%andb_true_iff. rewrite Hx. cbn [andb].
    apply IH; [exact Hc | exact Hrest].
Qed.

Lemma Contains_cons c s pat :
  GoStrings.Contains s pat = true ->
  GoStrings.Contains (String c s) pat = true.
Proof.
  intros H. rewrite Contains_unfold.
  destruct (GoStrings.HasPrefix (String c s) pat); [reflexivity | exact H].
Qed.

Lemma Contains_across sep a b pat :
  GoStrings.countByte sep pat = 0%nat ->
  GoStrings.Contains (a ++ String sep b) pat = true ->
  GoStrings.Contains a pat = true \/ GoStrings.Contains b pat = true.
Proof.
  intros Hc. induction a as [|x a IH].
  - rewrite append_nil_l, Contains_unfold.
    destruct (GoStrings.HasPrefix (String sep b) pat) eqn:Hp;
      [|now right].
    intros _. left.
    apply (HasPrefix_before sep "" b pat Hc) in Hp.
    rewrite Contains_unfold. now rewrite Hp.
  - rewrite append_cons, Contains_unfold.
    destruct (GoStrings.HasPrefix (String x (a ++ String sep b)) pat) eqn:Hp.
    + intros _. left. rewrite <- append_cons in Hp.
      apply (HasPrefix_before sep _ b pat Hc) in Hp.
      rewrite Contains_unfold. now rewrite Hp.
    + intros [H|H]%IH; [left; now apply Contains_cons | now right].
Qed.

Lemma Contains_Join sep lines pat :
  GoStrings.countByte sep pat = 0%nat -> pat <> "" ->
  GoStrings.Contains (GoStrings.Join lines (String sep "")) pat = true ->
  exists line, In line lines /\ GoStrings.Contains line pat = true.
Proof.
  intros Hc Hne. unfold GoStrings.Join.
  induction lines as [|l lines IH]; cbn [String.concat].
  - destruct pat; [contradiction | discriminate].
  - destruct lines as [|l' lines]; [intros H; exists l; split; [now left|
                                                                exact H]|].
    rewrite append_cons, append_nil_l.
    intros [H|H]%(Contains_across sep _ _ pat Hc).
    + exists l. split; [now left | exact H].
    + destruct (IH H) as (line & Hin & Hline).
      exists line. split; [now right | exact Hline].
Qed.

Lemma Join_splitByte c s :
  GoStrings.Join (GoStrings.splitByte c s) (String c "") = s.
Proof.
  unfold GoStrings.Join. induction s as [|x s IH]; [reflexivity|].
  cbn [GoStrings.splitByte].
  pose proof (splitByte_nonempty c s) as Hne.
  destruct (Ascii.eqb_spec x c) as [->|Hx].
  - cbn [String.concat].
    destruct (GoStrings.splitByte c s); [contradiction|].
    rewrite append_nil_l. rewrite append_cons. rewrite append_nil_l.
    now rewrite IH.
  - destruct (GoStrings.splitByte c s) as [|p ps]; [contradiction|].
    cbn [String.concat] in *.
    destruct ps; [now rewrite IH | now rewrite append_cons, IH].
Qed.

(** Every piece of a split is a part of the text. *)
Lemma splitByte_piece c s :
  (exists b, s = hd "" (GoStrings.splitByte c s) ++ b) /\
  (forall l, In l (GoStrings.splitByte c s) -> exists a b, s = a ++ l ++ b).
Proof.
  induction s as [|x s [(b0 & Hhd) IH]].
  - split; [exists ""; reflexivity|].
    intros l [<-|[]]. exists "", "". reflexivity.
  - cbn [GoStrings.splitByte].
    pose proof (splitByte_nonempty c s) as Hne.
    destruct (Ascii.eqb x c).
    + split; [exists (String x s); reflexivity|].
      intros l [<-|Hin].
      * exists "", (String x s). reflexivity.
      * destruct (IH l Hin) as (a & b & ->).
        exists (String x a), b. reflexivity.
    + destruct (GoStrings.splitByte c s) as [|p ps]; [contradiction|].
      cbn [hd] in *. split.
      * exists b0. now rewrite append_cons, <- Hhd.
      * intros l [<-|Hin].
        -- exists "", b0. now rewrite append_nil_l, append_cons, <- Hhd.
        -- destruct (IH l (or_intror Hin)) as (a & b & ->).
           exists (String x a), b. reflexivity.
Qed.

Lemma Contains_piece c s l pat :
  In l (GoStrings.splitByte c s) ->
  GoStrings.Contains l pat = true -> GoStrings.Contains s pat = true.
Proof.
  intros (a & b & ->)%(proj2 (splitByte_piece c s)) Hl.
  apply (Contains_trans _ l); [|exact Hl].
  apply Contains_spec. eauto.
Qed.

(** ** Cron jobs *)

Lemma keepLines_clean marker lines :
  Forall (fun l => GoStrings.Contains l marker = false)
    (Cron.keepLines marker lines).
Proof.
  induction lines as [|l lines IH]; [constructor|].
  cbn [Cron.keepLines].
  destruct (GoStrings.Contains l marker) eqn:Hl; cbn [negb];
    [exact IH | now constructor].
Qed.

Lemma keepLines_all marker lines :
  Forall (fun l => GoStrings.Contains l marker = false) lines ->
  Cron.keepLines marker lines = lines.
Proof.
  induction 1 as [|l lines Hl _ IH]; [reflexivity|].
  cbn [Cron.keepLines]. now rewrite Hl, IH.
Qed.

Lemma keepLines_app marker a b :
  Cron.keepLines marker (a ++ b)
  = (Cron.keepLines marker a ++ Cron.keepLines marker b)%list.
Proof.
  induction a as [|l a IH]; [reflexivity|].
  cbn [app Cron.keepLines].
  destruct (negb (GoStrings.Contains l marker)); [cbn [app]|]; now rewrite IH.
Qed.

Lemma marker_prefix name longer :
  GoStrings.HasPrefix longer name = true ->
  GoStrings.Contains ("# " ++ longer) ("# " ++ name) = true.
Proof.
  intros [post ->]%HasPrefix_spec. apply Contains_spec.
  exists "", post. now rewrite append_nil_l, !append_assoc.
Qed.

Lemma crontab_stdin_None text h h' :
  Cron.crontab_stdin text h = (None, h') -> h' = Cron.setTable text h.
Proof.
  unfold Cron.crontab_stdin. destruct (Cron.refuses h text);
    [discriminate | now intros [= <-]].
Qed.

(** X16. [installCronJob] only appends: after a successful call the
    crontab is the text [crontab -l] printed before, followed by one
    line made of the schedule, the command, [renew --all] and the
    marker [# <task name>]; it does not look for an earlier entry, so a
    second call adds a second line. When [crontab -l] works, the task
    then counts as installed and so does every task that did before. *)
Theorem installCronJob_appends :
  forall (taskName command schedule : string) (h h' : Cron.Host),
    Cron.installCronJob taskName command schedule h = (None, h') ->
    Cron.table h'
    = Some (fst (Cron.crontab_l h)
            ++ schedule ++ " " ++ command ++ " renew --all # "
            ++ taskName ++ LF) /\
    (Cron.listFault h = false ->
     Cron.isCronJobInstalled taskName h' = true /\
     forall other,
       Cron.isCronJobInstalled other h = true ->
       Cron.isCronJobInstalled other h' = true).
Proof.
  intros n c s h h'. unfold Cron.installCronJob.
  destruct (Cron.crontab_l h) as [old err] eqn:Hl. cbv zeta.
  destruct (Cron.crontab_stdin _ h) as [[e|] h1] eqn:Hin; [discriminate|].
  intros [= <-]. apply crontab_stdin_None in Hin as ->.
  split; [reflexivity|].
  intros Hfault. unfold Cron.isCronJobInstalled, Cron.crontab_l.
  cbn [Cron.setTable Cron.listFault Cron.table fst]. rewrite Hfault.
  split.
  - apply Contains_spec. exists (old ++ s ++ " " ++ c ++ " renew --all "), LF.
    now rewrite !append_assoc.
  - intros other. unfold Cron.crontab_l in Hl. rewrite Hfault in Hl.
    destruct (Cron.table h) as [text|]; [|discriminate].
    injection Hl as <- _.
    intros (a & b & ->)%Contains_spec. apply Contains_spec.
    exists a, (b ++ s ++ " " ++ c ++ " renew --all # " ++ n ++ LF).
    now rewrite !append_assoc.
Qed.

Lemma installCronJob_appends_witness :
  Cron.table
    (snd (Cron.installCronJob "autocert-renew" "/usr/bin/autocert"
            "0 2 * * *" Scenario.cronHost))
  = Some (fst (Cron.crontab_l Scenario.cronHost)
          ++ "0 2 * * *" ++ " " ++ "/usr/bin/autocert" ++ " renew --all # "
          ++ "autocert-renew" ++ LF) /\
  (Cron.listFault Scenario.cronHost = false ->
   Cron.isCronJobInstalled "autocert-renew"
     (snd (Cron.installCronJob "autocert-renew" "/usr/bin/autocert"
             "0 2 * * *" Scenario.cronHost)) = true /\
   forall other,
     Cron.isCronJobInstalled other Scenario.cronHost = true ->
     Cron.isCronJobInstalled other
       (snd (Cron.installCronJob "autocert-renew" "/usr/bin/autocert"
               "0 2 * * *" Scenario.cronHost)) = true).
Proof.
  apply installCronJob_appends. reflexivity.
Defined.

(** X17. After a successful [removeCronJob] for a task name without a
    newline, the crontab is the old lines that do not contain the
    marker [# <task name>], in order, and neither the task nor any task
    whose name starts with that name counts as installed: their lines
    are removed along with it. *)
Theorem removeCronJob_removes :
  forall (taskName : string) (h h' : Cron.Host),
    Cron.removeCronJob taskName h = (None, h') ->
    GoStrings.countByte (ascii_of_nat 10) taskName = 0%nat ->
    (exists old,
        Cron.table h = Some old /\
        Cron.table h'
        = Some (GoStrings.Join
                  (Cron.keepLines ("# " ++ taskName)
                     (GoStrings.splitByte (ascii_of_nat 10) old)) LF)) /\
    (forall longer,
        GoStrings.HasPrefix longer taskName = true ->
        Cron.isCronJobInstalled longer h' = false).
Proof.
  intros n h h'. unfold Cron.removeCronJob.
  destruct (Cron.crontab_l h) as [old [err|]] eqn:Hl; [discriminate|].
  cbv zeta.
  destruct (Cron.crontab_stdin _ h) as [[e|] h1] eqn:Hin; [discriminate|].
  intros [= <-] Hn. apply crontab_stdin_None in Hin as ->.
  unfold Cron.crontab_l in Hl.
  destruct (Cron.listFault h) eqn:Hfault; [discriminate|].
  destruct (Cron.table h) as [text|] eqn:Htable; [|discriminate].
  injection Hl as <-. split; [exists text; split; reflexivity|].
  intros longer Hlonger. unfold Cron.isCronJobInstalled, Cron.crontab_l.
  cbn [Cron.setTable Cron.listFault Cron.table]. rewrite Hfault.
  destruct (GoStrings.Contains _ ("# " ++ longer)) eqn:Hc; [|reflexivity].
  exfalso.
  pose proof (Contains_trans _ _ _ Hc (marker_prefix n longer Hlonger)) as Hm.
  apply (Contains_Join (ascii_of_nat 10)) in Hm as (line & Hin & Hline).
  - pose proof (keepLines_clean ("# " ++ n)
                  (GoStrings.splitByte (ascii_of_nat 10) text)) as Hclean.
    apply (proj1 (List.Forall_forall _ _) Hclean) in Hin. congruence.
  - rewrite countByte_app. now rewrite Hn.
  - discriminate.
Qed.

(** Removing the renewal job from a crontab of three jobs: its line goes,
    the line of the job whose name starts with its name goes with it,
    and the user's own job stays. *)
Lemma removeCronJob_removes_witness :
  let h' := snd (Cron.removeCronJob "autocert-renew" Scenario.busyCron) in
  Cron.isCronJobInstalled "autocert-renew" Scenario.busyCron = true /\
  Cron.isCronJobInstalled "autocert-renew-dev" Scenario.busyCron = true /\
  Cron.table h' = Some ("0 4 * * * /usr/bin/backup" ++ LF) /\
  Cron.isCronJobInstalled "autocert-renew" h' = false /\
  Cron.isCronJobInstalled "autocert-renew-dev" h' = false.
Proof.
  cbv zeta.
  destruct (removeCronJob_removes "autocert-renew" Scenario.busyCron
              (snd (Cron.removeCronJob "autocert-renew" Scenario.busyCron)))
    as [(old & Hold & Hnew) Hgone].
  - vm_compute. reflexivity.
  - reflexivity.
  - split; [vm_compute; reflexivity|]. split; [vm_compute; reflexivity|].
    split.
    + rewrite Hnew. injection Hold as <-. vm_compute. reflexivity.
    + split; apply Hgone; reflexivity.
Defined.

Lemma append_LF a b : (a ++ LF) ++ b = a ++ String (ascii_of_nat 10) b.
Proof. unfold LF. now rewrite append_assoc. Qed.

Lemma splitByte_LF a :
  GoStrings.splitByte (ascii_of_nat 10) (a ++ LF)
  = (GoStrings.splitByte (ascii_of_nat 10) a ++ [""])%list.
Proof. unfold LF. now rewrite splitByte_app. Qed.

(** X18. Installing a task and removing it again gives the crontab back
    when the old text is empty or ends with a newline and does not hold
    the marker, and the schedule, the command and the task name hold no
    newline. *)
Theorem install_then_remove :
  forall (taskName command schedule : string) (h h1 h2 : Cron.Host),
    GoStrings.countByte (ascii_of_nat 10) taskName = 0%nat ->
    GoStrings.countByte (ascii_of_nat 10) command = 0%nat ->
    GoStrings.countByte (ascii_of_nat 10) schedule = 0%nat ->
    Cron.listFault h = false ->
    fst (Cron.crontab_l h) = "" \/
    (exists body, fst (Cron.crontab_l h) = body ++ LF) ->
    GoStrings.Contains (fst (Cron.crontab_l h)) ("# " ++ taskName) = false ->
    Cron.installCronJob taskName command schedule h = (None, h1) ->
    Cron.removeCronJob taskName h1 = (None, h2) ->
    Cron.table h2 = Some (fst (Cron.crontab_l h)).
Proof.
  intros n c s h h1 h2 Hn Hc Hs Hfault Hshape Hfree Hinstall Hremove.
  set (old := fst (Cron.crontab_l h)) in *.
  set (entry := s ++ " " ++ c ++ " renew --all # " ++ n).
  assert (Hentry : GoStrings.countByte (ascii_of_nat 10) entry = 0%nat).
  { unfold entry. rewrite !countByte_app, Hn, Hc, Hs. reflexivity. }
  assert (Hmarked : GoStrings.Contains entry ("# " ++ n) = true).
  { apply Contains_spec. exists (s ++ " " ++ c ++ " renew --all "), "".
    unfold entry. now rewrite !append_assoc, append_nil_r. }
  assert (Hlines : Forall (fun l => GoStrings.Contains l ("# " ++ n) = false)
                     (GoStrings.splitByte (ascii_of_nat 10) old)).
  { apply List.Forall_forall. intros l Hl.
    destruct (GoStrings.Contains l ("# " ++ n)) eqn:E; [|reflexivity].
    rewrite (Contains_piece _ _ _ _ Hl E) in Hfree. discriminate. }
  assert (Htable1 : Cron.table h1 = Some (old ++ entry ++ LF)
                    /\ Cron.listFault h1 = false).
  { revert Hinstall. unfold Cron.installCronJob. fold old.
    destruct (Cron.crontab_l h) as [o e] eqn:Hl. cbn [fst] in old.
    cbv zeta.
    destruct (Cron.crontab_stdin _ h) as [[e'|] hx] eqn:Hin; [discriminate|].
    intros [= <-]. apply crontab_stdin_None in Hin as ->.
    cbn [Cron.setTable Cron.table Cron.listFault]. split; [|exact Hfault].
    unfold entry, old. now rewrite !append_assoc. }
  destruct Htable1 as [Htable1 Hfault1].
  revert Hremove. unfold Cron.removeCronJob, Cron.crontab_l.
  rewrite Hfault1, Htable1. cbv zeta.
  destruct (Cron.crontab_stdin _ h1) as [[e'|] hx] eqn:Hin; [discriminate|].
  intros [= <-]. apply crontab_stdin_None in Hin as ->.
  cbn [Cron.setTable Cron.table]. f_equal.
  assert (Hsplit : GoStrings.splitByte (ascii_of_nat 10) (entry ++ LF)
                   = [entry; ""]).
  { unfold LF. rewrite (splitByte_first _ _ _ Hentry). reflexivity. }
  destruct Hshape as [Hempty|[body Hbody]].
  - rewrite Hempty, append_nil_l, Hsplit. cbn [Cron.keepLines].
    rewrite Hmarked. reflexivity.
  - rewrite Hbody in Hlines |- *.
    rewrite append_LF, splitByte_app, Hsplit.
    rewrite splitByte_LF in Hlines.
    apply Forall_app in Hlines as [Hbodylines _].
    rewrite keepLines_app, (keepLines_all _ _ Hbodylines).
    cbn [Cron.keepLines]. rewrite Hmarked. cbn [negb].
    change (GoStrings.Contains "" ("# " ++ n)) with false. cbn [negb].
    transitivity (GoStrings.Join
                    (GoStrings.splitByte (ascii_of_nat 10) (body ++ LF)) LF);
      [now rewrite splitByte_LF | apply Join_splitByte].
Qed.

Lemma install_then_remove_witness :
  Cron.table
    (snd (Cron.removeCronJob "autocert-renew"
            (snd (Cron.installCronJob "autocert-renew" "/usr/bin/autocert"
                    "0 2 * * *" Scenario.cronHost))))
  = Some (fst (Cron.crontab_l Scenario.cronHost)).
Proof.
  apply (install_then_remove "autocert-renew" "/usr/bin/autocert"
           "0 2 * * *" Scenario.cronHost
           (snd (Cron.installCronJob "autocert-renew" "/usr/bin/autocert"
                   "0 2 * * *" Scenario.cronHost)));
    try reflexivity.
  right. exists "0 4 * * * /usr/bin/backup". reflexivity.
Defined.

(** ** When [Install] goes through, and what it leaves *)

(** X19. For a manager with the key size [NewManager] gives it,
    [Install] succeeds exactly on the worlds that are ready for it: the
    store directory has a name, the system takes its path, those above
    it and the two PEM paths (no NUL byte, not too long), no call fails
    for an outside cause, no file sits on the store directory or above
    it, neither PEM path is a directory and both have their directory
    once the store directory is made, the domain is an IA5String, the
    library draws serial numbers, and the challenge and server types are
    known ones. In particular it never succeeds for a domain with a byte
    beyond ASCII, nor with a library that refuses templates without
    serial number. When it succeeds it leaves the store directory and all
    above it, the rest of the disk as it was, the key file with mode
    0600, the certificate file with the mode it had before or else what
    the umask leaves of 0666 (no [chmod] is done for it), two more clock
    readings and two more keys drawn. *)
Theorem Install_succeeds_exactly :
  forall (m : Manager.t) (w : World),
    Manager.keySize m = 2048 ->
    (InstallReady m w -> Manager.Install m w = (Ok tt, installed m w)) /\
    (forall w',
        Manager.Install m w = (Ok tt, w') ->
        InstallReady m w /\ w' = installed m w) /\
    (isIA5String (Manager.domain m) = false \/ serialNumbers w = false ->
     forall w', Manager.Install m w <> (Ok tt, w')) /\
    (forall path,
        path <> Manager.getKeyPath m -> path <> Manager.getCertPath m ->
        files (installed m w) !! path = files w !! path) /\
    (exists data,
        files (installed m w) !! Manager.getCertPath m
        = Some {| content := data;
                  mode := match files w !! Manager.getCertPath m with
                          | Some f => mode f
                          | None => Z.ldiff 438 (umask w)
                          end |}).
Proof.
  intros m w _. split; [|split; [|split; [|split]]].
  - intros Hready. now apply Install_iff.
  - intros w' Hrun. now apply Install_iff.
  - intros Hbad w' Hrun. apply Install_iff in Hrun as [Hready _].
    unfold InstallReady in Hready. cbv zeta in Hready.
    destruct Hready as (_ & _ & _ & _ & Hd & Hs & _).
    destruct Hbad; congruence.
  - intros path Hk Hc. unfold installed. cbn [files].
    rewrite !lookup_insert_ne by congruence. reflexivity.
  - eexists. unfold installed. cbn [files]. rewrite lookup_insert_eq.
    rewrite lookup_insert_ne by apply single_key_not_cert. reflexivity.
Qed.

(** On an empty disk the sample manager installs; a manager for a domain
    written in Japanese never does. *)
Lemma Install_succeeds_exactly_witness :
  Manager.Install Sample.single Sample.freshWorld
  = (Ok tt, installed Sample.single Sample.freshWorld) /\
  forall w',
    Manager.Install Scenario.japanese Sample.freshWorld <> (Ok tt, w').
Proof.
  split.
  - apply (proj1 (Install_succeeds_exactly Sample.single Sample.freshWorld
                    eq_refl)).
    unfold InstallReady. cbv zeta.
    repeat split;
      first [ reflexivity
            | apply (bool_decide_unpack _); vm_compute; exact I
            | vm_compute; reflexivity ].
  - apply (proj1 (proj2 (proj2
             (Install_succeeds_exactly Scenario.japanese Sample.freshWorld
                eq_refl)))).
    left. vm_compute. reflexivity.
Defined.

Lemma existsb_false {A} (f : A -> bool) l :
  existsb f l = false <-> forall x, In x l -> f x = false.
Proof.
  induction l as [|a l IH]; cbn [existsb In]; [tauto|].
  rewrite orb_false_iff, IH. split.
  - intros [Ha Hl] x [<-|Hx]; auto.
  - intros H. split; [apply H; now left | intros x Hx; apply H; now right].
Qed.

(** A world left by [Install] is ready for the next one, as long as the
    random source keeps working. *)
Lemma installed_ready m w :
  InstallReady m w ->
  faults w (CallGenerateKey (S (S (entropy w)))) = false ->
  faults w (CallGenerateKey (S (S (S (entropy w))))) = false ->
  InstallReady m (installed m w).
Proof.
  unfold InstallReady. cbv zeta.
  intros (A0 & A3 & B7 & E5 & C2 & D4 & A1 & A2 & B1 & B2 & B3 & B4 & B5 &
          B6 & C1 & D1 & D2 & D3 & E1 & E2 & E3 & E4 & F1) G1 G2.
  assert (Hmade : dirs (installed m w) ∪ list_to_set (storeChain m)
                  = dirs w ∪ list_to_set (storeChain m)).
  { unfold installed. cbn [dirs]. apply set_eq. intros x.
    rewrite !elem_of_union. tauto. }
  assert (Hf : faults (installed m w) = faults w) by reflexivity.
  assert (He : entropy (installed m w) = S (S (entropy w))) by reflexivity.
  assert (Hs : serialNumbers (installed m w) = serialNumbers w)
    by reflexivity.
  assert (Ha : OS.accepts (installed m w) = OS.accepts w) by reflexivity.
  rewrite Hmade, Hf, He, Hs, Ha.
  repeat split; try assumption.
  apply existsb_false. intros p Hp.
  rewrite existsb_false in A2. specialize (A2 p Hp).
  assert (Hin : p ∈ dirs w ∪ list_to_set (storeChain m)).
  { apply elem_of_union_r, elem_of_list_to_set, list_elem_of_In, Hp. }
  unfold OS.isFile in *. apply bool_decide_eq_false in A2.
  apply bool_decide_eq_false. unfold installed. cbn [files].
  assert (Hk : Manager.getKeyPath m <> p)
    by (intros Heq; apply B5; now rewrite Heq).
  assert (Hc : Manager.getCertPath m <> p)
    by (intros Heq; apply E3; now rewrite Heq).
  now rewrite !lookup_insert_ne by assumption.
Qed.

(** X20. [Install] can be run again: over the world a successful
    [Install] left, and with a random source that still works, a second
    [Install] succeeds; it makes no directory, adds and removes no file
    and changes no file mode; it replaces the key by a newly drawn one
    and the certificate by one issued from the clock of the second
    run. *)
Theorem Install_twice :
  forall (m : Manager.t) (w w1 : World),
    Manager.Install m w = (Ok tt, w1) ->
    faults w (CallGenerateKey (S (S (entropy w)))) = false ->
    faults w (CallGenerateKey (S (S (S (entropy w))))) = false ->
    exists w2,
      Manager.Install m w1 = (Ok tt, w2) /\
      dirs w2 = dirs w1 /\
      (forall path, is_Some (files w2 !! path) <-> is_Some (files w1 !! path))
      /\
      (forall path f1 f2,
          files w1 !! path = Some f1 -> files w2 !! path = Some f2 ->
          mode f2 = mode f1 /\
          (path <> Manager.getKeyPath m -> path <> Manager.getCertPath m ->
           f2 = f1)) /\
      (exists md,
          files w2 !! Manager.getKeyPath m
          = Some {| content :=
                      PemData
                        {| Type_ := "RSA PRIVATE KEY";
                           Bytes :=
                             DerPrivateKey
                               {| key_bits := Manager.keySize m;
                                  key_draw := S (S (entropy w)) |} |};
                    mode := md |}) /\
      (exists md signer,
          files w2 !! Manager.getCertPath m
          = Some {| content :=
                      PemData
                        {| Type_ := "CERTIFICATE";
                           Bytes :=
                             DerCertificate
                               (issuedAt
                                  {| CommonName := Manager.domain m |}
                                  [Manager.domain m] w1)
                               signer |};
                    mode := md |}).
Proof.
  intros m w w1 [Hready ->]%Install_iff G1 G2.
  pose proof (installed_ready m w Hready G1 G2) as Hready1.
  exists (installed m (installed m w)).
  split; [now apply Install_iff|].
  pose proof (single_key_not_cert m) as Hne.
  assert (Hkey : forall v, exists f,
               files (installed m v) !! Manager.getKeyPath m = Some f /\
               mode f = 384).
  { intros v. eexists. unfold installed. cbn [files].
    rewrite lookup_insert_ne by congruence.
    rewrite lookup_insert_eq. split; reflexivity. }
  assert (Hcert : forall v, exists f,
               files (installed m v) !! Manager.getCertPath m = Some f /\
               mode f = match files v !! Manager.getCertPath m with
                        | Some f0 => mode f0
                        | None => Z.ldiff 438 (umask v)
                        end).
  { intros v. eexists. unfold installed. cbn [files].
    rewrite lookup_insert_eq. split; [reflexivity|]. cbn [mode].
    now rewrite lookup_insert_ne by exact Hne. }
  assert (Hother : forall v path,
             path <> Manager.getKeyPath m -> path <> Manager.getCertPath m ->
             files (installed m v) !! path = files v !! path).
  { intros v path Hk Hc. unfold installed. cbn [files].
    now rewrite !lookup_insert_ne by congruence. }
  split; [|split; [|split; [|split]]].
  - unfold installed. cbn [dirs]. apply set_eq. intros x. rewrite !elem_of_union. tauto.
  - intros path.
    destruct (decide (path = Manager.getKeyPath m)) as [->|Hk].
    { destruct (Hkey (installed m w)) as (f & -> & _).
      destruct (Hkey w) as (f' & -> & _). split; eauto. }
    destruct (decide (path = Manager.getCertPath m)) as [->|Hc].
    { destruct (Hcert (installed m w)) as (f & -> & _).
      destruct (Hcert w) as (f' & -> & _). split; eauto. }
    now rewrite (Hother _ _ Hk Hc).
  - intros path f1 f2 H1 H2.
    destruct (decide (path = Manager.getKeyPath m)) as [->|Hk].
    { destruct (Hkey (installed m w)) as (f & Hf & Hm).
      destruct (Hkey w) as (f' & Hf' & Hm').
      split; [congruence | contradiction]. }
    destruct (decide (path = Manager.getCertPath m)) as [->|Hc].
    { destruct (Hcert (installed m w)) as (f & Hf & Hm).
      rewrite H1 in Hm. split; [congruence | contradiction]. }
    rewrite (Hother _ _ Hk Hc) in H2. split; [congruence|]. congruence.
  - eexists. unfold installed at 1. cbn [files].
    rewrite lookup_insert_ne by congruence. rewrite lookup_insert_eq.
    unfold installed. cbn [entropy]. reflexivity.
  - eexists _, _. unfold installed at 1. cbn [files].
    rewrite lookup_insert_eq. reflexivity.
Qed.

Lemma Install_twice_witness :
  exists w2,
    Manager.Install Sample.single
      (snd (Manager.Install Sample.single Sample.freshWorld))
    = (Ok tt, w2) /\
    dirs w2 = dirs (snd (Manager.Install Sample.single Sample.freshWorld)).
Proof.
  destruct (Install_twice Sample.single Sample.freshWorld
              (snd (Manager.Install Sample.single Sample.freshWorld)))
    as (w2 & Hrun & Hdirs & _).
  - apply run_result. vm_compute. reflexivity.
  - reflexivity.
  - reflexivity.
  - exists w2. split; [exact Hrun | exact Hdirs].
Defined.

(** ** Trimming a line of a generated file *)

Lemma list_ascii_of_string_app a b :
  list_ascii_of_string (a ++ b)
  = (list_ascii_of_string a ++ list_ascii_of_string b)%list.
Proof.
  induction a as [|c a IH]; [reflexivity|].
  rewrite append_cons. cbn [list_ascii_of_string app]. now rewrite IH.
Qed.

Lemma string_of_list_ascii_app l1 l2 :
  string_of_list_ascii (l1 ++ l2)
  = string_of_list_ascii l1 ++ string_of_list_ascii l2.
Proof.
  induction l1 as [|c l1 IH]; [reflexivity|].
  cbn [app string_of_list_ascii]. now rewrite IH, append_cons.
Qed.

Lemma reverse_snoc a z :
  GoStrings.reverse (a ++ String z "") = String z (GoStrings.reverse a).
Proof.
  unfold GoStrings.reverse. rewrite list_ascii_of_string_app, rev_app_distr.
  reflexivity.
Qed.

Lemma reverse_involutive s : GoStrings.reverse (GoStrings.reverse s) = s.
Proof.
  unfold GoStrings.reverse.
  now rewrite list_ascii_of_string_of_list_ascii, rev_involutive,
    string_of_list_ascii_of_string.
Qed.

Lemma trimLeft_stop fuel runes s :
  GoStrings.stripRune runes s = None -> GoStrings.trimLeft fuel runes s = s.
Proof. intros H. destruct fuel; cbn [GoStrings.trimLeft]; now rewrite ?H. Qed.

Lemma stripRune_space s :
  GoStrings.stripRune GoStrings.spaceRunes (String " " s) = Some s.
Proof. reflexivity. Qed.

Lemma length_append a b :
  String.length (a ++ b) = (String.length a + String.length b)%nat.
Proof.
  induction a as [|c a IH]; [reflexivity|].
  rewrite append_cons. cbn [String.length]. now rewrite IH.
Qed.

(** A line indented by four spaces whose text starts and ends with a
    byte that is not part of a white-space rune is trimmed to its
    text. *)
Lemma TrimSpace_indented body :
  GoStrings.stripRune GoStrings.spaceRunes body = None ->
  GoStrings.stripRune (map GoStrings.reverse GoStrings.spaceRunes)
    (GoStrings.reverse body) = None ->
  GoStrings.TrimSpace ("    " ++ body) = body.
Proof.
  intros Hlead Htrail. unfold GoStrings.TrimSpace.
  assert (Hleft : GoStrings.trimLeft (String.length ("    " ++ body))
                    GoStrings.spaceRunes ("    " ++ body) = body).
  { rewrite length_append. cbn [String.length Nat.add].
    rewrite !append_cons, append_nil_l. cbn [GoStrings.trimLeft].
    rewrite !stripRune_space. now apply trimLeft_stop. }
  rewrite Hleft. cbv zeta.
  rewrite (trimLeft_stop _ _ _ Htrail). apply reverse_involutive.
Qed.

(** The directive lines of the template: a keyword, a field, a
    semicolon. *)
Lemma TrimSpace_directive c keyword field :
  (forall rest, GoStrings.stripRune GoStrings.spaceRunes (String c rest)
                = None) ->
  GoStrings.TrimSpace ("    " ++ String c keyword ++ field ++ ";")
  = String c keyword ++ field ++ ";".
Proof.
  intros Hlead. apply TrimSpace_indented.
  - rewrite append_cons. apply Hlead.
  - rewrite <- !append_assoc, reverse_snoc. reflexivity.
Qed.

Lemma Contains_needs_byte s pat c :
  GoStrings.Contains s pat = true ->
  (0 < GoStrings.countByte c pat)%nat -> (0 < GoStrings.countByte c s)%nat.
Proof.
  intros (pre & post & ->)%Contains_spec Hc.
  rewrite !countByte_app. lia.
Qed.

(** Such a line neither opens nor closes a block when its keyword and
    its field hold no brace. *)
Lemma directive_inner c keyword field :
  (forall rest, GoStrings.stripRune GoStrings.spaceRunes (String c rest)
                = None) ->
  GoStrings.countByte "{"%char (String c keyword) = 0%nat ->
  GoStrings.countByte "}"%char (String c keyword) = 0%nat ->
  GoStrings.countByte "{"%char field = 0%nat ->
  GoStrings.countByte "}"%char field = 0%nat ->
  Nginx.inner ("    " ++ String c keyword ++ field ++ ";").
Proof.
  intros Hlead Hk1 Hk2 Hf1 Hf2.
  assert (Hopen : Nginx.opensBlock ("    " ++ String c keyword ++ field ++ ";")
                  = false).
  { unfold Nginx.opensBlock. rewrite (TrimSpace_directive _ _ _ Hlead).
    destruct (GoStrings.Contains _ "server {") eqn:E; [|reflexivity].
    apply (Contains_needs_byte _ _ "{"%char) in E; [|cbn; lia].
    rewrite !countByte_app, Hk1, Hf1 in E. cbn in E. lia. }
  split; [exact Hopen|].
  unfold Nginx.closesBlock. rewrite Hopen. cbn [negb andb].
  fold (Nginx.opensBlock ("    " ++ String c keyword ++ field ++ ";")).
  rewrite (TrimSpace_directive _ _ _ Hlead).
  destruct (GoStrings.Contains _ "}") eqn:E; [|reflexivity].
  apply Contains_byte in E.
  rewrite !countByte_app, Hk2, Hf2 in E. cbn in E. lia.
Qed.

(** ** The lines of a generated file *)

Lemma concat_lines_cons l lines :
  String.concat "" (map (fun line => line ++ LF) (l :: lines))
  = (l ++ LF) ++ String.concat "" (map (fun line => line ++ LF) lines).
Proof.
  destruct lines; cbn [map String.concat];
    [now rewrite append_nil_r | now rewrite append_nil_l].
Qed.

Lemma splitByte_lines lines :
  Forall (fun l => GoStrings.countByte (ascii_of_nat 10) l = 0%nat) lines ->
  GoStrings.splitByte (ascii_of_nat 10)
    (String.concat "" (map (fun line => line ++ LF) lines))
  = (lines ++ [""])%list.
Proof.
  induction 1 as [|l lines Hl _ IH]; [reflexivity|].
  rewrite concat_lines_cons, append_LF, (splitByte_first _ _ _ Hl), IH.
  reflexivity.
Qed.

Lemma dropFinalEmpty_snoc lines :
  Bufio.dropFinalEmpty (lines ++ [""]) = lines.
Proof.
  induction lines as [|l lines IH]; [reflexivity|].
  cbn [app Bufio.dropFinalEmpty]. rewrite IH.
  now destruct (lines ++ [""])%list eqn:E; [destruct lines; discriminate|].
Qed.

Lemma tokens_all lines :
  Forall (fun l => Z.of_nat (String.length l) < 65536 /\ Bufio.dropCR l = l)
    lines ->
  Bufio.tokens lines = lines.
Proof.
  induction 1 as [|l lines [Hlen Hcr] _ IH]; [reflexivity|].
  cbn [Bufio.tokens]. unfold Bufio.MaxScanTokenSize.
  destruct (Z.leb_spec (64 * 1024) (Z.of_nat (String.length l))); [lia|].
  now rewrite Hcr, IH.
Qed.

Lemma dropCR_end a z :
  z <> ascii_of_nat 13 -> Bufio.dropCR (a ++ String z "") = a ++ String z "".
Proof.
  intros Hz. induction a as [|c a IH].
  - rewrite append_nil_l. cbn [Bufio.dropCR].
    now rewrite (proj2 (Ascii.eqb_neq _ _) Hz).
  - rewrite append_cons. cbn [Bufio.dropCR]. rewrite IH.
    destruct (a ++ String z "") eqn:E; [|reflexivity].
    destruct a; discriminate.
Qed.

(** A line of the template that holds a field is as good as the
    field. *)
Lemma directive_line lit field :
  GoStrings.countByte (ascii_of_nat 10) lit = 0%nat ->
  Z.of_nat (String.length lit) < 500 ->
  Webserver.tame field ->
  GoStrings.countByte (ascii_of_nat 10) (lit ++ field ++ ";") = 0%nat /\
  Z.of_nat (String.length (lit ++ field ++ ";")) < 65536 /\
  Bufio.dropCR (lit ++ field ++ ";") = lit ++ field ++ ";".
Proof.
  intros Hlit Hlen (Hlf & _ & _ & Hshort). split; [|split].
  - now rewrite !countByte_app, Hlit, Hlf.
  - rewrite !length_append. cbn [String.length]. lia.
  - rewrite <- !append_assoc. now apply dropCR_end.
Qed.

Ltac template_line :=
  first
    [ apply directive_line; [reflexivity | reflexivity | assumption]
    | split; [reflexivity | split; reflexivity] ].

(** With tame fields, a [Scanner] over the generated text yields the
    lines of the template. *)
Lemma Lines_generated config :
  Webserver.tame (Webserver.Domain config) ->
  Webserver.tame (Webserver.CertPath config) ->
  Webserver.tame (Webserver.KeyPath config) ->
  Webserver.tame (Webserver.WebRoot config) ->
  Bufio.Lines
    (String.concat ""
       (map (fun line => line ++ LF) (Webserver.siteLines config)))
  = Webserver.siteLines config.
Proof.
  intros HD HC HK HW.
  assert (Hall : Forall
                   (fun l =>
                      GoStrings.countByte (ascii_of_nat 10) l = 0%nat /\
                      Z.of_nat (String.length l) < 65536 /\
                      Bufio.dropCR l = l)
                   (Webserver.siteLines config)).
  { unfold Webserver.siteLines.
    repeat (apply List.Forall_cons; [template_line|]).
    apply List.Forall_nil. }
  unfold Bufio.Lines.
  rewrite splitByte_lines, dropFinalEmpty_snoc.
  - apply tokens_all. eapply List.Forall_impl; [|exact Hall].
    intros l (_ & H1 & H2). now split.
  - eapply List.Forall_impl; [|exact Hall]. now intros l (H & _).
Qed.

Ltac inner_line :=
  first [ split; vm_compute; reflexivity | idtac ].

(** The second server block of the template is a tracked block with the
    certificate directive and the name. *)
Lemma siteLines_block config :
  Webserver.tame (Webserver.Domain config) ->
  Webserver.tame (Webserver.CertPath config) ->
  Webserver.tame (Webserver.KeyPath config) ->
  Webserver.tame (Webserver.WebRoot config) ->
  exists body,
    Nginx.TrackedBlock (Webserver.siteLines config) body /\
    Nginx.sslBlockFor (Webserver.Domain config) body.
Proof.
  intros (_ & HD1 & HD2 & _) (_ & HC1 & HC2 & _) (_ & HK1 & HK2 & _)
         (_ & HW1 & HW2 & _).
  exists (firstn 21 (skipn 10 (Webserver.siteLines config))). split.
  - exists (firstn 9 (Webserver.siteLines config)), "server {", "    }",
      (skipn 32 (Webserver.siteLines config)).
    split; [reflexivity|]. split; [vm_compute; reflexivity|].
    split; [vm_compute; reflexivity|].
    cbn [Webserver.siteLines firstn skipn].
    repeat (apply List.Forall_cons; [inner_line|]);
      [ exact (directive_inner "s" "erver_name " _
                 (fun _ => eq_refl) eq_refl eq_refl HD1 HD2)
      | exact (directive_inner "s" "sl_certificate " _
                 (fun _ => eq_refl) eq_refl eq_refl HC1 HC2)
      | exact (directive_inner "s" "sl_certificate_key " _
                 (fun _ => eq_refl) eq_refl eq_refl HK1 HK2)
      | exact (directive_inner "r" "oot " _
                 (fun _ => eq_refl) eq_refl eq_refl HW1 HW2)
      | apply List.Forall_nil ].
  - cbn [Webserver.siteLines firstn skipn]. split.
    + apply List.Exists_exists.
      exists ("    ssl_certificate " ++ Webserver.CertPath config ++ ";").
      split; [cbn [In]; tauto|].
      unfold Nginx.sslDirective.
      change ("    ssl_certificate " ++ Webserver.CertPath config ++ ";")
        with ("    " ++ String "s" "sl_certificate "
                     ++ Webserver.CertPath config ++ ";").
      rewrite TrimSpace_directive by reflexivity. reflexivity.
    + apply List.Exists_exists.
      exists ("    server_name " ++ Webserver.Domain config ++ ";").
      split; [cbn [In]; tauto|].
      unfold Nginx.namesDomain.
      change ("    server_name " ++ Webserver.Domain config ++ ";")
        with ("    " ++ String "s" "erver_name "
                     ++ Webserver.Domain config ++ ";").
      rewrite TrimSpace_directive by reflexivity.
      apply andb_true_iff. split; [reflexivity|].
      apply Contains_spec. exists "server_name ", ";". reflexivity.
Qed.

Lemma WriteFile_Ok path data perm w w' :
  OS.WriteFile path data perm w = (Ok tt, w') ->
  exists md, files w' !! path = Some {| content := data; mode := md |}.
Proof.
  unfold OS.WriteFile.
  intros (_ & _ & _ & _ & _ & ->)%createWrite_iff.
  eexists. cbn [set_files files]. apply lookup_insert_eq.
Qed.

(** X21. The site file that [createSiteConfig] writes is recognised by
    the SSL scan: when the domain, the two PEM paths and the web root
    hold no newline and no brace and are shorter than a scanner line, a
    successful [createSiteConfig] leaves the generated text at
    [/etc/nginx/sites-available/<domain>], and [checkSSLInConfig] on a
    host that opens that file and scans this text answers true for the
    domain. *)
Theorem site_file_is_recognised :
  forall (config : Webserver.Config) (w : World) (file : string)
         (w' : World),
    Webserver.createSiteConfig config w = (Ok file, w') ->
    Webserver.tame (Webserver.Domain config) ->
    Webserver.tame (Webserver.CertPath config) ->
    Webserver.tame (Webserver.KeyPath config) ->
    Webserver.tame (Webserver.WebRoot config) ->
    exists text md,
      Webserver.generateConfig config = Ok text /\
      file = Filepath.Join ["/etc/nginx/sites-available";
                            Webserver.Domain config] /\
      files w' !! file = Some {| content := RawData text; mode := md |} /\
      forall h : Nginx.Host,
        Nginx.openLines h file = Some (Bufio.Lines text) ->
        Nginx.checkSSLInConfig h file (Webserver.Domain config) = true.
Proof.
  intros config w file w' Hrun HD HC HK HW.
  unfold Webserver.createSiteConfig in Hrun. cbv zeta in Hrun.
  apply bind_Ok in Hrun as ([] & w1 & _ & Hrun).
  unfold Webserver.generateConfig in *.
  apply bind_Ok in Hrun as ([] & w2 & [md Hfile]%WriteFile_Ok & [= <- <-]).
  eexists _, md. split; [reflexivity|]. split; [reflexivity|].
  split; [exact Hfile|].
  intros h Hopen. unfold Nginx.checkSSLInConfig. rewrite Hopen.
  rewrite (Lines_generated config HD HC HK HW).
  apply scanLines_true. right. now apply siteLines_block.
Qed.

Lemma site_file_is_recognised_witness :
  exists text md,
    Webserver.generateConfig Scenario.site = Ok text /\
    fst (Webserver.createSiteConfig Scenario.site Sample.freshWorld)
    = Ok (Filepath.Join ["/etc/nginx/sites-available";
                         Webserver.Domain Scenario.site]) /\
    files (snd (Webserver.createSiteConfig Scenario.site Sample.freshWorld))
      !! "/etc/nginx/sites-available/example.com"
    = Some {| content := RawData text; mode := md |}.
Proof.
  destruct (site_file_is_recognised Scenario.site Sample.freshWorld
              "/etc/nginx/sites-available/example.com"
              (snd (Webserver.createSiteConfig Scenario.site
                      Sample.freshWorld)))
    as (text & md & Htext & Hfile & Hstored & _).
  - apply run_result. vm_compute. reflexivity.
  - vm_compute. repeat split; reflexivity.
  - vm_compute. repeat split; reflexivity.
  - vm_compute. repeat split; reflexivity.
  - vm_compute. repeat split; reflexivity.
  - exists text, md. split; [exact Htext|]. split; [|exact Hstored].
    vm_compute. reflexivity.
Defined.

(** ** Listing the Windows tasks *)

Lemma parseRows_panics lines :
  forall tasks,
    WindowsTasks.parseRows lines tasks = None <->
    Exists (fun line =>
              GoStrings.TrimSpace line <> "" /\
              (GoStrings.countByte ","%char line = 3%nat \/
               GoStrings.countByte ","%char line = 4%nat)) lines.
Proof.
  induction lines as [|line rest IH]; intros tasks;
    cbn [WindowsTasks.parseRows].
  - split; [discriminate | intros H; inversion H].
  - rewrite List.Exists_cons.
    destruct (String.eqb_spec (GoStrings.TrimSpace line) "") as [Hb|Hb].
    { rewrite IH. tauto. }
    cbv zeta. pose proof (splitByte_length ","%char line) as Hlen.
    set (fields := GoStrings.splitByte ","%char line) in *.
    destruct (Nat.leb_spec 4 (length fields)) as [H4|H4].
    + destruct (nth_error fields 0) as [f0|] eqn:E0;
        [|apply nth_error_None in E0; lia].
      destruct (nth_error fields 3) as [f3|] eqn:E3;
        [|apply nth_error_None in E3; lia].
      destruct (nth_error fields 4) as [f4|] eqn:E4.
      * assert (H5 : (4 < length fields)%nat)
          by (apply nth_error_Some; congruence).
        destruct (nth_error fields 5) as [f5|] eqn:E5.
        -- assert (5 < length fields)%nat
             by (apply nth_error_Some; congruence).
           rewrite IH. split; [tauto|]. intros [(_ & [Hc|Hc])|Hc]; [lia..|exact Hc].
        -- apply nth_error_None in E5.
           split; [|reflexivity]. intros _. left. split; [exact Hb|]. lia.
      * apply nth_error_None in E4.
        split; [|reflexivity]. intros _. left. split; [exact Hb|]. lia.
    + rewrite IH. split; [tauto|]. intros [(_ & [Hc|Hc])|Hc]; [lia..|exact Hc].
Qed.

Lemma parseRows_names lines :
  forall acc tasks,
    WindowsTasks.parseRows lines acc = Some tasks ->
    map WindowsTasks.Name tasks =
    (map WindowsTasks.Name acc ++
     map (fun line =>
            WindowsTasks.Trim (hd "" (GoStrings.splitByte ","%char line))
              (ascii_of_nat 34))
       (List.filter
          (fun line =>
             negb (String.eqb (GoStrings.TrimSpace line) "") &&
             (5 <=? GoStrings.countByte ","%char line)%nat) lines))%list.
Proof.
  induction lines as [|line rest IH]; intros acc tasks;
    cbn [WindowsTasks.parseRows List.filter].
  - intros [= <-]. cbn [map]. now rewrite app_nil_r.
  - destruct (String.eqb (GoStrings.TrimSpace line) ""); cbn [negb andb].
    { apply IH. }
    cbv zeta. pose proof (splitByte_length ","%char line) as Hlen.
    set (fields := GoStrings.splitByte ","%char line) in *.
    destruct (Nat.leb_spec 4 (length fields)) as [H4|H4].
    + destruct (nth_error fields 0) as [f0|] eqn:E0; [|discriminate].
      destruct (nth_error fields 3) as [f3|]; [|discriminate].
      destruct (nth_error fields 4) as [f4|]; [|discriminate].
      destruct (nth_error fields 5) as [f5|] eqn:E5; [|discriminate].
      assert (H6 : (5 < length fields)%nat)
        by (apply nth_error_Some; congruence).
      destruct (Nat.leb_spec 5 (GoStrings.countByte ","%char line));
        [|lia].
      intros Hrows. rewrite (IH _ _ Hrows), map_app. cbn [map].
      rewrite <- app_assoc. cbn [app]. do 3 f_equal.
      change (GoStrings.splitByte ","%char line) with fields.
      destruct fields as [|f fs]; [discriminate|].
      cbn in E0. injection E0 as ->. reflexivity.
    + destruct (Nat.leb_spec 5 (GoStrings.countByte ","%char line));
        [lia|].
      apply IH.
Qed.

(** X22. [WindowsScheduler.List] panics exactly when the output of
    [schtasks] has, after the header line, a line that is not blank and
    has four or five comma-separated fields (three or four commas): such
    a row passes the length test [len(fields) >= 4] and is then indexed
    at 4 and 5. Otherwise it returns without an error, and the names of
    the tasks are the first fields, without the quotes around them, of
    the lines that are not blank and have six or more fields, in order:
    rows with fewer than four fields are skipped. *)
Theorem List_panics_on_short_rows :
  forall output : string,
    let rows := tl (GoStrings.splitByte (ascii_of_nat 10) output) in
    (WindowsTasks.List (Ok output) = None <->
     Exists (fun line =>
               GoStrings.TrimSpace line <> "" /\
               (GoStrings.countByte ","%char line = 3%nat \/
                GoStrings.countByte ","%char line = 4%nat)) rows) /\
    (forall r, WindowsTasks.List (Ok output) = Some r ->
       exists tasks,
         r = Ok tasks /\
         map WindowsTasks.Name tasks =
         map (fun line =>
                WindowsTasks.Trim
                  (hd "" (GoStrings.splitByte ","%char line))
                  (ascii_of_nat 34))
           (List.filter
              (fun line =>
                 negb (String.eqb (GoStrings.TrimSpace line) "") &&
                 (5 <=? GoStrings.countByte ","%char line)%nat) rows)).
Proof.
  intros output rows. unfold WindowsTasks.List. cbv zeta. fold rows.
  split.
  - rewrite <- (parseRows_panics _ []).
    destruct (WindowsTasks.parseRows _ []); split; congruence.
  - intros r.
    destruct (WindowsTasks.parseRows rows []) as [tasks|] eqn:Hrows;
      [|discriminate].
    intros [= <-]. exists tasks. split; [reflexivity|].
    exact (parseRows_names _ _ _ Hrows).
Qed.
